(** * Auction house front end: data access and view synchronisation

    A shallow embedding of the data-access and view-synchronisation layer
    of the auction-house front end: the view-model helpers (helpers.js),
    the auth store (storage.js), the API gateway functions and bid handlers
    of the dashboard and listing-detail controllers, the page load and the
    form handlers of the edit-listing controller, the search filter
    (search.js), the login and register forms (login.js, register.js), and
    the two gateway functions of the profile controller (profile.js).

    JavaScript values are modelled as a tree type; exceptions as an error
    monad; handlers as state transformers over the page state (DOM hooks,
    localStorage, the queue of answers the network will give, and the log
    of observable events). *)

From Stdlib Require Import ZArith Ascii String DecimalString Sorted.
From stdpp Require Import gmap strings list.

Local Open Scope string_scope.
Local Open Scope Z_scope.

(** ** JavaScript values *)

(** Numbers. The finite numbers the modelled code handles are epoch
    milliseconds, HTTP statuses, counts and credit amounts; they are
    modelled by integers, with [NaN] kept apart because the code tests for
    it and compares against it. *)
Inductive number : Type :=
  | NaN
  | Num (z : Z).

#[local] Unset Elimination Schemes.
Inductive value : Type :=
  | Undefined
  | Null
  | Bool (b : bool)
  | Number (n : number)
  | Str (s : string)
  | Arr (items : list value)
  | Obj (props : list (string * value)).
#[local] Set Elimination Schemes.

(** Thrown values: every throw in the modelled code is an [Error] (or a
    subclass raised by the runtime), identified by its name and message. *)
Record exn : Type := JsError { exn_name : string; exn_message : string }.

Inductive result (A : Type) : Type :=
  | Ok (a : A)
  | Throw (e : exn).
Arguments Ok {A} a.
Arguments Throw {A} e.

Definition bindR {A B : Type} (m : result A) (k : A -> result B) : result B :=
  match m with
  | Ok a => k a
  | Throw e => Throw e
  end.

Notation "'let!' x ':=' m 'in' k" := (bindR m (fun x => k))
  (at level 10, x name, m at level 100, k at level 200).

(** [try { m } catch (e) { h e }] without state *)
Definition catchR {A : Type} (m : result A) (h : exn -> result A) : result A :=
  match m with
  | Ok a => Ok a
  | Throw e => h e
  end.

Definition TypeError (msg : string) : exn := JsError "TypeError" msg.
Definition Error (msg : string) : exn := JsError "Error" msg.

(** [a > b], [a >= b], [a <= b] and [a === b] on numbers: every comparison
    with [NaN] is false. *)
Definition num_gt (a b : number) : bool :=
  match a, b with Num x, Num y => y <? x | _, _ => false end.
Definition num_ge (a b : number) : bool :=
  match a, b with Num x, Num y => y <=? x | _, _ => false end.
Definition num_le (a b : number) : bool :=
  match a, b with Num x, Num y => x <=? y | _, _ => false end.
Definition num_eq (a b : number) : bool :=
  match a, b with Num x, Num y => x =? y | _, _ => false end.

Definition num_isNaN (a : number) : bool :=
  match a with NaN => true | Num _ => false end.

(** [a - b] and [Math.floor(a / d)] for a positive integer constant [d]. *)
Definition num_sub (a b : number) : number :=
  match a, b with Num x, Num y => Num (x - y) | _, _ => NaN end.
Definition num_floor_div (a : number) (d : Z) : number :=
  match a with Num x => Num (x / d) | NaN => NaN end.

Definition Z_to_string (z : Z) : string :=
  NilEmpty.string_of_int (Z.to_int z).

Definition num_to_string (a : number) : string :=
  match a with NaN => "NaN" | Num z => Z_to_string z end.

(** Truthiness ([!x], [x || y], [if (x)]). *)
Definition truthy (v : value) : bool :=
  match v with
  | Undefined | Null => false
  | Bool b => b
  | Number NaN => false
  | Number (Num z) => negb (z =? 0)
  | Str s => negb (String.eqb s EmptyString)
  | Arr _ | Obj _ => true
  end.

(** [a || b] *)
Definition or_else (a b : value) : value := if truthy a then a else b.

Definition isArray (v : value) : bool :=
  match v with Arr _ => true | _ => false end.

Definition array_items (v : value) : list value :=
  match v with Arr items => items | _ => [] end.

(** [a === b]. Arrays and objects compare by reference; the model only
    compares values that come from different sources, so two of them are
    never the same reference. *)
Definition strict_eq (a b : value) : bool :=
  match a, b with
  | Undefined, Undefined | Null, Null => true
  | Bool x, Bool y => Bool.eqb x y
  | Number x, Number y => num_eq x y
  | Str x, Str y => String.eqb x y
  | _, _ => false
  end.

Definition nullish (v : value) : bool :=
  match v with Undefined | Null => true | _ => false end.

(** Own-property lookup in an object literal: the first entry for the key. *)
Fixpoint lookup_prop (k : string) (props : list (string * value)) : value :=
  match props with
  | [] => Undefined
  | (k', v) :: rest => if String.eqb k k' then v else lookup_prop k rest
  end.

Definition str_of_ascii (c : ascii) : string := String c EmptyString.

(** [v[i]] for a value that is neither [undefined] nor [null]. *)
Definition index_of (v : value) (i : nat) : value :=
  match v with
  | Arr items => nth i items Undefined
  | Str s => match String.get i s with Some c => Str (str_of_ascii c) | None => Undefined end
  | Obj props => lookup_prop (Z_to_string (Z.of_nat i)) props
  | _ => Undefined
  end.

(** [v.k] for a value that is neither [undefined] nor [null]; only own data
    properties and [length] are modelled. *)
Definition prop_of (v : value) (k : string) : value :=
  match v with
  | Obj props => lookup_prop k props
  | Arr items =>
      if String.eqb k "length" then Number (Num (Z.of_nat (length items))) else Undefined
  | Str s =>
      if String.eqb k "length" then Number (Num (Z.of_nat (String.length s))) else Undefined
  | _ => Undefined
  end.

(** [v.k]: a [TypeError] on [undefined] and [null]. *)
Definition get (v : value) (k : string) : result value :=
  if nullish v
  then Throw (TypeError ("Cannot read properties of " +:+
                         (match v with Null => "null" | _ => "undefined" end) +:+
                         " (reading '" +:+ k +:+ "')"))
  else Ok (prop_of v k).

(** [v?.k] and [v?.[i]] *)
Definition get_opt (v : value) (k : string) : value :=
  if nullish v then Undefined else prop_of v k.
Definition index_opt (v : value) (i : nat) : value :=
  if nullish v then Undefined else index_of v i.

Fixpoint join (sep : string) (parts : list string) : string :=
  match parts with
  | [] => EmptyString
  | [p] => p
  | p :: rest => p +:+ sep +:+ join sep rest
  end.

(** [String(v)], as template literals, [new Error(v)] and
    [localStorage.setItem] apply it. *)
Fixpoint ToString (v : value) : string :=
  match v with
  | Undefined => "undefined"
  | Null => "null"
  | Bool true => "true"
  | Bool false => "false"
  | Number n => num_to_string n
  | Str s => s
  | Arr items =>
      join "," ((fix elems (l : list value) : list string :=
                   match l with
                   | [] => []
                   | x :: l' =>
                       (if nullish x then EmptyString else ToString x) :: elems l'
                   end) items)
  | Obj _ => "[object Object]"
  end.

(** ** The platform

    What the code takes from the browser and from [api/config.js] (which is
    not among the sources): conversions, the JSON codec, string methods and
    the two deployment constants. The definitions below are parametric in
    it; [reference_platform], further down, is an executable one on which
    the model is evaluated at concrete inputs. *)
Class Platform : Type := {
  (** [Number(s)] for a string [s] *)
  Number_of_string : string -> number;
  (** [new Date(v).getTime()]: epoch milliseconds, [NaN] for an invalid date *)
  Date_getTime : value -> number;
  (** [JSON.stringify(v)] for an object [v] *)
  JSON_stringify : value -> string;
  (** [JSON.parse(s)], which throws a [SyntaxError] on malformed text *)
  JSON_parse : string -> result value;
  (** [s.trim()] and [s.toLowerCase()] *)
  trim : string -> string;
  toLowerCase : string -> string;
  encodeURIComponent : string -> string;
  (** [d.toLocaleDateString(..)], [d.toLocaleTimeString(..)] and
      [d.toLocaleString(..)] of [new Date(v)] with the options the code passes *)
  toLocaleDateString : value -> string;
  toLocaleTimeString : value -> string;
  toLocaleString : value -> string;
  (** [getFullYear()], [getMonth()], [getDate()], [getHours()] and
      [getMinutes()] of [new Date(v)], in the viewer's time zone *)
  Date_local_fields : value -> Z * Z * Z * Z * Z;
  API_BASE : string;
  API_KEY : string
}.

(** ** helpers.js *)

Module Helpers.

Section WithPlatform.
Context `{Platform}.

Definition formatDate (isostring : value) : string :=
  if negb (truthy isostring) then "unknown" else toLocaleDateString isostring.

(** [now] is the reading of the clock that [new Date()] takes. *)
Definition getTimeRemaining (now : Z) (endsAt : value) : string :=
  if negb (truthy endsAt) then EmptyString else
  let diffMs := num_sub (Date_getTime endsAt) (Num now) in
  if num_le diffMs (Num 0) then "Ended" else
  let diffMinutes := num_floor_div diffMs (1000 * 60) in
  let diffHours := num_floor_div diffMinutes 60 in
  let diffDays := num_floor_div diffHours 24 in
  if num_ge diffDays (Num 1) then
    "in about " +:+ num_to_string diffDays +:+ " day" +:+
      (if num_gt diffDays (Num 1) then "s" else EmptyString)
  else if num_ge diffHours (Num 1) then
    "in about " +:+ num_to_string diffHours +:+ " hour" +:+
      (if num_gt diffHours (Num 1) then "s" else EmptyString)
  else
    "in about " +:+ num_to_string diffMinutes +:+ " minute" +:+
      (if num_gt diffMinutes (Num 1) then "s" else EmptyString).

End WithPlatform.

(** [listing.media && listing.media.length > 0 && listing.media[0].url] *)
Definition getListingImage (listing : value) : result value :=
  let! media := get listing "media" in
  if truthy media && num_gt (match prop_of media "length" with Number n => n | _ => NaN end) (Num 0)
  then
    let! url := get (index_of media 0) "url" in
    if truthy url then Ok url else Ok (Str "images/vase.jpg")
  else Ok (Str "images/vase.jpg").

(** [listing.bids.reduce((max, bid) => ..., 0)] *)
Fixpoint reduce_max (bids : list value) (max : number) : result number :=
  match bids with
  | [] => Ok max
  | bid :: rest =>
      let! a := get bid "amount" in
      let amount := match a with Number n => n | _ => Num 0 end in
      reduce_max rest (if num_gt amount max then amount else max)
  end.

Definition getHighestBidAmount (listing : value) : result number :=
  let! bids := get listing "bids" in
  if negb (isArray bids) || strict_eq (prop_of bids "length") (Number (Num 0))
  then Ok (Num 0)
  else reduce_max (array_items bids) (Num 0).

End Helpers.


(** ** A state and exception monad for the code that touches the browser *)

Definition M (S A : Type) : Type := S -> result A * S.

Definition ret {S A : Type} (a : A) : M S A := fun s => (Ok a, s).
Definition throw {S A : Type} (e : exn) : M S A := fun s => (Throw e, s).
Definition bind {S A B : Type} (m : M S A) (k : A -> M S B) : M S B :=
  fun s => match m s with
           | (Ok a, s') => k a s'
           | (Throw e, s') => (Throw e, s')
           end.
Definition liftR {S A : Type} (r : result A) : M S A := fun s => (r, s).
Definition gets {S A : Type} (f : S -> A) : M S A := fun s => (Ok (f s), s).
Definition modify {S : Type} (f : S -> S) : M S unit := fun s => (Ok tt, f s).

(** [try { m } catch (e) { h e }] and [try { m } finally { f }] *)
Definition try_catch {S A : Type} (m : M S A) (h : exn -> M S A) : M S A :=
  fun s => match m s with
           | (Throw e, s') => h e s'
           | r => r
           end.
Definition try_finally {S A : Type} (m : M S A) (f : M S unit) : M S A :=
  fun s => let '(r, s') := m s in
           match f s' with
           | (Ok _, s'') => (r, s'')
           | (Throw e, s'') => (Throw e, s'')
           end.

(** Running a computation on a component of a larger state. *)
Definition zoom {S T A : Type} (proj : T -> S) (inj : S -> T -> T) (m : M S A) : M T A :=
  fun t => let '(r, s') := m (proj t) in (r, inj s' t).

Definition exec {S A : Type} (m : M S A) (s : S) : S := (m s).2.

Notation "'let*' x ':=' m 'in' k" := (bind m (fun x => k))
  (at level 10, x name, m at level 100, k at level 200).
Notation "m1 ;;; m2" := (bind m1 (fun _ => m2))
  (at level 100, m2 at level 200, right associativity).

(** ** storage.js: the auth store *)

Module Storage.

Definition TOKEN_KEY : string := "ah_token".
Definition PROFILE_KEY : string := "ah_profile".

(** [localStorage]: string keys to string values. *)
Abbreviation localStorage := (gmap string string).

Definition setItem (k v : string) : M localStorage unit := modify (insert k v).
Definition removeItem (k : string) : M localStorage unit := modify (delete k).
Definition getItem (k : string) (ls : localStorage) : value :=
  match ls !! k with Some s => Str s | None => Null end.

(** The own enumerable properties of a value, as object spread and rest
    patterns copy them. *)
Fixpoint indexed (i : nat) (items : list value) : list (string * value) :=
  match items with
  | [] => []
  | x :: rest => (Z_to_string (Z.of_nat i), x) :: indexed (S i) rest
  end.
Fixpoint chars (s : string) : list value :=
  match s with
  | EmptyString => []
  | String c s' => Str (str_of_ascii c) :: chars s'
  end.
Definition own_entries (v : value) : list (string * value) :=
  match v with
  | Obj props => props
  | Arr items => indexed 0 items
  | Str s => indexed 0 (chars s)
  | _ => []
  end.

(** [const { k, ...rest } = data]: the rest object. *)
Definition rest_without (k : string) (data : value) : value :=
  Obj (filter (fun kv => kv.1 <> k) (own_entries data)).

Section WithPlatform.
Context `{Platform}.

Definition saveAuth (data : value) : M localStorage unit :=
  let* accessToken := liftR (get data "accessToken") in
  let profile := rest_without "accessToken" data in
  (if truthy accessToken then setItem TOKEN_KEY (ToString accessToken) else ret tt) ;;;
  setItem PROFILE_KEY (JSON_stringify profile).

Definition getToken (ls : localStorage) : value := getItem TOKEN_KEY ls.

Definition getProfile (ls : localStorage) : result value :=
  let raw := getItem PROFILE_KEY ls in
  if negb (truthy raw) then Ok Null else
  catchR (JSON_parse (ToString raw)) (fun _ => Ok Null).

Definition clearAuth : M localStorage unit :=
  removeItem TOKEN_KEY ;;; removeItem PROFILE_KEY.

End WithPlatform.

End Storage.

(** ** search.js: the client-side search filter *)

Module Search.

(** [s] begins with the characters of [q]. *)
Fixpoint starts_with (q s : string) : bool :=
  match q, s with
  | EmptyString, _ => true
  | String c q', String c' s' => Ascii.eqb c c' && starts_with q' s'
  | String _ _, EmptyString => false
  end.

(** [s.includes(q)]: [q] occurs in [s] as a contiguous run of characters. *)
Fixpoint includes (s q : string) : bool :=
  starts_with q s ||
  match s with
  | EmptyString => false
  | String _ s' => includes s' q
  end.

Section WithPlatform.
Context `{Platform}.

(** [(v || empty).toLowerCase()], [empty] the empty string: a [TypeError]
    when the operand is truthy and
    not a string, since only strings have the method. *)
Definition lowered (v : value) : result string :=
  match or_else v (Str EmptyString) with
  | Str s => Ok (toLowerCase s)
  | _ => Throw (TypeError "toLowerCase is not a function")
  end.

(** The callback of [allListings.filter]. *)
Definition matches (query : string) (listing : value) : result bool :=
  let! t := get listing "title" in
  let! title := lowered t in
  let! d := get listing "description" in
  let! description := lowered d in
  Ok (includes title query || includes description query).

Fixpoint filter_listings (query : string) (listings : list value) : result (list value) :=
  match listings with
  | [] => Ok []
  | listing :: rest =>
      let! keep := matches query listing in
      let! rest' := filter_listings query rest in
      Ok (if keep then listing :: rest' else rest')
  end.

(** [input] is the value of [#home-search-query] ([None] when the element
    is missing), [allListings] is [window.allListings] and [hasRender] tells
    whether [window.renderListings] is a function. The result is the array
    handed to [renderListings], or [None] when the handler returns without
    rendering. *)
Definition handleSearchSubmit (input : option string) (allListings : value)
    (hasRender : bool) : result (option (list value)) :=
  match input with
  | None => Ok None
  | Some inputValue =>
      let query := toLowerCase (trim inputValue) in
      let allListings := or_else allListings (Arr []) in
      if negb (isArray allListings) || negb hasRender then Ok None
      else if String.eqb query EmptyString then Ok (Some (array_items allListings))
      else
        let! filtered := filter_listings query (array_items allListings) in
        Ok (Some filtered)
  end.

End WithPlatform.

End Search.

(** ** The browser: storage, network, clock, document and what the user sees *)

Record request : Type := {
  req_method : string;
  req_url : string;
  req_headers : list (string * string);
  req_body : option string
}.

(** What the remote service answers to one [fetch]: the promise rejects, or
    it resolves to a response with a status and a body, [None] standing for
    a body that is not JSON. *)
Inductive answer : Type :=
  | NetworkError
  | Response (status : Z) (body : option value).

Record response : Type := { res_status : Z; res_body : option value }.

Definition res_ok (r : response) : bool :=
  (200 <=? res_status r) && (res_status r <=? 299).

(** [await res.json()] *)
Definition res_json (r : response) : result value :=
  match res_body r with
  | Some v => Ok v
  | None => Throw (JsError "SyntaxError" "Unexpected token in JSON")
  end.

Inductive event : Type :=
  | Fetch (r : request)
  | Alert (msg : string)
  | Navigate (url : string).

(** One row of the bid history. *)
Record bid_row : Type := { row_user : string; row_time : string; row_amount : string }.

(** The properties of a DOM element that the controllers write. *)
Record element : Type := {
  textContent : string;
  el_value : string;
  disabled : bool;
  src : string;
  alt : string;
  rows : list bid_row
}.

Definition set_textContent (t : string) (e : element) : element :=
  {| textContent := t; el_value := el_value e; disabled := disabled e;
     src := src e; alt := alt e; rows := rows e |}.
Definition set_value (v : string) (e : element) : element :=
  {| textContent := textContent e; el_value := v; disabled := disabled e;
     src := src e; alt := alt e; rows := rows e |}.
Definition set_disabled (d : bool) (e : element) : element :=
  {| textContent := textContent e; el_value := el_value e; disabled := d;
     src := src e; alt := alt e; rows := rows e |}.
Definition set_src (u : string) (e : element) : element :=
  {| textContent := textContent e; el_value := el_value e; disabled := disabled e;
     src := u; alt := alt e; rows := rows e |}.
Definition set_alt (a : string) (e : element) : element :=
  {| textContent := textContent e; el_value := el_value e; disabled := disabled e;
     src := src e; alt := a; rows := rows e |}.
Definition set_rows (r : list bid_row) (e : element) : element :=
  {| textContent := textContent e; el_value := el_value e; disabled := disabled e;
     src := src e; alt := alt e; rows := r |}.

Record Browser : Type := {
  storage : gmap string string;
  (** the answers the network will give to the coming requests, in order *)
  answers : list answer;
  (** the reading of the clock, in epoch milliseconds *)
  clock : Z;
  (** the document: selector of a hook to the element it finds *)
  dom : gmap string element;
  (** requests sent, alerts shown and navigations started, oldest first *)
  log : list event
}.

Definition with_storage (ls : gmap string string) (b : Browser) : Browser :=
  {| storage := ls; answers := answers b; clock := clock b; dom := dom b; log := log b |}.
Definition with_answers (a : list answer) (b : Browser) : Browser :=
  {| storage := storage b; answers := a; clock := clock b; dom := dom b; log := log b |}.
Definition with_dom (d : gmap string element) (b : Browser) : Browser :=
  {| storage := storage b; answers := answers b; clock := clock b; dom := d; log := log b |}.
Definition with_log (l : list event) (b : Browser) : Browser :=
  {| storage := storage b; answers := answers b; clock := clock b; dom := dom b; log := l |}.

Definition emit (e : event) : M Browser unit :=
  modify (fun b => with_log (log b ++ [e]) b).

Definition alert (msg : string) : M Browser unit := emit (Alert msg).
(** [window.location.href = url] *)
Definition navigate (url : string) : M Browser unit := emit (Navigate url).

(** [await fetch(url, options)]: the request is recorded and the next answer
    of the network consumed; with no answer left the request fails like a
    network error. *)
Definition fetch (r : request) : M Browser response :=
  fun b =>
    let b' := with_log (log b ++ [Fetch r]) b in
    match answers b with
    | Response st body :: rest =>
        (Ok {| res_status := st; res_body := body |}, with_answers rest b')
    | NetworkError :: rest =>
        (Throw (TypeError "Failed to fetch"), with_answers rest b')
    | [] => (Throw (TypeError "Failed to fetch"), b')
    end.

(** Running an auth-store operation on the browser's [localStorage]. *)
Definition on_storage {A : Type} (m : M (gmap string string) A) : M Browser A :=
  zoom storage with_storage m.

(** [document.querySelector(sel)] and writes through the element found. *)
Definition querySelector (sel : string) : M Browser (option element) :=
  gets (fun b => dom b !! sel).
Definition update_element (sel : string) (f : element -> element) : M Browser unit :=
  modify (fun b => with_dom (alter f sel (dom b)) b).

Definition is_fetch (e : event) : bool :=
  match e with Fetch _ => true | _ => false end.

(** ** Object helpers shared by the controllers *)

(** [obj[k] = v] on the entries of an object. *)
Fixpoint set_prop (k : string) (v : value) (props : list (string * value))
    : list (string * value) :=
  match props with
  | [] => [(k, v)]
  | (k', v') :: rest =>
      if String.eqb k k' then (k, v) :: rest else (k', v') :: set_prop k v rest
  end.

(** Copying the own properties of [source] onto the entries [props], as
    [{ ...props, ...source }] and [Object.assign] do. *)
Definition copy_props (source : value) (props : list (string * value))
    : list (string * value) :=
  fold_left (fun acc kv => set_prop kv.1 kv.2 acc) (Storage.own_entries source) props.

(** [Object.assign(target, source)]: the new content of [target]. Only
    object targets are modelled as changing; a primitive target is wrapped
    and the wrapper dropped. *)
Definition Object_assign (target source : value) : result value :=
  match target with
  | Undefined | Null => Throw (TypeError "Cannot convert undefined or null to object")
  | Obj props => Ok (Obj (copy_props source props))
  | _ => Ok target
  end.

(** [a ?? b] and [a && b] *)
Definition nullish_else (a b : value) : value := if nullish a then b else a.
Definition and_then (a b : value) : value := if truthy a then b else a.

(** [Array.isArray(v.bids) ? v.bids.length : 0] after [v._count?.bids ??]:
    the bid count both controllers display. *)
Definition bids_count (listing : value) : result value :=
  let! _count := get listing "_count" in
  let! bids := get listing "bids" in
  Ok (nullish_else (get_opt _count "bids")
        (if isArray bids then prop_of bids "length" else Number (Num 0))).

(** ** dashboard.js *)

Module Dashboard.

(** What the click handler of one listing card closes over: the root of
    the card (its hooks are looked up below it), the listing object, which
    is the element of [allListings] at [card_listing], and the [id] and
    [isOwnListing] computed when the card was created. *)
Record card : Type := {
  card_root : string;
  card_listing : nat;
  card_id : value;
  card_isOwnListing : bool
}.

Record state : Type := {
  browser : Browser;
  allListings : list value;
  currentUser : value
}.

Definition with_browser (b : Browser) (s : state) : state :=
  {| browser := b; allListings := allListings s; currentUser := currentUser s |}.
Definition with_allListings (l : list value) (s : state) : state :=
  {| browser := browser s; allListings := l; currentUser := currentUser s |}.
Definition with_currentUser (u : value) (s : state) : state :=
  {| browser := browser s; allListings := allListings s; currentUser := u |}.

Definition br {A : Type} (m : M Browser A) : M state A := zoom browser with_browser m.

(** [col.querySelector(cls)] for the card's root [col]. *)
Definition hook (c : card) (cls : string) : string := card_root c +:+ " " +:+ cls.

Section WithPlatform.
Context `{Platform}.

Definition updateCreditsDisplay (credits : value) : M Browser unit :=
  update_element "#nav-credits-value" (set_textContent (ToString credits)).

Definition refreshProfileCredits : M state unit :=
  let* token := gets (fun s => Storage.getToken (storage (browser s))) in
  let* profile := br (fun b => (Storage.getProfile (storage b), b)) in
  if negb (truthy token) || negb (truthy (get_opt profile "name")) then ret tt else
  try_catch
    (let* name := liftR (get profile "name") in
     let* res := br (fetch {|
         req_method := "GET";
         req_url := API_BASE +:+ "/auction/profiles/" +:+ encodeURIComponent (ToString name);
         req_headers := [("Authorization", "Bearer " +:+ ToString token);
                         ("X-Noroff-API-Key", API_KEY)];
         req_body := None |}) in
     if negb (res_ok res) then ret tt else
     let* result := liftR (res_json res) in
     let* updatedProfile := liftR (get result "data") in
     br (on_storage (Storage.saveAuth
                       (Obj (copy_props updatedProfile [("accessToken", token)])))) ;;;
     modify (with_currentUser updatedProfile) ;;;
     let* credits := liftR (get updatedProfile "credits") in
     br (updateCreditsDisplay credits))
    (fun _ => ret tt).

Definition placeBid (listingId : value) (amount : number) : M Browser value :=
  let* token := gets (fun b => Storage.getToken (storage b)) in
  if negb (truthy token) then throw (Error "You must be logged in to place a bid.") else
  let* response := fetch {|
      req_method := "POST";
      req_url := API_BASE +:+ "/auction/listings/" +:+ ToString listingId +:+ "/bids";
      req_headers := [("Content-Type", "application/json");
                      ("Authorization", "Bearer " +:+ ToString token);
                      ("X-Noroff-API-Key", API_KEY)];
      req_body := Some (JSON_stringify (Obj [("amount", Number amount)])) |} in
  if negb (res_ok response) then
    let* errorBody := liftR (catchR (res_json response) (fun _ => Ok (Obj []))) in
    let* errors := liftR (get errorBody "errors") in
    let message :=
      or_else (get_opt (index_opt errors 0) "message")
              (Str ("API error: " +:+ Z_to_string (res_status response))) in
    throw (Error (ToString message))
  else
    let* result := liftR (res_json response) in
    liftR (get result "data").

Definition fetchListingById (listingId : value) : M Browser value :=
  let* token := gets (fun b => Storage.getToken (storage b)) in
  let* response := fetch {|
      req_method := "GET";
      req_url := API_BASE +:+ "/auction/listings/" +:+
                 encodeURIComponent (ToString listingId) +:+ "?_seller=true&_bids=true";
      req_headers := ("X-Noroff-API-Key", API_KEY) ::
                     (if truthy token then [("Authorization", "Bearer " +:+ ToString token)]
                      else []);
      req_body := None |} in
  if negb (res_ok response) then
    let* errorBody := liftR (catchR (res_json response) (fun _ => Ok (Obj []))) in
    let* errors := liftR (get errorBody "errors") in
    let message :=
      or_else (get_opt (index_opt errors 0) "message")
              (Str ("API error: " +:+ Z_to_string (res_status response))) in
    throw (Error (ToString message))
  else
    let* result := liftR (res_json response) in
    liftR (get result "data").

(** The count with [bid] after it, in the plural unless the count is 1. *)
Definition bids_label (n : value) : string :=
  ToString n +:+ " bid" +:+
  (if strict_eq n (Number (Num 1)) then EmptyString else "s").

(** The body of the [try] block of the click handler. *)
Definition submitBid (c : card) (amount : number) : M state unit :=
  br (update_element (hook c ".listing-card-bid-btn") (set_disabled true)) ;;;
  br (update_element (hook c ".listing-card-bid-btn") (set_textContent "Placing bid...")) ;;;
  let* _placed := br (placeBid (card_id c) amount) in
  let* freshListing := br (fetchListingById (card_id c)) in
  let* listing := gets (fun s => default Undefined (allListings s !! card_listing c)) in
  let* assigned := liftR (Object_assign listing freshListing) in
  modify (fun s => with_allListings (<[card_listing c := assigned]> (allListings s)) s) ;;;
  let* newBidsCount := liftR (bids_count freshListing) in
  let* newHighestBid := liftR (Helpers.getHighestBidAmount freshListing) in
  br (update_element (hook c ".listing-card-highest-bid")
        (set_textContent (num_to_string newHighestBid +:+ " credits"))) ;;;
  br (update_element (hook c ".listing-card-badge") (set_textContent (bids_label newBidsCount))) ;;;
  br (update_element (hook c ".listing-card-bids-text")
        (set_textContent
           (if strict_eq newBidsCount (Number (Num 0)) then "No bids yet"
            else bids_label newBidsCount +:+ " so far"))) ;;;
  br (update_element (hook c ".bid-input") (set_value EmptyString)) ;;;
  refreshProfileCredits ;;;
  br (alert "Bid placed successfully!").

(** The click handler that [createListingCard] attaches to the card's bid
    button. It is attached only when the card's five hooks were found, so
    the input is there when it runs. *)
Definition bidClick (c : card) : M state unit :=
  let* bidInput := br (querySelector (hook c ".bid-input")) in
  match bidInput with
  | None => ret tt
  | Some bidInput =>
      if String.eqb (el_value bidInput) EmptyString then
        br (alert "Please enter a bid amount.")
      else
        let amount := Number_of_string (el_value bidInput) in
        if num_isNaN amount || num_le amount (Num 0) then
          br (alert "Bid amount must be greater than 0.")
        else
          let* listing := gets (fun s => default Undefined (allListings s !! card_listing c)) in
          let* currentHighest := liftR (Helpers.getHighestBidAmount listing) in
          if num_le amount currentHighest then
            br (alert ("Your bid must be higher than the current highest bid (" +:+
                       num_to_string currentHighest +:+ " credits)."))
          else
            try_finally
              (try_catch (submitBid c amount)
                 (fun error =>
                    br (alert (if String.eqb (exn_message error) EmptyString
                               then "Sorry, something went wrong placing your bid."
                               else exn_message error))))
              (if negb (card_isOwnListing c) then
                 br (update_element (hook c ".listing-card-bid-btn") (set_disabled false)) ;;;
                 br (update_element (hook c ".listing-card-bid-btn") (set_textContent "Bid"))
               else ret tt)
  end.

End WithPlatform.

End Dashboard.

(** ** listing-detail.js *)

Module ListingDetail.

Record state : Type := {
  browser : Browser;
  currentListing : value;
  currentUser : value;
  accessToken : value
}.

Definition with_browser (b : Browser) (s : state) : state :=
  {| browser := b; currentListing := currentListing s;
     currentUser := currentUser s; accessToken := accessToken s |}.
Definition with_currentListing (l : value) (s : state) : state :=
  {| browser := browser s; currentListing := l;
     currentUser := currentUser s; accessToken := accessToken s |}.

Definition br {A : Type} (m : M Browser A) : M state A := zoom browser with_browser m.

(** The hooks the script looks up when it loads. *)
Definition imageEl : string := "#listingImage".
Definition titleEl : string := "#listingTitle".
Definition descriptionEl : string := "#listingDescription".
Definition sellerEl : string := "#listingSeller".
Definition totalBidsEl : string := "#listingTotalBids".
Definition highestBidEl : string := "#listingHighestBid".
Definition endsAtEl : string := "#listingEndsAt".
Definition bidForm : string := "#placeBidForm".
Definition bidAmountInput : string := "#bidAmountInput".
Definition placeBidButton : string := "#placeBidButton".
Definition bidHistoryList : string := "#bidHistoryList".
Definition navCreditsEl : string := "#nav-credits-value".

Definition present (sel : string) (b : Browser) : bool := bool_decide (is_Some (dom b !! sel)).

Section WithPlatform.
Context `{Platform}.

Definition LISTINGS_BASE : string := API_BASE +:+ "/auction/listings".
Definition PROFILE_BASE : string := API_BASE +:+ "/auction/profiles".

Definition updateNavCredits (credits : value) : M Browser unit :=
  match credits with
  | Number _ => update_element navCreditsEl (set_textContent (ToString credits))
  | _ => ret tt
  end.

Definition refreshProfileCredits : M Browser unit :=
  let* token := gets (fun b => Storage.getToken (storage b)) in
  let* profile := (fun b => (Storage.getProfile (storage b), b)) in
  if negb (truthy token) || negb (truthy (get_opt profile "name")) then ret tt else
  try_catch
    (let* name := liftR (get profile "name") in
     let* res := fetch {|
         req_method := "GET";
         req_url := PROFILE_BASE +:+ "/" +:+ encodeURIComponent (ToString name);
         req_headers := [("Authorization", "Bearer " +:+ ToString token);
                         ("X-Noroff-API-Key", API_KEY)];
         req_body := None |} in
     if negb (res_ok res) then ret tt else
     let* result := liftR (res_json res) in
     let* updatedProfile := liftR (get result "data") in
     on_storage (Storage.saveAuth
                   (Obj (copy_props updatedProfile [("accessToken", token)]))) ;;;
     let* credits := liftR (get updatedProfile "credits") in
     updateNavCredits credits)
    (fun _ => ret tt).

Definition formatEndsAt (isoString : value) : string :=
  if negb (truthy isoString) then "Unknown"
  else Helpers.formatDate isoString +:+ ", " +:+ toLocaleTimeString isoString.

(** The comparator of the bid history,
    [(a, b) => new Date(b.created).getTime() - new Date(a.created).getTime()]. *)
Definition compare_bids (a b : value) : result number :=
  let! cb := get b "created" in
  let! ca := get a "created" in
  Ok (num_sub (Date_getTime cb) (Date_getTime ca)).

(** [Array.prototype.sort] as a stable insertion sort: an element goes
    after those the comparator puts strictly before it. With a consistent
    comparator (every [created] a date that parses) this is the order of
    every conforming engine, the sort being stable. A [created] that does
    not parse makes the comparator return [NaN] and the order is then left
    to the engine: the model fixes an order of its own there, which only
    the facts that hold of any rearrangement may rely on. *)
Fixpoint insert_bid (x : value) (sorted : list value) : result (list value) :=
  match sorted with
  | [] => Ok [x]
  | y :: ys =>
      let! c := compare_bids x y in
      if num_gt c (Num 0) then
        let! r := insert_bid x ys in Ok (y :: r)
      else Ok (x :: sorted)
  end.
Fixpoint sort_bids (l : list value) : result (list value) :=
  match l with
  | [] => Ok []
  | x :: xs => let! s := sort_bids xs in insert_bid x s
  end.

Definition is_undefined (v : value) : bool :=
  match v with Undefined => true | _ => false end.

(** [[...bids].sort(cmp)]: [undefined] elements go last without being
    compared. *)
Definition sorted_copy (bids : list value) : result (list value) :=
  let! s := sort_bids (List.filter (fun v => negb (is_undefined v)) bids) in
  Ok (s ++ List.filter is_undefined bids)%list.

Definition bid_to_row (bid : value) : result bid_row :=
  let! bidder := get bid "bidder" in
  let! bidderName :=
    (if truthy bidder then get bidder "name" else Ok bidder) in
  let bidderName :=
    or_else (or_else bidderName (prop_of bid "bidderName")) (Str "Unknown bidder") in
  let created := prop_of bid "created" in
  let timeText := if truthy created then toLocaleString created else "Unknown time" in
  Ok {| row_user := ToString bidderName;
        row_time := timeText;
        row_amount := ToString (prop_of bid "amount") +:+ " credits" |}.

Fixpoint append_rows (bids : list value) : M Browser unit :=
  match bids with
  | [] => ret tt
  | bid :: rest =>
      let* row := liftR (bid_to_row bid) in
      update_element bidHistoryList (fun e => set_rows (rows e ++ [row])%list e) ;;;
      append_rows rest
  end.

Definition renderBidHistory (listing : value) : M Browser unit :=
  let* list := querySelector bidHistoryList in
  match list with
  | None => ret tt
  | Some _ =>
      update_element bidHistoryList
        (fun e => set_rows [] (set_textContent EmptyString e)) ;;;
      let* b := liftR (get listing "bids") in
      let bids := if isArray b then array_items b else [] in
      match bids with
      | [] => update_element bidHistoryList (set_textContent "No bids yet.")
      | _ =>
          let* sortedBids := liftR (sorted_copy bids) in
          append_rows sortedBids
      end
  end.

Definition updateBidFormState : M state unit :=
  let* b := gets browser in
  let* listing := gets currentListing in
  if negb (present bidForm b) || negb (present bidAmountInput b) ||
     negb (present placeBidButton b) || negb (truthy listing)
  then ret tt else
  let token := Storage.getToken (storage b) in
  let* profile := liftR (Storage.getProfile (storage b)) in
  let user := or_else profile Null in
  let isLoggedIn := truthy token && truthy user in
  let seller := prop_of listing "seller" in
  let isOwnListing :=
    isLoggedIn && truthy seller && strict_eq (prop_of seller "name") (prop_of user "name") in
  let now := clock b in
  let endsAt := prop_of listing "endsAt" in
  let isEnded := truthy endsAt && num_le (Date_getTime endsAt) (Num now) in
  if negb isLoggedIn then
    br (update_element bidAmountInput (set_disabled true)) ;;;
    br (update_element placeBidButton (set_disabled false)) ;;;
    br (update_element placeBidButton (set_textContent "Login or register to place a bid"))
  else if isOwnListing then
    br (update_element bidAmountInput (set_disabled true)) ;;;
    br (update_element placeBidButton (set_disabled true)) ;;;
    br (update_element placeBidButton (set_textContent "Your listing"))
  else if isEnded then
    br (update_element bidAmountInput (set_disabled true)) ;;;
    br (update_element placeBidButton (set_disabled true)) ;;;
    br (update_element placeBidButton (set_textContent "Auction ended"))
  else
    br (update_element bidAmountInput (set_disabled false)) ;;;
    br (update_element placeBidButton (set_disabled false)) ;;;
    br (update_element placeBidButton (set_textContent "Place Bid")).

Definition renderListing (listing : value) : M state unit :=
  modify (with_currentListing listing) ;;;
  let* title := liftR (get listing "title") in
  let description := prop_of listing "description" in
  let seller := prop_of listing "seller" in
  let endsAt := prop_of listing "endsAt" in
  let* imageUrl := liftR (Helpers.getListingImage listing) in
  let sellerName := or_else (get_opt seller "name") (Str "Unknown seller") in
  let* bidsCount := liftR (bids_count listing) in
  let* highestBid := liftR (Helpers.getHighestBidAmount listing) in
  let endsAtText := formatEndsAt endsAt in
  br (update_element imageEl (set_src (ToString imageUrl))) ;;;
  br (update_element imageEl (set_alt (ToString (or_else title (Str "Listing image"))))) ;;;
  br (update_element titleEl (set_textContent (ToString (or_else title (Str "Untitled listing"))))) ;;;
  br (update_element descriptionEl
        (set_textContent
           (ToString (or_else description (Str "No description provided for this listing."))))) ;;;
  br (update_element sellerEl (set_textContent (ToString sellerName))) ;;;
  br (update_element totalBidsEl (set_textContent (ToString bidsCount))) ;;;
  br (update_element highestBidEl
        (set_textContent
           (if strict_eq bidsCount (Number (Num 0)) then "No bids yet"
            else num_to_string highestBid +:+ " credits"))) ;;;
  br (update_element endsAtEl (set_textContent endsAtText)) ;;;
  br (renderBidHistory listing) ;;;
  updateBidFormState.

(** [data?.errors?.[0]?.message] *)
Definition first_error_message (data : value) : value :=
  get_opt (index_opt (get_opt data "errors") 0) "message".

Definition fetchListing (id : value) : M Browser value :=
  let* token := gets (fun b => Storage.getToken (storage b)) in
  let* res := fetch {|
      req_method := "GET";
      req_url := LISTINGS_BASE +:+ "/" +:+ encodeURIComponent (ToString id) +:+
                 "?_seller=true&_bids=true";
      req_headers := ("X-Noroff-API-Key", API_KEY) ::
                     (if truthy token then [("Authorization", "Bearer " +:+ ToString token)]
                      else []);
      req_body := None |} in
  let* data := liftR (catchR (res_json res) (fun _ => Ok (Obj []))) in
  if negb (res_ok res) then
    let message :=
      or_else (or_else (first_error_message data) (get_opt data "message"))
              (Str ("Failed to load listing (" +:+ Z_to_string (res_status res) +:+ ")")) in
    throw (Error (ToString message))
  else liftR (get data "data").

Definition placeBid (listingId : value) (amount : number) : M Browser value :=
  let* token := gets (fun b => Storage.getToken (storage b)) in
  let* profile := (fun b => (Storage.getProfile (storage b), b)) in
  if negb (truthy token) || negb (truthy profile) then
    throw (Error "You must be logged in to place a bid.")
  else
  let* res := fetch {|
      req_method := "POST";
      req_url := LISTINGS_BASE +:+ "/" +:+ encodeURIComponent (ToString listingId) +:+ "/bids";
      req_headers := [("Content-Type", "application/json");
                      ("Authorization", "Bearer " +:+ ToString token);
                      ("X-Noroff-API-Key", API_KEY)];
      req_body := Some (JSON_stringify (Obj [("amount", Number amount)])) |} in
  let* data := liftR (catchR (res_json res) (fun _ => Ok (Obj []))) in
  if negb (res_ok res) then
    let message :=
      or_else (or_else (first_error_message data) (get_opt data "message"))
              (Str ("Failed to place bid (" +:+ Z_to_string (res_status res) +:+ ")")) in
    throw (Error (ToString message))
  else liftR (get data "data").

(** The body of the [try] block of [handleBidSubmit]. *)
Definition submitBid (amount : number) : M state unit :=
  br (update_element placeBidButton (set_disabled true)) ;;;
  br (update_element placeBidButton (set_textContent "Placing bid...")) ;;;
  let* listing := gets currentListing in
  let* _placed := br (placeBid (prop_of listing "id") amount) in
  let* freshListing := br (fetchListing (prop_of listing "id")) in
  modify (with_currentListing freshListing) ;;;
  renderListing freshListing ;;;
  br (update_element bidAmountInput (set_value EmptyString)) ;;;
  br refreshProfileCredits ;;;
  br (alert "Bid placed successfully!").

Definition handleBidSubmit : M state unit :=
  let* b := gets browser in
  let* listing := gets currentListing in
  if negb (truthy listing) || negb (present bidAmountInput b) ||
     negb (present placeBidButton b)
  then ret tt else
  let token := Storage.getToken (storage b) in
  let* profile := liftR (Storage.getProfile (storage b)) in
  if negb (truthy token) || negb (truthy profile) then
    br (alert "You need to login or register before placing a bid.") ;;;
    br (navigate "login.html")
  else
  let amountValue := default EmptyString (el_value <$> dom b !! bidAmountInput) in
  if String.eqb amountValue EmptyString then
    br (alert "Please enter a bid amount.")
  else
  let amount := Number_of_string amountValue in
  if num_isNaN amount || num_le amount (Num 0) then
    br (alert "Bid amount must be greater than 0.")
  else
  let* currentHighest := liftR (Helpers.getHighestBidAmount listing) in
  if num_le amount currentHighest then
    br (alert ("Your bid must be higher than the current highest bid (" +:+
               num_to_string currentHighest +:+ " credits)."))
  else
    try_finally
      (try_catch (submitBid amount)
         (fun error => br (alert (exn_message error))))
      updateBidFormState.

End WithPlatform.

End ListingDetail.

(** ** edit-listing.js *)

Module EditListing.

(** What the listeners attached at page load close over. *)
Record listener_env : Type := {
  env_token : value;
  env_profile : value;
  env_listingId : value
}.

Record state : Type := {
  browser : Browser;
  (** [new URLSearchParams(window.location.search).get("id")] *)
  url_id : value;
  (** the listeners on the form's [submit] and on the delete button's [click] *)
  submit_listener : option listener_env;
  delete_listener : option listener_env
}.

Definition with_browser (b : Browser) (s : state) : state :=
  {| browser := b; url_id := url_id s;
     submit_listener := submit_listener s; delete_listener := delete_listener s |}.
Definition with_submit_listener (l : option listener_env) (s : state) : state :=
  {| browser := browser s; url_id := url_id s;
     submit_listener := l; delete_listener := delete_listener s |}.
Definition with_delete_listener (l : option listener_env) (s : state) : state :=
  {| browser := browser s; url_id := url_id s;
     submit_listener := submit_listener s; delete_listener := l |}.

Definition br {A : Type} (m : M Browser A) : M state A := zoom browser with_browser m.

Definition API_BASE : string := "https://v2.api.noroff.dev".
Definition LISTINGS_BASE : string := API_BASE +:+ "/auction/listings".

Definition form : string := "#editListingForm".
Definition titleInput : string := "#listingTitleInput".
Definition descriptionInput : string := "#listingDescriptionInput".
Definition mediaInput : string := "#mediaUrlsInput".
Definition saveBtn : string := "#saveListingButton".
Definition deleteBtn : string := "#deleteListingButton".
Definition endDateInput : string := "#endDateInput".
Definition endTimeInput : string := "#endTimeInput".

Definition present (sel : string) (b : Browser) : bool := bool_decide (is_Some (dom b !! sel)).

(** [String(n).padStart(2, "0")] for a number [n] *)
Definition pad2 (n : Z) : string :=
  let s := Z_to_string n in
  if (String.length s <? 2)%nat then "0" +:+ s else s.

Section WithPlatform.
Context `{Platform}.

Definition requireAuth : M Browser (option (value * value)) :=
  let* token := gets (fun b => Storage.getToken (storage b)) in
  let* profile := (fun b => (Storage.getProfile (storage b), b)) in
  if negb (truthy token) || negb (truthy profile) then
    navigate "login.html" ;;; ret None
  else ret (Some (token, profile)).

(** [mediaArray.map((m) => m.url)] *)
Fixpoint media_urls (media : list value) : result (list value) :=
  match media with
  | [] => Ok []
  | m :: rest =>
      let! url := get m "url" in
      let! urls := media_urls rest in
      Ok (url :: urls)
  end.

Definition mediaToTextarea (mediaArray : value) : result string :=
  if negb (isArray mediaArray) || strict_eq (prop_of mediaArray "length") (Number (Num 0))
  then Ok EmptyString
  else
    let! urls := media_urls (array_items mediaArray) in
    Ok (join (String (ascii_of_nat 10) EmptyString)
          (List.map (fun u => if nullish u then EmptyString else ToString u) urls)).

Definition splitEndsAtToDateTime (endsAt : value) : string * string :=
  if negb (truthy endsAt) then (EmptyString, EmptyString)
  else if num_isNaN (Date_getTime endsAt) then (EmptyString, EmptyString)
  else
    let '(yyyy, month, dd, hh, min) := Date_local_fields endsAt in
    (Z_to_string yyyy +:+ "-" +:+ pad2 (month + 1) +:+ "-" +:+ pad2 dd,
     pad2 hh +:+ ":" +:+ pad2 min).

Definition fetchListing (token id : value) : M Browser value :=
  let* res := fetch {|
      req_method := "GET";
      req_url := LISTINGS_BASE +:+ "/" +:+ ToString id +:+ "?_seller=true&_bids=true";
      req_headers := [("Authorization", "Bearer " +:+ ToString token);
                      ("X-Noroff-API-Key", API_KEY)];
      req_body := None |} in
  let* data := liftR (catchR (res_json res) (fun _ => Ok (Obj []))) in
  if negb (res_ok res) then
    let message :=
      or_else (ListingDetail.first_error_message data)
              (Str ("Failed to load listing (" +:+ Z_to_string (res_status res) +:+ ")")) in
    throw (Error (ToString message))
  else liftR (get data "data").

Definition updateListing (token id body : value) : M Browser value :=
  let* res := fetch {|
      req_method := "PUT";
      req_url := LISTINGS_BASE +:+ "/" +:+ ToString id;
      req_headers := [("Content-Type", "application/json");
                      ("Authorization", "Bearer " +:+ ToString token);
                      ("X-Noroff-API-Key", API_KEY)];
      req_body := Some (JSON_stringify body) |} in
  let* data := liftR (catchR (res_json res) (fun _ => Ok (Obj []))) in
  if negb (res_ok res) then
    let message :=
      or_else (ListingDetail.first_error_message data)
              (Str ("Failed to update listing (" +:+ Z_to_string (res_status res) +:+ ")")) in
    throw (Error (ToString message))
  else liftR (get data "data").

Definition deleteListing (token id : value) : M Browser bool :=
  let* res := fetch {|
      req_method := "DELETE";
      req_url := LISTINGS_BASE +:+ "/" +:+ ToString id;
      req_headers := [("Authorization", "Bearer " +:+ ToString token);
                      ("X-Noroff-API-Key", API_KEY)];
      req_body := None |} in
  if negb (res_ok res) then
    let* data := liftR (catchR (res_json res) (fun _ => Ok (Obj []))) in
    let message :=
      or_else (ListingDetail.first_error_message data)
              (Str ("Failed to delete listing (" +:+ Z_to_string (res_status res) +:+ ")")) in
    throw (Error (ToString message))
  else ret true.

Definition populateForm (listing currentUserName : value) : M Browser unit :=
  let* title := liftR (get listing "title") in
  let description := prop_of listing "description" in
  let media := prop_of listing "media" in
  let seller := prop_of listing "seller" in
  let endsAt := prop_of listing "endsAt" in
  if negb (truthy seller) || negb (strict_eq (prop_of seller "name") currentUserName) then
    alert "You can only edit your own listings." ;;;
    navigate "profile.html"
  else
    update_element titleInput (set_value (ToString (or_else title (Str EmptyString)))) ;;;
    update_element descriptionInput
      (set_value (ToString (or_else description (Str EmptyString)))) ;;;
    let* hasMedia := gets (present mediaInput) in
    (if hasMedia then
       let* text := liftR (mediaToTextarea media) in
       update_element mediaInput (set_value text)
     else ret tt) ;;;
    let '(date, time) := splitEndsAtToDateTime endsAt in
    update_element endDateInput (set_value date) ;;;
    update_element endTimeInput (set_value time).

(** The [DOMContentLoaded] handler. *)
Definition onLoad : M state unit :=
  let* auth := br requireAuth in
  match auth with
  | None => ret tt
  | Some (token, profile) =>
      let* listingId := gets url_id in
      if negb (truthy listingId) then
        br (alert "No listing ID provided.") ;;;
        br (navigate "profile.html")
      else
        try_catch
          (let* listing := br (fetchListing token listingId) in
           br (populateForm listing (prop_of profile "name")) ;;;
           let env := {| env_token := token; env_profile := profile;
                         env_listingId := listingId |} in
           let* b := gets browser in
           (if present form b then modify (with_submit_listener (Some env)) else ret tt) ;;;
           (if present deleteBtn b then modify (with_delete_listener (Some env)) else ret tt))
          (fun error =>
             br (alert (if String.eqb (exn_message error) EmptyString
                        then "Could not load listing." else exn_message error)) ;;;
             br (navigate "profile.html"))
  end.

End WithPlatform.

End EditListing.

(** ** profile.js: its two gateway functions *)

Module Profile.

(** [fetch(r)] whose promise is awaited later: the request leaves at once
    and the next answer of the network settles the promise, to a response
    or to the error of the network. *)
Definition fetch_later (r : request) : M Browser (result response) :=
  fun b => let '(settled, b') := fetch r b in (Ok settled, b').

Section WithPlatform.
Context `{Platform}.

Definition PROFILE_BASE : string := API_BASE +:+ "/auction/profiles".

(** The four requests are sent before any answer is awaited;
    [await Promise.all([...])] then yields the four responses, or rejects
    with the error of a request the network failed. *)
Definition fetchProfileWithListings (token name : value) : M Browser value :=
  let encodedName := encodeURIComponent (ToString name) in
  let headers := [("Authorization", "Bearer " +:+ ToString token);
                  ("X-Noroff-API-Key", API_KEY)] in
  let request_to (path : string) : request :=
    {| req_method := "GET";
       req_url := PROFILE_BASE +:+ "/" +:+ encodedName +:+ path;
       req_headers := headers;
       req_body := None |} in
  let* profileResPromise := fetch_later (request_to EmptyString) in
  let* listingsResPromise := fetch_later (request_to "/listings?_bids=true") in
  let* bidsResPromise := fetch_later (request_to "/bids?_listings=true") in
  let* winsResPromise := fetch_later (request_to "/wins?_bids=true") in
  let* profileRes := liftR profileResPromise in
  let* listingsRes := liftR listingsResPromise in
  let* bidsRes := liftR bidsResPromise in
  let* winsRes := liftR winsResPromise in
  if negb (res_ok profileRes) then
    throw (Error ("Failed to load profile: " +:+ Z_to_string (res_status profileRes)))
  else if negb (res_ok listingsRes) then
    throw (Error ("Failed to load listings: " +:+ Z_to_string (res_status listingsRes)))
  else if negb (res_ok bidsRes) then
    throw (Error ("Failed to load bids: " +:+ Z_to_string (res_status bidsRes)))
  else if negb (res_ok winsRes) then
    throw (Error ("Failed to load wins: " +:+ Z_to_string (res_status winsRes)))
  else
    let* profileJson := liftR (res_json profileRes) in
    let* listingsJson := liftR (res_json listingsRes) in
    let* bidsJson := liftR (res_json bidsRes) in
    let* winsJson := liftR (res_json winsRes) in
    let* profile := liftR (get profileJson "data") in
    let* listings := liftR (get listingsJson "data") in
    let* bids := liftR (get bidsJson "data") in
    let* wins := liftR (get winsJson "data") in
    ret (Obj [("profile", profile); ("listings", listings);
              ("bids", bids); ("wins", wins)]).

Definition updateProfileOnServer (token name payload : value) : M Browser value :=
  let* res := fetch {|
      req_method := "PUT";
      req_url := PROFILE_BASE +:+ "/" +:+ encodeURIComponent (ToString name);
      req_headers := [("Content-Type", "application/json");
                      ("Authorization", "Bearer " +:+ ToString token);
                      ("X-Noroff-API-Key", API_KEY)];
      req_body := Some (JSON_stringify payload) |} in
  let* result := liftR (res_json res) in
  if negb (res_ok res) then
    let message :=
      or_else (ListingDetail.first_error_message result)
              (Str ("Failed to update profile (" +:+ Z_to_string (res_status res) +:+ ")")) in
    throw (Error (ToString message))
  else liftR (get result "data").

End WithPlatform.

End Profile.

(** ** edit-listing.js: the handlers of the form *)

(** [Date.prototype.toISOString], for the date the edit form builds; only
    the save handler uses it. *)
Class IsoDates : Type := {
  (** [new Date(v).toISOString()] for a valid date [v] *)
  Date_toISOString : value -> string
}.

Module EditForm.

Definition newline : ascii := Eval cbv in ascii_of_nat 10.

(** The characters of the class [[\n,]]. *)
Definition is_separator (c : ascii) : bool :=
  Ascii.eqb c newline || Ascii.eqb c ",".

(** [s.split(/[\n,]+/)]: the pieces between the maximal runs of separators.
    The head of the result is the piece that [s] begins with; [in_run]
    tells that a separator was just read, so that a further one opens no
    new piece. *)
Fixpoint split_runs (in_run : bool) (s : string) : list string :=
  match s with
  | EmptyString => [EmptyString]
  | String c rest =>
      if is_separator c then
        if in_run then split_runs true rest
        else EmptyString :: split_runs true rest
      else
        match split_runs false rest with
        | piece :: pieces => String c piece :: pieces
        | [] => [String c EmptyString]
        end
  end.

Section WithPlatform.
Context `{Platform} `{IsoDates}.

(** The [alt] text of the image at [index]. *)
Definition alt_text (title : string) (index : nat) : string :=
  (if String.eqb title EmptyString then "Listing" else title) +:+
  " image " +:+ Z_to_string (Z.of_nat index + 1).

Definition parseMediaTextarea (text title : string) : list value :=
  let trimmed := trim text in
  if String.eqb trimmed EmptyString then [] else
  let urls :=
    List.filter (fun u => negb (String.eqb u EmptyString))
      (List.map trim (split_runs false trimmed)) in
  imap (fun index url => Obj [("url", Str url); ("alt", Str (alt_text title index))]) urls.

Definition buildEndsAt (dateValue timeValue : string) : value :=
  if String.eqb dateValue EmptyString then Null else
  let time := if String.eqb timeValue EmptyString then "00:00" else timeValue in
  let localDateTime := Str (dateValue +:+ "T" +:+ time) in
  if num_isNaN (Date_getTime localDateTime) then Null
  else Str (Date_toISOString localDateTime).

(** The body of the [try] block of [handleSave]. *)
Definition submitSave (env : EditListing.listener_env) (payload : value)
    : M EditListing.state unit :=
  EditListing.br (update_element EditListing.saveBtn (set_disabled true)) ;;;
  EditListing.br (update_element EditListing.saveBtn (set_textContent "Saving...")) ;;;
  let* _updated :=
    EditListing.br (EditListing.updateListing (EditListing.env_token env)
                      (EditListing.env_listingId env) payload) in
  EditListing.br (alert "Listing updated successfully!") ;;;
  EditListing.br (navigate "profile.html").

(** The listener of the form's [submit] event, with the [auth] and
    [listingId] it was attached with. *)
Definition handleSave (env : EditListing.listener_env) : M EditListing.state unit :=
  let* b := gets EditListing.browser in
  match dom b !! EditListing.titleInput, dom b !! EditListing.descriptionInput,
        dom b !! EditListing.mediaInput, dom b !! EditListing.endDateInput,
        dom b !! EditListing.endTimeInput with
  | Some titleInput, Some descriptionInput, Some mediaInput,
    Some endDateInput, Some endTimeInput =>
      let title := trim (el_value titleInput) in
      let description := trim (el_value descriptionInput) in
      let mediaValue := el_value mediaInput in
      let endDateValue := el_value endDateInput in
      let endTimeValue := el_value endTimeInput in
      if String.eqb title EmptyString || String.eqb description EmptyString then
        EditListing.br (alert "Title and description are required.")
      else if String.eqb endDateValue EmptyString || String.eqb endTimeValue EmptyString then
        EditListing.br (alert "Please select an end date and time.")
      else
        let endsAt := buildEndsAt endDateValue endTimeValue in
        if negb (truthy endsAt) then
          EditListing.br (alert "Please choose a valid end date and time.")
        else if num_le (Date_getTime endsAt) (Num (clock b)) then
          EditListing.br (alert "End date/time must be in the future.")
        else
          let media := parseMediaTextarea mediaValue title in
          let payload :=
            Obj [("title", Str title); ("description", Str description);
                 ("media", Arr media); ("endsAt", endsAt)] in
          try_finally
            (try_catch (submitSave env payload)
               (fun error =>
                  EditListing.br
                    (alert (if String.eqb (exn_message error) EmptyString
                            then "Could not update listing." else exn_message error))))
            (EditListing.br (update_element EditListing.saveBtn (set_disabled false)) ;;;
             EditListing.br (update_element EditListing.saveBtn
                               (set_textContent "Save Listing")))
  | _, _, _, _, _ => EditListing.br (alert "Form is not correctly initialized.")
  end.

(** The body of the [try] block of [handleDelete]. *)
Definition submitDelete (env : EditListing.listener_env) : M EditListing.state unit :=
  EditListing.br (update_element EditListing.deleteBtn (set_disabled true)) ;;;
  EditListing.br (update_element EditListing.deleteBtn (set_textContent "Deleting...")) ;;;
  let* _deleted :=
    EditListing.br (EditListing.deleteListing (EditListing.env_token env)
                      (EditListing.env_listingId env)) in
  EditListing.br (alert "Listing deleted successfully.") ;;;
  EditListing.br (navigate "profile.html").

(** The listener of the delete button; [confirmed] is the user's answer to
    the [confirm] dialog. *)
Definition handleDelete (confirmed : bool) (env : EditListing.listener_env)
    : M EditListing.state unit :=
  if negb confirmed then ret tt else
  try_finally
    (try_catch (submitDelete env)
       (fun error =>
          EditListing.br
            (alert (if String.eqb (exn_message error) EmptyString
                    then "Could not delete listing." else exn_message error))))
    (EditListing.br (update_element EditListing.deleteBtn (set_disabled false)) ;;;
     EditListing.br (update_element EditListing.deleteBtn (set_textContent "Delete Listing"))).

End WithPlatform.

End EditForm.

(** ** dashboard.js: the texts of a listing card *)

Module DashboardCard.

Section WithPlatform.
Context `{Platform}.

(** [Number(v)], as the comparison [v > 130] applies it to its operand: an
    array or an object is first turned into its string. *)
Definition ToNumber (v : value) : number :=
  match v with
  | Undefined => NaN
  | Null => Num 0
  | Bool b => Num (if b then 1 else 0)
  | Number n => n
  | Str s => Number_of_string s
  | Arr _ | Obj _ => Number_of_string (ToString v)
  end.

(** The [shortDescription] of [createListingCard]. Only strings and arrays
    have a [slice] method. *)
Definition shortDescription (description : value) : result value :=
  if truthy description && num_gt (ToNumber (prop_of description "length")) (Num 130) then
    match description with
    | Str s => Ok (Str (String.substring 0 127 s +:+ "..."))
    | Arr items => Ok (Str (ToString (Arr (take 127 items)) +:+ "..."))
    | _ => Throw (TypeError "description.slice is not a function")
    end
  else Ok (or_else description (Str "No description provided.")).

End WithPlatform.

End DashboardCard.

(** ** login.js and register.js *)

(** The two endpoints of [api/config.js] that the forms post to. *)
Class Endpoints : Type := {
  LOGIN_URL : string;
  REGISTER_URL : string
}.

(** What the login page and the register page share: both files define
    [showMessage], [showLoader] and [hideLoader] in the same words. *)
Module FormPage.

(** An element of which the pages write the class list and the text. *)
Record node : Type := { classes : list string; text : string }.

(** [n.className = cs] (the classes separated by spaces), [n.classList.add(c)],
    [n.classList.remove(c)] and [n.textContent = t] *)
Definition set_className (cs : list string) (n : node) : node :=
  {| classes := cs; text := text n |}.
Definition classList_add (c : string) (n : node) : node :=
  if bool_decide (c ∈ classes n) then n
  else {| classes := classes n ++ [c]; text := text n |}.
Definition classList_remove (c : string) (n : node) : node :=
  {| classes := List.filter (fun c' => negb (String.eqb c' c)) (classes n);
     text := text n |}.
Definition set_text (t : string) (n : node) : node :=
  {| classes := classes n; text := t |}.

Record page : Type := {
  browser : Browser;
  (** the entries of [new FormData(form)], in document order, when the form
      is on the page *)
  form : option (list (string * string));
  toast : option node;
  loader : option node;
  nameHint : option node;
  emailHint : option node;
  passwordHint : option node;
  (** the redirects scheduled by [setTimeout]: delay in milliseconds and
      address *)
  timers : list (Z * string)
}.

Definition with_browser (b : Browser) (p : page) : page :=
  {| browser := b; form := form p; toast := toast p; loader := loader p;
     nameHint := nameHint p; emailHint := emailHint p; passwordHint := passwordHint p;
     timers := timers p |}.
Definition with_toast (n : option node) (p : page) : page :=
  {| browser := browser p; form := form p; toast := n; loader := loader p;
     nameHint := nameHint p; emailHint := emailHint p; passwordHint := passwordHint p;
     timers := timers p |}.
Definition with_loader (n : option node) (p : page) : page :=
  {| browser := browser p; form := form p; toast := toast p; loader := n;
     nameHint := nameHint p; emailHint := emailHint p; passwordHint := passwordHint p;
     timers := timers p |}.
Definition with_nameHint (n : option node) (p : page) : page :=
  {| browser := browser p; form := form p; toast := toast p; loader := loader p;
     nameHint := n; emailHint := emailHint p; passwordHint := passwordHint p;
     timers := timers p |}.
Definition with_emailHint (n : option node) (p : page) : page :=
  {| browser := browser p; form := form p; toast := toast p; loader := loader p;
     nameHint := nameHint p; emailHint := n; passwordHint := passwordHint p;
     timers := timers p |}.
Definition with_passwordHint (n : option node) (p : page) : page :=
  {| browser := browser p; form := form p; toast := toast p; loader := loader p;
     nameHint := nameHint p; emailHint := emailHint p; passwordHint := n;
     timers := timers p |}.
Definition with_timers (t : list (Z * string)) (p : page) : page :=
  {| browser := browser p; form := form p; toast := toast p; loader := loader p;
     nameHint := nameHint p; emailHint := emailHint p; passwordHint := passwordHint p;
     timers := t |}.

Definition br {A : Type} (m : M Browser A) : M page A := zoom browser with_browser m.

(** Writes through an element that may be missing: [if (el) ...]. *)
Definition on_toast (f : node -> node) : M page unit :=
  modify (fun p => with_toast (f <$> toast p) p).
Definition on_loader (f : node -> node) : M page unit :=
  modify (fun p => with_loader (f <$> loader p) p).
Definition on_nameHint (f : node -> node) : M page unit :=
  modify (fun p => with_nameHint (f <$> nameHint p) p).
Definition on_emailHint (f : node -> node) : M page unit :=
  modify (fun p => with_emailHint (f <$> emailHint p) p).
Definition on_passwordHint (f : node -> node) : M page unit :=
  modify (fun p => with_passwordHint (f <$> passwordHint p) p).

(** [setTimeout(() => { window.location.href = url; }, delay)] *)
Definition setTimeout (delay : Z) (url : string) : M page unit :=
  modify (fun p => with_timers (timers p ++ [(delay, url)]) p).

Inductive message_type : Type := error | success.

Definition showMessage (t : string) (type : message_type) : M page unit :=
  on_toast (fun n =>
    if String.eqb t EmptyString then
      set_className ["toast-message"] (set_text EmptyString n)
    else
      set_text t
        (classList_add (match type with
                        | success => "toast-message--success"
                        | error => "toast-message--error"
                        end)
           (set_className ["toast-message"; "toast-message--visible"] n))).

Definition showLoader : M page unit := on_loader (classList_add "is-visible").
Definition hideLoader : M page unit := on_loader (classList_remove "is-visible").

(** [Object.fromEntries(formData)[k]]: the last entry of that name, a
    string when there is one. *)
Fixpoint field (k : string) (entries : list (string * string)) : value :=
  match entries with
  | [] => Undefined
  | (k', v) :: rest =>
      match field k rest with
      | Undefined => if String.eqb k k' then Str v else Undefined
      | later => later
      end
  end.

(** [s.endsWith(suffix)] *)
Fixpoint ends_with (suffix s : string) : bool :=
  String.eqb s suffix ||
  match s with
  | EmptyString => false
  | String _ s' => ends_with suffix s'
  end.

(** [result?.errors?.map((err) => err.message).join(", ")] *)
Fixpoint messages_of (errors : list value) : result (list string) :=
  match errors with
  | [] => Ok []
  | err :: rest =>
      let! message := get err "message" in
      let! messages := messages_of rest in
      Ok ((if nullish message then EmptyString else ToString message) :: messages)
  end.
Definition joined_errors (body : value) : result value :=
  let errors := get_opt body "errors" in
  if nullish errors then Ok Undefined
  else match errors with
       | Arr items => let! messages := messages_of items in Ok (Str (join ", " messages))
       | _ => Throw (TypeError "result.errors.map is not a function")
       end.

(** The message of the error thrown on a response that is not ok. *)
Definition errorMessage (body : value) : result string :=
  let! joined := joined_errors body in
  Ok (ToString (or_else (or_else joined (get_opt body "message"))
                  (Str "Something went wrong."))).

Section WithPlatform.
Context `{Platform}.

(** The request both forms send: a POST of the JSON text of [body]. *)
Definition post (url : string) (body : value) : request :=
  {| req_method := "POST";
     req_url := url;
     req_headers := [("Content-Type", "application/json")];
     req_body := Some (JSON_stringify body) |}.

End WithPlatform.

End FormPage.

Module Login.

Import FormPage.

Section WithPlatform.
Context `{Platform} `{Endpoints}.

Definition clearFieldErrors : M page unit :=
  on_emailHint (classList_remove "is-invalid") ;;;
  on_passwordHint (classList_remove "is-invalid").

(** Every value the modelled code throws is an [Error], so the [catch]
    block always shows the message of what it caught. *)
Definition loginUser (credentials : value) : M page unit :=
  showMessage EmptyString error ;;;
  showLoader ;;;
  try_finally
    (try_catch
       (let* response := br (fetch (post LOGIN_URL credentials)) in
        let* result := liftR (res_json response) in
        if negb (res_ok response) then
          let* message := liftR (errorMessage result) in
          throw (Error message)
        else
          (if truthy (and_then result (prop_of result "data")) then
             br (on_storage (Storage.saveAuth (prop_of result "data")))
           else ret tt) ;;;
          showMessage "Login successful! Redirecting..." success ;;;
          setTimeout 1500 "dashboard.html")
       (fun err => showMessage (exn_message err) error))
    hideLoader.

Definition formSubmit : M page unit :=
  let* entries := gets form in
  match entries with
  | None => ret tt
  | Some entries =>
      clearFieldErrors ;;;
      let email := field "email" entries in
      let password := field "password" entries in
      let emailInvalid :=
        negb (truthy email) || negb (ends_with "@stud.noroff.no" (ToString email)) in
      let passwordInvalid :=
        negb (truthy password) || (String.length (ToString password) <? 8)%nat in
      (if emailInvalid then on_emailHint (classList_add "is-invalid") else ret tt) ;;;
      (if passwordInvalid then on_passwordHint (classList_add "is-invalid") else ret tt) ;;;
      if emailInvalid || passwordInvalid then ret tt
      else loginUser (Obj [("email", email); ("password", password)])
  end.

End WithPlatform.

End Login.

Module Register.

Import FormPage.

Section WithPlatform.
Context `{Platform} `{Endpoints}.

Definition clearFieldErrors : M page unit :=
  on_nameHint (classList_remove "is-invalid") ;;;
  on_emailHint (classList_remove "is-invalid") ;;;
  on_passwordHint (classList_remove "is-invalid").

Definition registerUser (userDetails : value) : M page unit :=
  showMessage EmptyString error ;;;
  showLoader ;;;
  try_finally
    (try_catch
       (let* response := br (fetch (post REGISTER_URL userDetails)) in
        let* result := liftR (res_json response) in
        if negb (res_ok response) then
          let* message := liftR (errorMessage result) in
          throw (Error message)
        else
          showMessage "Registration successful! Redirecting to login..." success ;;;
          setTimeout 2000 "login.html")
       (fun _ => showMessage "Registration failed. Please try again." error))
    hideLoader.

Definition formSubmit : M page unit :=
  let* entries := gets form in
  match entries with
  | None => ret tt
  | Some entries =>
      clearFieldErrors ;;;
      let name := field "name" entries in
      let email := field "email" entries in
      let password := field "password" entries in
      let nameInvalid :=
        negb (truthy name) ||
        (String.length (trim (ToString name)) <? 4)%nat in
      let emailInvalid :=
        negb (truthy email) || negb (ends_with "@stud.noroff.no" (ToString email)) in
      let passwordInvalid :=
        negb (truthy password) || (String.length (ToString password) <? 8)%nat in
      (if nameInvalid then on_nameHint (classList_add "is-invalid") else ret tt) ;;;
      (if emailInvalid then on_emailHint (classList_add "is-invalid") else ret tt) ;;;
      (if passwordInvalid then on_passwordHint (classList_add "is-invalid") else ret tt) ;;;
      if nameInvalid || emailInvalid || passwordInvalid then ret tt
      else registerUser (Obj [("name", name); ("email", email); ("password", password)])
  end.

End WithPlatform.

End Register.

(** ** A reference platform

    An executable stand-in for the browser built-ins, used to evaluate the
    model at concrete inputs. It covers a subset of what a browser accepts:
    decimal integers for [Number], UTC timestamps of the shape
    [YYYY-MM-DDTHH:MM:SSZ] (and epoch numbers) for [Date], JSON texts over
    integers and strings without control characters, ASCII for [trim] and
    [toLowerCase], and a viewer in the UTC time zone. *)

Module Reference.

Definition quote : ascii := Eval cbv in ascii_of_nat 34.
Definition backslash : ascii := Eval cbv in ascii_of_nat 92.

Definition is_digit (c : ascii) : bool :=
  let n := nat_of_ascii c in (48 <=? n)%nat && (n <=? 57)%nat.
Definition is_space (c : ascii) : bool :=
  let n := nat_of_ascii c in ((9 <=? n)%nat && (n <=? 13)%nat) || (n =? 32)%nat.

Fixpoint digits (s : string) (acc : Z) : option Z :=
  match s with
  | EmptyString => Some acc
  | String c s' =>
      if is_digit c then digits s' (10 * acc + Z.of_nat (nat_of_ascii c - 48)) else None
  end.

(** Unsigned and signed decimal integers. *)
Definition natural (s : string) : option Z :=
  match s with EmptyString => None | _ => digits s 0 end.
Definition integer (s : string) : option Z :=
  match s with
  | String "-" s' => Z.opp <$> natural s'
  | String "+" s' => natural s'
  | _ => natural s
  end.

Fixpoint trim_start (s : string) : string :=
  match s with
  | String c s' => if is_space c then trim_start s' else s
  | EmptyString => EmptyString
  end.
Fixpoint trim_end (s : string) : string :=
  match s with
  | EmptyString => EmptyString
  | String c s' =>
      match trim_end s' with
      | EmptyString => if is_space c then EmptyString else String c EmptyString
      | t => String c t
      end
  end.
Definition trim (s : string) : string := trim_end (trim_start s).

Definition lower (c : ascii) : ascii :=
  let n := nat_of_ascii c in
  if (65 <=? n)%nat && (n <=? 90)%nat then ascii_of_nat (n + 32) else c.
Fixpoint toLowerCase (s : string) : string :=
  match s with
  | EmptyString => EmptyString
  | String c s' => String (lower c) (toLowerCase s')
  end.

Definition Number_of_string (s : string) : number :=
  match trim s with
  | EmptyString => Num 0
  | t => match integer t with Some z => Num z | None => NaN end
  end.

(** Days since 1970-01-01 of a date of the proleptic Gregorian calendar,
    and back. *)
Definition days_from_civil (y m d : Z) : Z :=
  let y := if m <=? 2 then y - 1 else y in
  let era := y / 400 in
  let yoe := y - era * 400 in
  let doy := (153 * ((m + 9) mod 12) + 2) / 5 + d - 1 in
  let doe := yoe * 365 + yoe / 4 - yoe / 100 + doy in
  era * 146097 + doe - 719468.
Definition civil_from_days (z : Z) : Z * Z * Z :=
  let z := z + 719468 in
  let era := z / 146097 in
  let doe := z - era * 146097 in
  let yoe := (doe - doe / 1460 + doe / 36524 - doe / 146096) / 365 in
  let doy := doe - (365 * yoe + yoe / 4 - yoe / 100) in
  let mp := (5 * doy + 2) / 153 in
  let d := doy - (153 * mp + 2) / 5 + 1 in
  let m := if mp <? 10 then mp + 3 else mp - 9 in
  (if m <=? 2 then yoe + era * 400 + 1 else yoe + era * 400, m, d).

Definition field (s : string) (from len : nat) : option Z :=
  natural (String.substring from len s).
Definition char_is (s : string) (i : nat) (c : ascii) : bool :=
  match String.get i s with Some c' => Ascii.eqb c c' | None => false end.

Definition parse_timestamp (s : string) : number :=
  if (String.length s =? 20)%nat && char_is s 4 "-" && char_is s 7 "-" &&
     char_is s 10 "T" && char_is s 13 ":" && char_is s 16 ":" && char_is s 19 "Z"
  then
    match field s 0 4, field s 5 2, field s 8 2, field s 11 2, field s 14 2, field s 17 2 with
    | Some y, Some m, Some d, Some hh, Some mm, Some ss =>
        if (1 <=? m) && (m <=? 12) && (1 <=? d) && (d <=? 31) &&
           (hh <=? 23) && (mm <=? 59) && (ss <=? 59)
        then Num (((days_from_civil y m d * 24 + hh) * 60 + mm) * 60000 + ss * 1000)
        else NaN
    | _, _, _, _, _, _ => NaN
    end
  else NaN.

Definition Date_getTime (v : value) : number :=
  match v with
  | Str s => parse_timestamp s
  | Number (Num z) => if Z.abs z <=? 8640000000000000 then Num z else NaN
  | Null => Num 0
  | _ => NaN
  end.

Definition Date_local_fields (v : value) : Z * Z * Z * Z * Z :=
  match Date_getTime v with
  | Num t =>
      let minutes := t / 60000 in
      let '(y, m, d) := civil_from_days (minutes / 1440) in
      (y, m - 1, d, (minutes mod 1440) / 60, minutes mod 60)
  | NaN => (0, 0, 0, 0, 0)
  end.

(** *** JSON *)

Fixpoint escape (s : string) : string :=
  match s with
  | EmptyString => EmptyString
  | String c s' =>
      if Ascii.eqb c quote || Ascii.eqb c backslash
      then String backslash (String c (escape s'))
      else String c (escape s')
  end.

Definition quoted (s : string) : string :=
  String quote (escape s +:+ String quote EmptyString).

Fixpoint JSON_stringify (v : value) : string :=
  match v with
  | Undefined | Null | Number NaN => "null"
  | Bool true => "true"
  | Bool false => "false"
  | Number (Num z) => Z_to_string z
  | Str s => quoted s
  | Arr items =>
      "[" +:+ join "," ((fix elems (l : list value) : list string :=
                           match l with
                           | [] => []
                           | x :: l' => JSON_stringify x :: elems l'
                           end) items) +:+ "]"
  | Obj props =>
      "{" +:+ join "," ((fix members (l : list (string * value)) : list string :=
                           match l with
                           | [] => []
                           | (k, Undefined) :: l' => members l'
                           | (k, x) :: l' =>
                               (quoted k +:+ ":" +:+ JSON_stringify x) :: members l'
                           end) props) +:+ "}"
  end.

(** The characters of a string literal after its opening quote, up to the
    closing quote. *)
Fixpoint parse_string (s : string) : option (string * string) :=
  match s with
  | EmptyString => None
  | String c s' =>
      if Ascii.eqb c quote then Some (EmptyString, s')
      else if Ascii.eqb c backslash then
        match s' with
        | String e s'' =>
            if Ascii.eqb e quote || Ascii.eqb e backslash then
              '(str, rest) ← parse_string s''; Some (String e str, rest)
            else None
        | EmptyString => None
        end
      else '(str, rest) ← parse_string s'; Some (String c str, rest)
  end.

Fixpoint span_number (s : string) : string * string :=
  match s with
  | String c s' =>
      if is_digit c || Ascii.eqb c "-" then
        let '(n, rest) := span_number s' in (String c n, rest)
      else (EmptyString, s)
  | EmptyString => (EmptyString, EmptyString)
  end.

Definition literal (word : string) (v : value) (s : string) : option (value * string) :=
  if String.prefix word s
  then Some (v, String.substring (String.length word) (String.length s - String.length word) s)
  else None.

Fixpoint parse_value (fuel : nat) (s : string) : option (value * string) :=
  match fuel with
  | O => None
  | S fuel =>
      match trim_start s with
      | EmptyString => None
      | String c rest as s =>
          if Ascii.eqb c quote then
            '(str, rest') ← parse_string rest; Some (Str str, rest')
          else if Ascii.eqb c "[" then
            match trim_start rest with
            | String "]" rest' => Some (Arr [], rest')
            | _ => parse_elements fuel rest []
            end
          else if Ascii.eqb c "{" then
            match trim_start rest with
            | String "}" rest' => Some (Obj [], rest')
            | _ => parse_members fuel rest []
            end
          else if Ascii.eqb c "n" then literal "null" Null s
          else if Ascii.eqb c "t" then literal "true" (Bool true) s
          else if Ascii.eqb c "f" then literal "false" (Bool false) s
          else
            let '(n, rest') := span_number s in
            z ← integer n; Some (Number (Num z), rest')
      end
  end
with parse_elements (fuel : nat) (s : string) (acc : list value) : option (value * string) :=
  match fuel with
  | O => None
  | S fuel =>
      '(v, rest) ← parse_value fuel s;
      match trim_start rest with
      | String "," rest' => parse_elements fuel rest' (acc ++ [v])%list
      | String "]" rest' => Some (Arr (acc ++ [v])%list, rest')
      | _ => None
      end
  end
with parse_members (fuel : nat) (s : string) (acc : list (string * value))
    : option (value * string) :=
  match fuel with
  | O => None
  | S fuel =>
      match trim_start s with
      | String c rest =>
          if Ascii.eqb c quote then
            '(k, rest) ← parse_string rest;
            match trim_start rest with
            | String ":" rest =>
                '(v, rest) ← parse_value fuel rest;
                match trim_start rest with
                | String "," rest' => parse_members fuel rest' (set_prop k v acc)
                | String "}" rest' => Some (Obj (set_prop k v acc), rest')
                | _ => None
                end
            | _ => None
            end
          else None
      | EmptyString => None
      end
  end.

Definition JSON_parse (s : string) : result value :=
  match parse_value (2 * String.length s + 2) s with
  | Some (v, rest) =>
      match trim_start rest with
      | EmptyString => Ok v
      | _ => Throw (JsError "SyntaxError" "Unexpected token in JSON")
      end
  | None => Throw (JsError "SyntaxError" "Unexpected token in JSON")
  end.

(** *** URI components *)

Definition unreserved (c : ascii) : bool :=
  let n := nat_of_ascii c in
  is_digit c || ((65 <=? n)%nat && (n <=? 90)%nat) || ((97 <=? n)%nat && (n <=? 122)%nat)
  || bool_decide (c ∈ ["-"; "_"; "."; "!"; "~"; "*"; "'"; "("; ")"]%char).

Definition hex_digit (n : nat) : ascii :=
  if (n <? 10)%nat then ascii_of_nat (48 + n) else ascii_of_nat (55 + n).

Fixpoint encodeURIComponent (s : string) : string :=
  match s with
  | EmptyString => EmptyString
  | String c s' =>
      if unreserved c then String c (encodeURIComponent s')
      else
        let n := nat_of_ascii c in
        String "%" (String (hex_digit (n / 16)) (String (hex_digit (n mod 16))
                                                   (encodeURIComponent s')))
  end.

Definition reference_platform : Platform :=
  Build_Platform Number_of_string Date_getTime JSON_stringify JSON_parse
    trim toLowerCase encodeURIComponent
    ToString ToString ToString Date_local_fields
    "https://v2.api.noroff.dev" "api-key".

End Reference.

(** ** Sample inputs *)

Module Sample.

Definition bid (amount : value) : value := Obj [("amount", amount)].

(** A listing with three bids, one of them with a malformed amount. *)
Definition listing : value :=
  Obj [("id", Str "l1");
       ("title", Str "Blue Vase");
       ("seller", Obj [("name", Str "ann")]);
       ("bids", Arr [bid (Number (Num 60)); bid (Str "250"); bid (Number (Num 100))])].

(** A stored session: the token of [ann] and her profile. *)
Definition session : gmap string string :=
  {[ Storage.TOKEN_KEY := "tok-ann";
     Storage.PROFILE_KEY := Reference.JSON_stringify
                              (Obj [("name", Str "ann"); ("credits", Number (Num 1000))]) ]}.

(** A profile as the service returns it, with a token embedded by accident. *)
Definition profile : list (string * value) :=
  [("name", Str "bob"); ("accessToken", Str "stray"); ("credits", Number (Num 900));
   ("avatar", Obj [("url", Str "https://img.example/bob.png")])].

(** The document of a page: the hooks of the listing-detail page, of the
    edit page and of one dashboard card, with the viewer's input in the bid
    fields. *)
Definition blank : element :=
  {| textContent := EmptyString; el_value := EmptyString; disabled := false;
     src := EmptyString; alt := EmptyString; rows := [] |}.

Definition document (bidInput : string) : gmap string element :=
  list_to_map
    ((ListingDetail.bidAmountInput, set_value bidInput blank) ::
     (ListingDetail.highestBidEl, set_textContent "100 credits" blank) ::
     ("#card-l1 .bid-input", set_value bidInput blank) ::
     ("#card-l1 .listing-card-highest-bid", set_textContent "100 credits" blank) ::
     List.map (fun sel => (sel, blank))
       [ListingDetail.placeBidButton; ListingDetail.bidForm; ListingDetail.totalBidsEl;
        ListingDetail.bidHistoryList; ListingDetail.navCreditsEl;
        "#card-l1 .listing-card-bid-btn"; "#card-l1 .listing-card-badge";
        "#card-l1 .listing-card-bids-text";
        EditListing.form; EditListing.titleInput; EditListing.descriptionInput;
        EditListing.mediaInput; EditListing.deleteBtn]).

(** A browser where [ann] is logged in, with the given bid input and the
    answers the network is about to give. *)
Definition browser (bidInput : string) (answers : list answer) : Browser :=
  {| storage := session; answers := answers; clock := 1767182400000;
     dom := document bidInput; log := [] |}.

(** The listing-detail page showing [listing], and the dashboard with a
    card for it. *)
Definition detail (bidInput : string) (answers : list answer) : ListingDetail.state :=
  {| ListingDetail.browser := browser bidInput answers;
     ListingDetail.currentListing := listing;
     ListingDetail.currentUser := Obj [("name", Str "ann")];
     ListingDetail.accessToken := Str "tok-ann" |}.

Definition dashboard (bidInput : string) (answers : list answer) : Dashboard.state :=
  {| Dashboard.browser := browser bidInput answers;
     Dashboard.allListings := [listing];
     Dashboard.currentUser := Obj [("name", Str "ann")] |}.

Definition card : Dashboard.card :=
  {| Dashboard.card_root := "#card-l1";
     Dashboard.card_listing := 0;
     Dashboard.card_id := Str "l1";
     Dashboard.card_isOwnListing := false |}.

(** The edit page opened by [ann] on the listing [l9], and a listing of
    that id sold by [bob]. *)
Definition edit (answers : list answer) : EditListing.state :=
  {| EditListing.browser := browser EmptyString answers;
     EditListing.url_id := Str "l9";
     EditListing.submit_listener := None;
     EditListing.delete_listener := None |}.

Definition bobs_listing : value :=
  Obj [("id", Str "l9"); ("title", Str "Old clock");
       ("seller", Obj [("name", Str "bob")])].

End Sample.

(** * Properties *)

(** ** The words of the specification, as definitions *)

(** The amount of a bid, a bid whose amount is not a (finite) number
    counting as 0. *)
Definition amount_or_zero (bid : value) : Z :=
  match prop_of bid "amount" with
  | Number (Num z) => z
  | _ => 0
  end.

(** The maximum of the amounts of a non-empty list of bids. *)
Definition maximum_amount (b : value) (bs : list value) : Z :=
  fold_right Z.max (amount_or_zero b) (List.map amount_or_zero bs).

(** ["in about N unit"], with a plural [s] when [N] exceeds one. *)
Definition phrase (n : Z) (unit : string) : string :=
  "in about " +:+ Z_to_string n +:+ " " +:+ unit +:+
  (if 1 <? n then "s" else EmptyString).

(** [q] occurs in [s]. *)
Definition is_substring (q s : string) : Prop :=
  exists pre post, s = pre +:+ q +:+ post.

(** The text of a title or description that is a string or absent. *)
Definition text_of (v : value) : string :=
  match v with Str s => s | _ => EmptyString end.
Definition text_field (v : value) : Prop :=
  truthy v = false \/ exists s, v = Str s.

(** A listing the search can read: an object whose title and description
    are strings or absent. *)
Definition searchable (listing : value) : Prop :=
  nullish listing = false /\
  text_field (prop_of listing "title") /\
  text_field (prop_of listing "description").

(** The title or the description contains the query, case aside. *)
Definition listing_matches `{Platform} (query : string) (listing : value) : Prop :=
  is_substring query (toLowerCase (text_of (prop_of listing "title"))) \/
  is_substring query (toLowerCase (text_of (prop_of listing "description"))).

(** The message of a failed request: the first truthy candidate, else the
    fallback. *)
Fixpoint pick_message (candidates : list value) (fallback : string) : string :=
  match candidates with
  | [] => fallback
  | c :: rest => if truthy c then ToString c else pick_message rest fallback
  end.

(** The body of a response as the gateway functions read it, an empty
    object standing in for a body that is not JSON, and its first
    structured error message, [errors[0].message]. *)
Definition body_of (body : option value) : value := default (Obj []) body.
Definition structured_message (data : value) : value :=
  get_opt (index_opt (get_opt data "errors") 0) "message".
Definition generic_message (data : value) : value := get_opt data "message".

Definition non_2xx (status : Z) : Prop := status < 200 \/ 299 < status.

(** Of the responses to the requests of the profile page, each named by
    what it was to load, the first whose status is outside 2xx. *)
Fixpoint first_failed (loads : list (string * Z)) : option (string * Z) :=
  match loads with
  | [] => None
  | (what, status) :: rest =>
      if (200 <=? status) && (status <=? 299) then first_failed rest
      else Some (what, status)
  end.

(** The entered amount is not a positive number. *)
Definition not_positive `{Platform} (entered : string) : Prop :=
  entered = EmptyString \/
  Number_of_string entered = NaN \/
  exists z, Number_of_string entered = Num z /\ z <= 0.

(** The entered amount is a number that does not exceed the highest bid
    known for the listing. *)
Definition not_above_highest `{Platform} (entered : string) (listing : value) : Prop :=
  exists z h,
    Number_of_string entered = Num z /\
    Helpers.getHighestBidAmount listing = Ok (Num h) /\
    z <= h.

Section BidAttempt.
Context `{Platform}.

(** What the viewer entered in the bid field of the listing-detail page and
    of a dashboard card, and the listing object a card is about. *)
Definition detail_entered (d : ListingDetail.state) : string :=
  default EmptyString
    (el_value <$> dom (ListingDetail.browser d) !! ListingDetail.bidAmountInput).
Definition card_entered (c : Dashboard.card) (s : Dashboard.state) : string :=
  default EmptyString
    (el_value <$> dom (Dashboard.browser s) !! Dashboard.hook c ".bid-input").
Definition card_listing_object (c : Dashboard.card) (s : Dashboard.state) : value :=
  default Undefined (Dashboard.allListings s !! Dashboard.card_listing c).

(** Three ways a bid-placement attempt ends in failure on the
    listing-detail page: the local validation rejects the entered amount,
    the bid request throws, or the bid request returns and the re-fetch of
    the listing throws. They are not all the failed attempts: a re-fetch
    that is answered 2xx without [data] returns [undefined] instead of
    throwing, and the attempt then fails while the fresh listing is
    rendered. *)
Definition detail_validation_fails (d : ListingDetail.state) : Prop :=
  not_positive (detail_entered d) \/
  not_above_highest (detail_entered d) (ListingDetail.currentListing d).
Definition detail_bid_request_throws (d : ListingDetail.state) : Prop :=
  exists e b1,
    ListingDetail.placeBid (prop_of (ListingDetail.currentListing d) "id")
      (Number_of_string (detail_entered d)) (ListingDetail.browser d) = (Throw e, b1).
Definition detail_refetch_throws (d : ListingDetail.state) : Prop :=
  exists placed b1 e b2,
    ListingDetail.placeBid (prop_of (ListingDetail.currentListing d) "id")
      (Number_of_string (detail_entered d)) (ListingDetail.browser d) = (Ok placed, b1) /\
    ListingDetail.fetchListing (prop_of (ListingDetail.currentListing d) "id") b1
      = (Throw e, b2).

(** The same on a dashboard card. *)
Definition card_validation_fails (c : Dashboard.card) (s : Dashboard.state) : Prop :=
  not_positive (card_entered c s) \/
  not_above_highest (card_entered c s) (card_listing_object c s).
Definition card_bid_request_throws (c : Dashboard.card) (s : Dashboard.state) : Prop :=
  exists e b1,
    Dashboard.placeBid (Dashboard.card_id c) (Number_of_string (card_entered c s))
      (Dashboard.browser s) = (Throw e, b1).
Definition card_refetch_throws (c : Dashboard.card) (s : Dashboard.state) : Prop :=
  exists placed b1 e b2,
    Dashboard.placeBid (Dashboard.card_id c) (Number_of_string (card_entered c s))
      (Dashboard.browser s) = (Ok placed, b1) /\
    Dashboard.fetchListingById (Dashboard.card_id c) b1 = (Throw e, b2).

End BidAttempt.

(** The listing has no seller, or its seller's name is not the viewer's. *)
Definition seller_mismatch (listing viewerName : value) : Prop :=
  truthy (prop_of listing "seller") = false \/
  strict_eq (prop_of (prop_of listing "seller") "name") viewerName = false.

(** The request by which the edit page fetches the listing [id]. *)
Definition edit_fetch_request `{Platform} (token id : value) : request :=
  {| req_method := "GET";
     req_url := EditListing.LISTINGS_BASE +:+ "/" +:+ ToString id +:+
                "?_seller=true&_bids=true";
     req_headers := [("Authorization", "Bearer " +:+ ToString token);
                     ("X-Noroff-API-Key", API_KEY)];
     req_body := None |}.

(** [b'] is [b] after the events of [trace] were shown to the user, none of
    them a request: storage, pending answers, clock and document are those
    of [b]. *)
Definition shown_only (trace : list event) (b b' : Browser) : Prop :=
  Forall (fun e => is_fetch e = false) trace /\
  b' = with_log (log b ++ trace) b.

(** ** The words of the further properties, as definitions *)

Section FurtherDefinitions.
Context `{Platform} `{IsoDates}.

(** The status of a response that is ok. *)
Definition is_2xx (status : Z) : Prop := 200 <= status <= 299.

(** [b'] is [b] after one request of method [method] was sent and the
    first pending answer consumed. *)
Definition one_request (method : string) (b b' : Browser) : Prop :=
  exists r,
    req_method r = method /\
    b' = with_answers (tail (answers b)) (with_log (log b ++ [Fetch r]) b).

(** The viewer has a session: a token and a profile with a name. *)
Definition has_session (b : Browser) : Prop :=
  truthy (Storage.getToken (storage b)) = true /\
  exists profile,
    Storage.getProfile (storage b) = Ok profile /\
    truthy (get_opt profile "name") = true.

(** The next request will not be answered by a 2xx response. *)
Definition request_fails (b : Browser) : Prop :=
  match answers b with
  | Response status _ :: _ => non_2xx status
  | _ => True
  end.

(** The entered amount passes the local validation of the listing-detail
    handler, which therefore reaches its [try] block. *)
Definition detail_validated (d : ListingDetail.state) (z : Z) : Prop :=
  truthy (ListingDetail.currentListing d) = true /\
  ListingDetail.present ListingDetail.bidAmountInput (ListingDetail.browser d) = true /\
  ListingDetail.present ListingDetail.placeBidButton (ListingDetail.browser d) = true /\
  truthy (Storage.getToken (storage (ListingDetail.browser d))) = true /\
  (exists profile,
     Storage.getProfile (storage (ListingDetail.browser d)) = Ok profile /\
     truthy profile = true) /\
  detail_entered d <> EmptyString /\
  Number_of_string (detail_entered d) = Num z /\
  exists h,
    Helpers.getHighestBidAmount (ListingDetail.currentListing d) = Ok (Num h) /\
    0 < z /\ h < z.

(** The amount entered on a card passes the validation of the click
    handler, which therefore reaches its [try] block. *)
Definition card_validated (c : Dashboard.card) (s : Dashboard.state) (z : Z) : Prop :=
  (exists bidInput,
     dom (Dashboard.browser s) !! Dashboard.hook c ".bid-input" = Some bidInput /\
     el_value bidInput <> EmptyString /\
     Number_of_string (el_value bidInput) = Num z) /\
  exists h,
    Helpers.getHighestBidAmount (card_listing_object c s) = Ok (Num h) /\
    0 < z /\ h < z.

(** The [catch] and [finally] blocks of the click handler. *)
Definition card_catch (error : exn) : M Dashboard.state unit :=
  Dashboard.br (alert (if String.eqb (exn_message error) EmptyString
                       then "Sorry, something went wrong placing your bid."
                       else exn_message error)).

Definition card_finally (c : Dashboard.card) : M Dashboard.state unit :=
  if negb (Dashboard.card_isOwnListing c) then
    Dashboard.br (update_element (Dashboard.hook c ".listing-card-bid-btn")
                    (set_disabled false)) ;;;
    Dashboard.br (update_element (Dashboard.hook c ".listing-card-bid-btn")
                    (set_textContent "Bid"))
  else ret tt.

(** What [updateBidFormState] reads: whether somebody is logged in, whether
    the listing is theirs, and whether the auction has ended. *)
Definition isLoggedIn (s : ListingDetail.state) (profile : value) : bool :=
  truthy (Storage.getToken (storage (ListingDetail.browser s))) &&
  truthy (or_else profile Null).

Definition isOwnListing (s : ListingDetail.state) (profile : value) : bool :=
  let seller := prop_of (ListingDetail.currentListing s) "seller" in
  truthy seller &&
  strict_eq (prop_of seller "name") (prop_of (or_else profile Null) "name").

Definition isEnded (s : ListingDetail.state) : bool :=
  let endsAt := prop_of (ListingDetail.currentListing s) "endsAt" in
  truthy endsAt &&
  num_le (Date_getTime endsAt) (Num (clock (ListingDetail.browser s))).

(** The time a bid was made, [new Date(bid.created).getTime()]. *)
Definition created_at (bid : value) : number := Date_getTime (prop_of bid "created").

(** A bid object whose [created] field is a date that parses. *)
Definition dated (bid : value) : Prop :=
  nullish bid = false /\ exists t, created_at bid = Num t.

(** [a] was made no earlier than [b]. *)
Definition not_older (a b : value) : Prop :=
  num_le (created_at b) (created_at a) = true.

(** The rows that [forEach] appends for a list of bids. *)
Definition rendered (bids : list value) (rs : list bid_row) : Prop :=
  Forall2 (fun bid row => ListingDetail.bid_to_row bid = Ok row) bids rs.

(** The viewer of the edit page is signed in with this token and profile. *)
Definition signed_in (b : Browser) (token profile : value) : Prop :=
  Storage.getToken (storage b) = token /\ truthy token = true /\
  Storage.getProfile (storage b) = Ok profile /\ truthy profile = true.

(** There is no token, or no profile, in the auth store. *)
Definition signed_out (b : Browser) : Prop :=
  truthy (Storage.getToken (storage b)) = false \/
  exists profile, Storage.getProfile (storage b) = Ok profile /\ truthy profile = false.

(** The listing belongs to the viewer called [viewerName]. *)
Definition own_listing (listing viewerName : value) : Prop :=
  truthy (prop_of listing "seller") = true /\
  strict_eq (prop_of (prop_of listing "seller") "name") viewerName = true.

(** What [populateForm] writes into the inputs that exist. *)
Definition filled_form (listing : value) (media : string) (d : gmap string element)
    : gmap string element :=
  let '(date, time) := EditListing.splitEndsAtToDateTime (prop_of listing "endsAt") in
  alter (set_value time) EditListing.endTimeInput
    (alter (set_value date) EditListing.endDateInput
       (alter (set_value media) EditListing.mediaInput
          (alter (set_value (ToString (or_else (prop_of listing "description")
                                         (Str EmptyString))))
             EditListing.descriptionInput
             (alter (set_value (ToString (or_else (prop_of listing "title")
                                            (Str EmptyString))))
                EditListing.titleInput d)))).

(** No character of [s] separates two addresses of the media field. *)
Fixpoint free_of_separators (s : string) : bool :=
  match s with
  | EmptyString => true
  | String c rest => negb (EditForm.is_separator c) && free_of_separators rest
  end.

(** A line of the media field that stands for itself: not empty and
    without a separator. *)
Definition plain (u : string) : Prop :=
  u <> EmptyString /\ free_of_separators u = true.

(** A media address that the form hands back unchanged: a plain line that
    [trim] leaves alone. *)
Definition clean_url (u : string) : Prop := plain u /\ trim u = u.

(** The next answer of the network lets a gateway function of the edit
    page succeed: a 2xx response whose body is not the JSON value [null]. *)
Definition request_succeeds (b : Browser) : Prop :=
  exists status body rest,
    answers b = Response status body :: rest /\ is_2xx status /\
    nullish (body_of body) = false.

(** [b] after the request [r] was sent and the first pending answer
    consumed. *)
Definition after_request (r : request) (b : Browser) : Browser :=
  with_answers (tail (answers b)) (with_log (log b ++ [Fetch r]) b).

Definition update_request (token id payload : value) : request :=
  {| req_method := "PUT";
     req_url := EditListing.LISTINGS_BASE +:+ "/" +:+ ToString id;
     req_headers := [("Content-Type", "application/json");
                     ("Authorization", "Bearer " +:+ ToString token);
                     ("X-Noroff-API-Key", API_KEY)];
     req_body := Some (JSON_stringify payload) |}.

Definition delete_request (token id : value) : request :=
  {| req_method := "DELETE";
     req_url := EditListing.LISTINGS_BASE +:+ "/" +:+ ToString id;
     req_headers := [("Authorization", "Bearer " +:+ ToString token);
                     ("X-Noroff-API-Key", API_KEY)];
     req_body := None |}.

(** What the save handler reads from the form, when its five inputs are
    there: title and description trimmed, the other fields as typed. *)
Record form_values : Type := {
  fv_title : string;
  fv_description : string;
  fv_media : string;
  fv_date : string;
  fv_time : string
}.

Definition read_form (b : Browser) : option form_values :=
  titleInput ← dom b !! EditListing.titleInput;
  descriptionInput ← dom b !! EditListing.descriptionInput;
  mediaInput ← dom b !! EditListing.mediaInput;
  endDateInput ← dom b !! EditListing.endDateInput;
  endTimeInput ← dom b !! EditListing.endTimeInput;
  Some {| fv_title := trim (el_value titleInput);
          fv_description := trim (el_value descriptionInput);
          fv_media := el_value mediaInput;
          fv_date := el_value endDateInput;
          fv_time := el_value endTimeInput |}.

(** The form passes the validation of the save handler: nothing required is
    empty and the deadline [endsAt] built from date and time lies in the
    future. *)
Definition save_valid (b : Browser) (f : form_values) (endsAt : value) : Prop :=
  read_form b = Some f /\
  fv_title f <> EmptyString /\ fv_description f <> EmptyString /\
  fv_date f <> EmptyString /\ fv_time f <> EmptyString /\
  endsAt = EditForm.buildEndsAt (fv_date f) (fv_time f) /\
  truthy endsAt = true /\
  num_le (Date_getTime endsAt) (Num (clock b)) = false.

Definition save_payload (f : form_values) (endsAt : value) : value :=
  Obj [("title", Str (fv_title f)); ("description", Str (fv_description f));
       ("media", Arr (EditForm.parseMediaTextarea (fv_media f) (fv_title f)));
       ("endsAt", endsAt)].

(** The [catch] and [finally] blocks of the two handlers. *)
Definition alert_failure (fallback : string) (error : exn) : M EditListing.state unit :=
  EditListing.br (alert (if String.eqb (exn_message error) EmptyString
                         then fallback else exn_message error)).

Definition restore_button (button label : string) : M EditListing.state unit :=
  EditListing.br (update_element button (set_disabled false)) ;;;
  EditListing.br (update_element button (set_textContent label)).

End FurtherDefinitions.

Section FormDefinitions.
Context `{Platform} `{Endpoints}.

Import FormPage.

(** The checks of the two forms on the entries of the form. *)
Definition name_ok (entries : list (string * string)) : bool :=
  truthy (field "name" entries) &&
  negb (String.length (trim (ToString (field "name" entries))) <? 4)%nat.

Definition email_ok (entries : list (string * string)) : bool :=
  truthy (field "email" entries) &&
  ends_with "@stud.noroff.no" (ToString (field "email" entries)).

Definition password_ok (entries : list (string * string)) : bool :=
  truthy (field "password" entries) &&
  negb (String.length (ToString (field "password" entries)) <? 8)%nat.

(** The node is flagged as invalid. *)
Definition flagged (hint : option node) : Prop :=
  forall n, hint = Some n -> "is-invalid" ∈ classes n.

Definition unflagged (hint : option node) : Prop :=
  forall n, hint = Some n -> "is-invalid" ∉ classes n.

(** The next answer is a 2xx response with a JSON body. *)
Definition accepted (b : Browser) : Prop :=
  exists status body rest,
    answers b = Response status (Some body) :: rest /\ is_2xx status.

(** The loader is hidden. *)
Definition hidden (loader : option node) : Prop :=
  forall n, loader = Some n -> "is-visible" ∉ classes n.

End FormDefinitions.

(** ** Further sample inputs *)

(** A fresh copy of the sample listing, as the service returns it after a
    bid of 150 credits. *)
Definition fresh_listing : value :=
  Obj [("id", Str "l1");
       ("title", Str "Blue Vase");
       ("seller", Obj [("name", Str "ann")]);
       ("bids", Arr [Sample.bid (Number (Num 60)); Sample.bid (Number (Num 100));
                     Sample.bid (Number (Num 150))])].

(** The answers to a bid that succeeds: to the POST, then to the re-fetch. *)
Definition bid_accepted : list answer :=
  [Response 201 (Some (Obj [("data", Obj [])]));
   Response 200 (Some (Obj [("data", fresh_listing)]))].

(** A visitor without a session on the sample pages. *)
Definition guest_browser (bidInput : string) : Browser :=
  with_storage ∅ (Sample.browser bidInput []).

Definition guest_detail (bidInput : string) : ListingDetail.state :=
  ListingDetail.with_browser (guest_browser bidInput) (Sample.detail bidInput []).

Definition guest_dashboard (bidInput : string) : Dashboard.state :=
  Dashboard.with_browser (guest_browser bidInput) (Sample.dashboard bidInput []).

(** Three bids made at different times, listed oldest first. *)
Definition dated_bid (amount : Z) (created : string) : value :=
  Obj [("amount", Number (Num amount)); ("created", Str created);
       ("bidder", Obj [("name", Str "bob")])].

Definition history : list value :=
  [dated_bid 60 "2026-01-01T10:00:00Z"; dated_bid 150 "2026-01-03T10:00:00Z";
   dated_bid 100 "2026-01-02T10:00:00Z"].

(** A listing of the edit page's id that [ann] sells. *)
Definition anns_listing : value :=
  Obj [("id", Str "l9"); ("title", Str "Old clock"); ("description", Str "Ticks.");
       ("media", Arr [Obj [("url", Str "https://img.example/clock.png")]]);
       ("seller", Obj [("name", Str "ann")])].

(** An edit form filled in by [ann]: the platform of the examples reads the
    local date-time [YYYY-MM-DDTHH:MM] that the form builds, and the ISO
    text with milliseconds that [toISOString] returns, as UTC. *)
Definition local_getTime (v : value) : number :=
  match v with
  | Str s =>
      if (String.length s =? 16)%nat then Reference.parse_timestamp (s +:+ ":00Z")
      else if (String.length s =? 24)%nat
      then Reference.parse_timestamp (String.substring 0 19 s +:+ "Z")
      else Reference.parse_timestamp s
  | _ => Reference.Date_getTime v
  end.

Definition form_platform : Platform :=
  Build_Platform Reference.Number_of_string local_getTime Reference.JSON_stringify
    Reference.JSON_parse Reference.trim Reference.toLowerCase Reference.encodeURIComponent
    ToString ToString ToString Reference.Date_local_fields
    "https://v2.api.noroff.dev" "api-key".

Definition form_iso : IsoDates :=
  {| Date_toISOString v := match v with Str s => s +:+ ":00.000Z" | _ => EmptyString end |}.

Definition form_document (title date : string) : gmap string element :=
  list_to_map
    [(EditListing.titleInput, set_value title Sample.blank);
     (EditListing.descriptionInput, set_value "Ticks." Sample.blank);
     (EditListing.mediaInput,
      set_value "https://img.example/clock.png, https://img.example/back.png" Sample.blank);
     (EditListing.endDateInput, set_value date Sample.blank);
     (EditListing.endTimeInput, set_value "10:00" Sample.blank);
     (EditListing.saveBtn, set_textContent "Save Listing" Sample.blank);
     (EditListing.deleteBtn, set_textContent "Delete Listing" Sample.blank)].

Definition ann_env : EditListing.listener_env :=
  {| EditListing.env_token := Str "tok-ann";
     EditListing.env_profile :=
       Obj [("name", Str "ann"); ("credits", Number (Num 1000))];
     EditListing.env_listingId := Str "l9" |}.

Definition edit_form (title date : string) (answers : list answer) : EditListing.state :=
  {| EditListing.browser :=
       with_dom (form_document title date) (Sample.browser EmptyString answers);
     EditListing.url_id := Str "l9";
     EditListing.submit_listener := Some ann_env;
     EditListing.delete_listener := Some ann_env |}.

Definition clock_media : list value :=
  [Obj [("url", Str "https://img.example/clock.png"); ("alt", Str "The dial")];
   Obj [("url", Str "https://img.example/back.png")]].

Definition clock_form : form_values :=
  {| fv_title := "Old clock"; fv_description := "Ticks.";
     fv_media := "https://img.example/clock.png, https://img.example/back.png";
     fv_date := "2030-01-01"; fv_time := "10:00" |}.

(** The login and register pages of a visitor, with the entries typed into
    the form and the answers the network is about to give. *)
Definition form_endpoints : Endpoints :=
  {| LOGIN_URL := "https://v2.api.noroff.dev/auth/login";
     REGISTER_URL := "https://v2.api.noroff.dev/auth/register" |}.

Definition form_page (entries : list (string * string)) (answers : list answer)
    : FormPage.page :=
  {| FormPage.browser := with_storage ∅ (Sample.browser EmptyString answers);
     FormPage.form := Some entries;
     FormPage.toast := Some {| FormPage.classes := ["toast-message"];
                               FormPage.text := EmptyString |};
     FormPage.loader := Some {| FormPage.classes := ["page-loader"];
                                FormPage.text := EmptyString |};
     FormPage.nameHint := Some {| FormPage.classes := ["form-hint"];
                                  FormPage.text := "At least 4 characters" |};
     FormPage.emailHint := Some {| FormPage.classes := ["form-hint"; "is-invalid"];
                                   FormPage.text := "A stud.noroff.no address" |};
     FormPage.passwordHint := Some {| FormPage.classes := ["form-hint"];
                                      FormPage.text := "At least 8 characters" |};
     FormPage.timers := [] |}.

Definition bob_entries : list (string * string) :=
  [("name", "bob"); ("email", "bob@stud.noroff.no"); ("password", "correct-horse")].

Definition bob_credentials : value :=
  Obj [("email", Str "bob@stud.noroff.no"); ("password", Str "correct-horse")].

(** ** helpers.js *)

Lemma fold_max_swap (l : list Z) (a c : Z) :
  Z.max c (fold_right Z.max a l) = Z.max a (fold_right Z.max c l).
Proof.
  induction l as [|x l IH]; simpl; [lia|].
  rewrite Z.max_assoc, (Z.max_comm c x), <- Z.max_assoc, IH. lia.
Qed.

Lemma reduce_max_spec (bids : list value) (m : Z) :
  0 <= m ->
  Forall (fun b => nullish b = false) bids ->
  Helpers.reduce_max bids (Num m) =
  Ok (Num (Z.max m (fold_right Z.max 0 (List.map amount_or_zero bids)))).
Proof.
  intros Hm Hall. revert m Hm.
  induction Hall as [|b bids Hb _ IH]; intros m Hm; simpl.
  - f_equal. f_equal. lia.
  - unfold get. rewrite Hb. simpl. unfold amount_or_zero at 1.
    destruct (prop_of b "amount") as [| |?|[|z]|?|?|?]; simpl;
      try (rewrite IH by lia; do 2 f_equal; lia);
      match goal with
      | |- context [m <? ?a] =>
          destruct (Z.ltb_spec m a); rewrite IH by lia; do 2 f_equal; lia
      end.
Qed.

(** C4, as amended. For a listing that is not [null] or [undefined],
    [getHighestBidAmount] returns 0 when [bids] is missing, not an array or
    empty; otherwise, when no element of [bids] is [null] or [undefined],
    it returns the largest of 0 and the amounts of the bids, a bid whose
    amount is not a number counting as 0. *)
Theorem getHighestBidAmount_spec (listing : value) :
  nullish listing = false ->
  (isArray (prop_of listing "bids") = false \/ prop_of listing "bids" = Arr [] ->
   Helpers.getHighestBidAmount listing = Ok (Num 0)) /\
  (forall b bs,
     prop_of listing "bids" = Arr (b :: bs) ->
     Forall (fun x => nullish x = false) (b :: bs) ->
     Helpers.getHighestBidAmount listing = Ok (Num (Z.max 0 (maximum_amount b bs)))).
Proof.
  intros Hl. unfold Helpers.getHighestBidAmount, get. rewrite Hl. simpl. split.
  - intros [Hna | Hempty].
    + now rewrite Hna.
    + now rewrite Hempty.
  - intros b bs Hbids Hall. rewrite Hbids. cbn [isArray negb orb prop_of].
    change (strict_eq _ _) with false. cbn [array_items].
    rewrite reduce_max_spec by (done || lia).
    do 2 f_equal. unfold maximum_amount. cbn [List.map fold_right].
    rewrite fold_max_swap. lia.
Qed.

Lemma getHighestBidAmount_spec_witness :
  Helpers.getHighestBidAmount Sample.listing = Ok (Num 100).
Proof.
  refine (proj2 (getHighestBidAmount_spec Sample.listing eq_refl) _ _ eq_refl _).
  repeat constructor.
Defined.

(** C4, as stated, fails: a single bid with a negative amount gives 0 and
    not the maximum of the amounts, and a [null] entry in [bids] makes the
    function throw. *)
Lemma getHighestBidAmount_counterexample :
  Helpers.getHighestBidAmount (Obj [("bids", Arr [Obj [("amount", Number (Num (-5)))]])])
    = Ok (Num 0) /\
  maximum_amount (Obj [("amount", Number (Num (-5)))]) [] = -5 /\
  Helpers.getHighestBidAmount (Obj [("bids", Arr [Null])])
    = Throw (TypeError "Cannot read properties of null (reading 'amount')").
Proof. repeat split. Qed.

Section TimeRemaining.
Context `{Platform}.

Lemma minutes_hours_days (d : Z) :
  d / (1000 * 60) / 60 = d / 3600000 /\ d / (1000 * 60) / 60 / 24 = d / 86400000.
Proof.
  change (1000 * 60) with 60000.
  assert (H1 : d / 60000 / 60 = d / 3600000)
    by (rewrite Z.div_div by lia; reflexivity).
  split; [exact H1|]. rewrite H1. rewrite Z.div_div by lia. reflexivity.
Qed.

(** C3, as amended. For an absent (falsy) [endsAt], [getTimeRemaining]
    returns the empty string. For an [endsAt] that parses to a time [t]:
    ["Ended"] when [t] is at or before now; otherwise ["in about N unit"],
    with a plural [s] exactly when [N > 1], for the whole number [N] of
    days left when at least one day is left, else of hours when at least
    one hour is left, else of minutes ([N] may then be 0). *)
Theorem getTimeRemaining_spec (now : Z) (endsAt : value) :
  (truthy endsAt = false -> Helpers.getTimeRemaining now endsAt = EmptyString) /\
  (forall t : Z,
     truthy endsAt = true ->
     Date_getTime endsAt = Num t ->
     (t <= now -> Helpers.getTimeRemaining now endsAt = "Ended") /\
     (now < t ->
      Helpers.getTimeRemaining now endsAt =
      if 86400000 <=? t - now then phrase ((t - now) / 86400000) "day"
      else if 3600000 <=? t - now then phrase ((t - now) / 3600000) "hour"
      else phrase ((t - now) / 60000) "minute")).
Proof.
  unfold Helpers.getTimeRemaining. split.
  - intros ->. reflexivity.
  - intros t -> ->. cbn [negb num_sub num_le]. split; intros Ht.
    + destruct (Z.leb_spec (t - now) 0); [reflexivity | lia].
    + destruct (Z.leb_spec (t - now) 0); [lia|].
      set (d := t - now) in *.
      cbn [num_floor_div num_ge num_gt num_to_string].
      destruct (minutes_hours_days d) as [-> ->].
      change (1000 * 60) with 60000.
      destruct (Z.leb_spec 86400000 d) as [Hd | Hd].
      * destruct (Z.leb_spec 1 (d / 86400000)) as [_ | Hlt]; [reflexivity|].
        exfalso. apply Z.div_le_lower_bound with (b := 86400000) (q := 1) in Hd; lia.
      * destruct (Z.leb_spec 1 (d / 86400000)) as [Hge | _].
        { exfalso. assert (d / 86400000 = 0) by (apply Z.div_small; lia). lia. }
        destruct (Z.leb_spec 3600000 d) as [Hh | Hh].
        -- destruct (Z.leb_spec 1 (d / 3600000)) as [_ | Hlt]; [reflexivity|].
           exfalso. apply Z.div_le_lower_bound with (b := 3600000) (q := 1) in Hh; lia.
        -- destruct (Z.leb_spec 1 (d / 3600000)) as [Hge | _]; [|reflexivity].
           exfalso. assert (d / 3600000 = 0) by (apply Z.div_small; lia). lia.
Qed.

End TimeRemaining.

Lemma getTimeRemaining_spec_witness :
  @Helpers.getTimeRemaining Reference.reference_platform 1767182400000 Undefined
    = EmptyString /\
  @Helpers.getTimeRemaining Reference.reference_platform 1767182400000
    (Str "2025-12-31T12:00:00Z") = "Ended" /\
  @Helpers.getTimeRemaining Reference.reference_platform 1767182400000
    (Str "2026-01-02T18:30:00Z") = "in about 2 days" /\
  @Helpers.getTimeRemaining Reference.reference_platform 1767182400000
    (Str "2025-12-31T13:59:00Z") = "in about 1 hour" /\
  @Helpers.getTimeRemaining Reference.reference_platform 1767182400000
    (Str "2025-12-31T12:00:30Z") = "in about 0 minute".
Proof.
  pose (P := Reference.reference_platform).
  pose (now := 1767182400000).
  split; [exact (proj1 (@getTimeRemaining_spec P now Undefined) eq_refl)|].
  split; [refine (proj1 (proj2 (@getTimeRemaining_spec P now (Str "2025-12-31T12:00:00Z"))
                           now eq_refl _) _);
          [vm_compute; reflexivity | lia]|].
  split; [refine (proj2 (proj2 (@getTimeRemaining_spec P now (Str "2026-01-02T18:30:00Z"))
                           (now + 196200000) eq_refl _) _);
          [vm_compute; reflexivity | lia]|].
  split; [refine (proj2 (proj2 (@getTimeRemaining_spec P now (Str "2025-12-31T13:59:00Z"))
                           (now + 7140000) eq_refl _) _);
          [vm_compute; reflexivity | lia]|].
  refine (proj2 (proj2 (@getTimeRemaining_spec P now (Str "2025-12-31T12:00:30Z"))
                   (now + 30000) eq_refl _) _);
    [vm_compute; reflexivity | lia].
Defined.

(** C3, as stated, fails: an absent [endsAt] gives the empty string, and a
    text that is not a date gives neither ["Ended"] nor a count. *)
Lemma getTimeRemaining_counterexample :
  @Helpers.getTimeRemaining Reference.reference_platform 1767182400000 Undefined
    = EmptyString /\
  @Helpers.getTimeRemaining Reference.reference_platform 1767182400000 (Str "soon")
    = "in about NaN minute".
Proof. split; reflexivity. Qed.

(** ** storage.js *)

Section AuthStore.
Context `{Platform}.

Lemma rest_without_set_prop (k : string) (v : value) (props : list (string * value)) :
  Storage.rest_without k (Obj (set_prop k v props)) = Storage.rest_without k (Obj props).
Proof.
  unfold Storage.rest_without. cbn [Storage.own_entries]. f_equal.
  induction props as [|[k' v'] props IH]; cbn [set_prop].
  - rewrite filter_cons_False; [done | simpl; congruence].
  - destruct (String.eqb_spec k k') as [<- | Hne].
    + rewrite !filter_cons_False by (simpl; congruence). done.
    + rewrite !filter_cons_True by (simpl; congruence). by rewrite IH.
Qed.

Lemma prop_of_set_prop (k : string) (v : value) (props : list (string * value)) :
  prop_of (Obj (set_prop k v props)) k = v.
Proof.
  cbn [prop_of]. induction props as [|[k' v'] props IH]; cbn [set_prop lookup_prop].
  - by rewrite String.eqb_refl.
  - destruct (String.eqb_spec k k') as [<- | Hne]; cbn [lookup_prop].
    + by rewrite String.eqb_refl.
    + destruct (String.eqb_spec k k'); [done | exact IH].
Qed.

Lemma rest_without_no_key (k : string) (data : value) :
  prop_of (Storage.rest_without k data) k = Undefined.
Proof.
  unfold Storage.rest_without. cbn [prop_of].
  induction (Storage.own_entries data) as [|[k' v'] props IH]; [done|].
  destruct (decide (k' = k)) as [-> | Hne].
  - rewrite filter_cons_False by (simpl; congruence). exact IH.
  - rewrite filter_cons_True by (simpl; congruence). cbn [lookup_prop].
    destruct (String.eqb_spec k k'); [congruence | exact IH].
Qed.

(** What [saveAuth] does to the store, by the truthiness of the token. *)
Lemma saveAuth_run (data : value) (ls : gmap string string) :
  nullish data = false ->
  Storage.saveAuth data ls =
  (Ok tt,
   <[Storage.PROFILE_KEY := JSON_stringify (Storage.rest_without "accessToken" data)]>
     (if truthy (prop_of data "accessToken")
      then <[Storage.TOKEN_KEY := ToString (prop_of data "accessToken")]> ls
      else ls)).
Proof.
  intros Hd. unfold Storage.saveAuth, bind, liftR, get. rewrite Hd.
  destruct (truthy (prop_of data "accessToken")); reflexivity.
Qed.

(** C5. Saving the token [T] together with the fields of a profile [P] and
    reading back returns [T] and [P] without its [accessToken] field, for a
    non-empty [T] and a [P] that the JSON codec round-trips; the stored
    profile has no [accessToken] key. *)
Theorem saveAuth_roundtrip (T : string) (P : list (string * value))
    (ls : gmap string string) :
  T <> EmptyString ->
  JSON_stringify (Storage.rest_without "accessToken" (Obj P)) <> EmptyString ->
  JSON_parse (JSON_stringify (Storage.rest_without "accessToken" (Obj P)))
    = Ok (Storage.rest_without "accessToken" (Obj P)) ->
  (Storage.saveAuth (Obj (set_prop "accessToken" (Str T) P)) ls).1 = Ok tt /\
  Storage.getToken (exec (Storage.saveAuth (Obj (set_prop "accessToken" (Str T) P))) ls)
    = Str T /\
  Storage.getProfile (exec (Storage.saveAuth (Obj (set_prop "accessToken" (Str T) P))) ls)
    = Ok (Storage.rest_without "accessToken" (Obj P)) /\
  prop_of (Storage.rest_without "accessToken" (Obj P)) "accessToken" = Undefined.
Proof.
  intros HT Hne Hrt.
  unfold exec. rewrite saveAuth_run by reflexivity.
  rewrite prop_of_set_prop, rest_without_set_prop. cbn [truthy ToString fst snd].
  apply String.eqb_neq in HT. rewrite HT. cbn [negb].
  split; [reflexivity|]. split; [|split].
  - unfold Storage.getToken, Storage.getItem.
    rewrite lookup_insert_ne by done. by rewrite lookup_insert_eq.
  - unfold Storage.getProfile, Storage.getItem. rewrite lookup_insert_eq.
    cbn [truthy ToString]. apply String.eqb_neq in Hne. rewrite Hne. cbn [negb].
    rewrite Hrt. reflexivity.
  - apply rest_without_no_key.
Qed.

(** C9. A call of [saveAuth] whose argument has no truthy [accessToken]
    overwrites the stored profile with the argument's other fields and
    leaves the stored token key as it was. *)
Theorem saveAuth_without_token (data : value) (ls : gmap string string) :
  nullish data = false ->
  truthy (prop_of data "accessToken") = false ->
  Storage.saveAuth data ls =
    (Ok tt,
     <[Storage.PROFILE_KEY := JSON_stringify (Storage.rest_without "accessToken" data)]> ls) /\
  exec (Storage.saveAuth data) ls !! Storage.TOKEN_KEY = ls !! Storage.TOKEN_KEY.
Proof.
  intros Hd Hfalsy. unfold exec. rewrite saveAuth_run by exact Hd. rewrite Hfalsy.
  split; [reflexivity|]. cbn [snd]. by rewrite lookup_insert_ne.
Qed.

Lemma getProfile_ok (ls : gmap string string) :
  exists v, Storage.getProfile ls = Ok v.
Proof.
  unfold Storage.getProfile.
  destruct (negb (truthy (Storage.getItem Storage.PROFILE_KEY ls))); [by eexists|].
  destruct (JSON_parse _); by eexists.
Qed.

(** C10. [getProfile] never throws: it returns [null] when the profile key
    is absent and when the stored text is not valid JSON. *)
Theorem getProfile_never_throws (ls : gmap string string) :
  (exists v, Storage.getProfile ls = Ok v) /\
  (ls !! Storage.PROFILE_KEY = None -> Storage.getProfile ls = Ok Null) /\
  (forall raw e,
     ls !! Storage.PROFILE_KEY = Some raw ->
     JSON_parse raw = Throw e ->
     Storage.getProfile ls = Ok Null).
Proof.
  split; [apply getProfile_ok|].
  unfold Storage.getProfile, Storage.getItem. split.
  - intros ->. reflexivity.
  - intros raw e -> Hbad. cbn [ToString]. rewrite Hbad.
    destruct (negb (truthy (Str raw))); reflexivity.
Qed.

End AuthStore.

Section AuthStoreExamples.
#[local] Existing Instance Reference.reference_platform.

Lemma saveAuth_roundtrip_witness :
  Storage.getToken
    (exec (Storage.saveAuth (Obj (set_prop "accessToken" (Str "tok-bob") Sample.profile))) ∅)
    = Str "tok-bob" /\
  Storage.getProfile
    (exec (Storage.saveAuth (Obj (set_prop "accessToken" (Str "tok-bob") Sample.profile))) ∅)
    = Ok (Obj [("name", Str "bob"); ("credits", Number (Num 900));
               ("avatar", Obj [("url", Str "https://img.example/bob.png")])]).
Proof.
  assert (Hneq : "tok-bob" <> EmptyString) by discriminate.
  assert (Hne : JSON_stringify (Storage.rest_without "accessToken" (Obj Sample.profile))
                <> EmptyString) by (vm_compute; discriminate).
  destruct (saveAuth_roundtrip "tok-bob" Sample.profile ∅ Hneq Hne eq_refl)
    as (_ & Htoken & Hprofile & _).
  split; [exact Htoken | exact Hprofile].
Defined.

Lemma saveAuth_without_token_witness :
  Storage.getToken (exec (Storage.saveAuth (Obj [("name", Str "bob")])) Sample.session)
    = Str "tok-ann" /\
  Storage.getProfile (exec (Storage.saveAuth (Obj [("name", Str "bob")])) Sample.session)
    = Ok (Obj [("name", Str "bob")]).
Proof.
  destruct (saveAuth_without_token (Obj [("name", Str "bob")]) Sample.session
              eq_refl eq_refl) as [Hrun Htoken].
  split.
  - unfold Storage.getToken, Storage.getItem. rewrite Htoken. reflexivity.
  - unfold exec. rewrite Hrun. vm_compute. reflexivity.
Defined.

Lemma getProfile_never_throws_witness :
  Storage.getProfile ∅ = Ok Null /\
  Storage.getProfile {[ Storage.PROFILE_KEY := "{oops" ]} = Ok Null.
Proof.
  split.
  - exact (proj1 (proj2 (getProfile_never_throws ∅)) eq_refl).
  - refine (proj2 (proj2 (getProfile_never_throws {[ Storage.PROFILE_KEY := "{oops" ]}))
              "{oops" (JsError "SyntaxError" "Unexpected token in JSON") eq_refl _).
    vm_compute. reflexivity.
Defined.

End AuthStoreExamples.

(** ** search.js *)

Lemma starts_with_spec (q s : string) :
  Search.starts_with q s = true <-> exists post, s = q +:+ post.
Proof.
  revert s. induction q as [|c q IH]; intros s; cbn [Search.starts_with].
  - split; [intros _; by exists s | done].
  - destruct s as [|c' s]; [split; [done | intros [? [=]]]|].
    rewrite andb_true_iff, Ascii.eqb_eq, IH. split.
    + intros [-> [post ->]]. by exists post.
    + intros [post [= -> ->]]. split; [done | by exists post].
Qed.

Lemma includes_spec (s q : string) :
  Search.includes s q = true <-> is_substring q s.
Proof.
  unfold is_substring. induction s as [|c s IH].
  - cbn [Search.includes]. rewrite orb_false_r, starts_with_spec. split.
    + intros [post ->]. by exists EmptyString, post.
    + intros ([|? ?] & post & Hs); [by exists post | discriminate].
  - cbn [Search.includes]. rewrite orb_true_iff, starts_with_spec, IH. split.
    + intros [[post ->] | (pre & post & ->)].
      * by exists EmptyString, post.
      * by exists (String c pre), post.
    + intros ([|c' pre] & post & Hs).
      * left. by exists post.
      * right. exists pre, post. simpl in Hs. by injection Hs.
Qed.

#[local] Instance is_substring_dec (q s : string) : Decision (is_substring q s).
Proof.
  destruct (Search.includes s q) eqn:E; [left | right].
  - by apply includes_spec.
  - intros Hs. apply includes_spec in Hs. congruence.
Defined.

Section SearchFilter.
Context `{Platform}.

#[local] Instance listing_matches_dec (query : string) (listing : value) :
  Decision (listing_matches query listing).
Proof. unfold listing_matches. apply _. Defined.

Lemma lowered_text (v : value) :
  text_field v -> Search.lowered v = Ok (toLowerCase (text_of v)).
Proof.
  unfold Search.lowered, or_else. intros [Hf | [s ->]].
  - rewrite Hf. destruct v as [| |?|?|s|?|?]; try reflexivity; try discriminate.
    simpl in Hf. apply negb_false_iff, String.eqb_eq in Hf. by subst.
  - destruct (truthy (Str s)) eqn:E; [reflexivity|].
    simpl in E. apply negb_false_iff, String.eqb_eq in E. by subst.
Qed.

Lemma matches_spec (query : string) (listing : value) :
  searchable listing ->
  Search.matches query listing = Ok (bool_decide (listing_matches query listing)).
Proof.
  intros (Hl & Ht & Hd). unfold Search.matches, get. rewrite Hl. cbn [bindR].
  rewrite (lowered_text _ Ht), (lowered_text _ Hd). cbn [bindR]. f_equal.
  unfold listing_matches.
  destruct (Search.includes _ query) eqn:E1; destruct (Search.includes (toLowerCase (text_of (prop_of listing "description"))) query) eqn:E2;
    cbn [orb]; symmetry;
    [apply bool_decide_eq_true; left; by apply includes_spec
    |apply bool_decide_eq_true; left; by apply includes_spec
    |apply bool_decide_eq_true; right; by apply includes_spec
    |apply bool_decide_eq_false; intros [Hm | Hm]; apply includes_spec in Hm; congruence].
Qed.

Lemma filter_listings_spec (query : string) (listings : list value) :
  Forall searchable listings ->
  Search.filter_listings query listings = Ok (filter (listing_matches query) listings).
Proof.
  induction 1 as [|x l Hx _ IH]; [reflexivity|].
  cbn [Search.filter_listings]. rewrite (matches_spec _ _ Hx), IH. cbn [bindR].
  rewrite filter_cons. destruct (decide (listing_matches query x)) as [Hm | Hm].
  - by rewrite bool_decide_eq_true_2.
  - by rewrite bool_decide_eq_false_2.
Qed.

(** C8, as amended. With [q'] the query trimmed and lowercased, the search
    filter renders the loaded array unchanged when [q'] is empty, and
    otherwise exactly the listings, in their original order, whose title or
    description contains [q'] case aside. *)
Theorem search_filter_spec (A : list value) (q : string) :
  Forall searchable A ->
  Search.handleSearchSubmit (Some q) (Arr A) true =
  Ok (Some (if decide (toLowerCase (trim q) = EmptyString) then A
            else filter (listing_matches (toLowerCase (trim q))) A)).
Proof.
  intros HA. unfold Search.handleSearchSubmit, or_else. cbn.
  destruct (String.eqb_spec (toLowerCase (trim q)) EmptyString) as [-> | Hne].
  - reflexivity.
  - rewrite decide_False by exact Hne.
    rewrite (filter_listings_spec _ _ HA). reflexivity.
Qed.

(** What is rendered keeps the order of the loaded array. *)
Lemma search_filter_sublist (A : list value) (query : string) :
  sublist (filter (listing_matches query) A) A.
Proof. apply sublist_filter. Qed.

End SearchFilter.

Section SearchFilterExamples.
#[local] Existing Instance Reference.reference_platform.

Lemma search_filter_spec_witness :
  Search.handleSearchSubmit (Some "  VASE ")
    (Arr [Sample.listing; Obj [("title", Str "Old clock"); ("description", Str "Ticks.")]])
    true
  = Ok (Some [Sample.listing]).
Proof.
  refine (search_filter_spec
            [Sample.listing; Obj [("title", Str "Old clock"); ("description", Str "Ticks.")]]
            "  VASE " _).
  repeat apply List.Forall_cons; try apply List.Forall_nil;
    (split; [reflexivity | split; first [by left | right; by eexists]]).
Defined.

(** C8, as stated, fails: a query of one space is not empty and occurs in
    no title or description, yet every listing is rendered. *)
Lemma search_filter_counterexample :
  Search.handleSearchSubmit (Some " ") (Arr [Obj [("title", Str "ab")]]) true
    = Ok (Some [Obj [("title", Str "ab")]]) /\
  " " <> EmptyString /\
  ~ listing_matches " " (Obj [("title", Str "ab")]).
Proof.
  split; [reflexivity|]. split; [discriminate|].
  intros [Hm | Hm]; apply includes_spec in Hm; discriminate.
Qed.

End SearchFilterExamples.

(** ** The API gateway functions *)

Section Gateway.
Context `{Platform}.

Lemma non_2xx_not_ok (status : Z) (body : option value) :
  non_2xx status -> res_ok {| res_status := status; res_body := body |} = false.
Proof.
  unfold non_2xx, res_ok. cbn [res_status]. intros [Hlo | Hhi].
  - destruct (Z.leb_spec 200 status); [lia | reflexivity].
  - destruct (Z.leb_spec status 299); [lia | apply andb_false_r].
Qed.

Lemma json_or_empty (status : Z) (body : option value) :
  catchR (res_json {| res_status := status; res_body := body |}) (fun _ => Ok (Obj []))
  = Ok (body_of body).
Proof. by destruct body. Qed.

Lemma get_non_null (data : value) (k : string) :
  nullish data = false -> get data k = Ok (get_opt data k).
Proof. unfold get, get_opt. by intros ->. Qed.

Ltac run_failed_request Hans Hst :=
  unfold bind, gets, liftR, throw, fetch; cbn beta iota;
  repeat match goal with
         | Ht : truthy _ = true |- _ => rewrite Ht
         | Hp : Storage.getProfile _ = _ |- _ => rewrite Hp
         end;
  cbn [negb orb truthy]; rewrite Hans; cbn beta iota zeta;
  rewrite ?json_or_empty, (non_2xx_not_ok _ _ Hst); cbn [negb fst res_status].

(** C6, as amended. On a non-2xx response every gateway function that
    fails to its caller throws an [Error] with a message chosen by the
    chain of that function. Eight of the nine take the first structured
    error message of the body, [errors[0].message], when that is truthy.
    Otherwise the listing-detail functions take the body's [message] field
    when truthy and else ["Failed to load listing (<status>)"] or ["Failed
    to place bid (<status>)"]; the dashboard functions take ["API error:
    <status>"] (for a body other than JSON [null]); the edit-listing
    functions take ["Failed to load/update/delete listing (<status>)"];
    [updateProfileOnServer] takes ["Failed to update profile (<status>)"]
    (for a body that is JSON). [fetchProfileWithListings] never reads the
    body: of its four responses the first outside 2xx, in the order
    profile, listings, bids, wins, gives ["Failed to load <which>:
    <status>"]. *)
Theorem gateway_error_message (b : Browser) (status : Z) (body : option value)
    (rest : list answer) (id payload : value) (amount : number) :
  answers b = Response status body :: rest ->
  non_2xx status ->
  let data := body_of body in
  let st := Z_to_string status in
  (ListingDetail.fetchListing id b).1 =
    Throw (Error (pick_message [structured_message data; generic_message data]
                    ("Failed to load listing (" +:+ st +:+ ")"))) /\
  (truthy (Storage.getToken (storage b)) = true ->
   (exists profile, Storage.getProfile (storage b) = Ok profile /\ truthy profile = true) ->
   (ListingDetail.placeBid id amount b).1 =
     Throw (Error (pick_message [structured_message data; generic_message data]
                     ("Failed to place bid (" +:+ st +:+ ")")))) /\
  (truthy (Storage.getToken (storage b)) = true ->
   nullish data = false ->
   (Dashboard.placeBid id amount b).1 =
     Throw (Error (pick_message [structured_message data] ("API error: " +:+ st)))) /\
  (nullish data = false ->
   (Dashboard.fetchListingById id b).1 =
     Throw (Error (pick_message [structured_message data] ("API error: " +:+ st)))) /\
  (forall token,
     (EditListing.fetchListing token id b).1 =
       Throw (Error (pick_message [structured_message data]
                       ("Failed to load listing (" +:+ st +:+ ")"))) /\
     (EditListing.updateListing token id payload b).1 =
       Throw (Error (pick_message [structured_message data]
                       ("Failed to update listing (" +:+ st +:+ ")"))) /\
     (EditListing.deleteListing token id b).1 =
       Throw (Error (pick_message [structured_message data]
                       ("Failed to delete listing (" +:+ st +:+ ")")))) /\
  (forall token name,
     body <> None ->
     (Profile.updateProfileOnServer token name payload b).1 =
       Throw (Error (pick_message [structured_message data]
                       ("Failed to update profile (" +:+ st +:+ ")")))) /\
  (forall token name (b4 : Browser) (s1 s2 s3 s4 : Z) (d1 d2 d3 d4 : option value)
          (rest4 : list answer) (what : string),
     answers b4 = Response s1 d1 :: Response s2 d2 :: Response s3 d3 ::
                  Response s4 d4 :: rest4 ->
     first_failed [("profile", s1); ("listings", s2); ("bids", s3); ("wins", s4)]
       = Some (what, status) ->
     (Profile.fetchProfileWithListings token name b4).1 =
       Throw (Error ("Failed to load " +:+ what +:+ ": " +:+ st))).
Proof.
  intros Hans Hst data st.
  assert (Hpick2 : forall fallback,
             ToString (or_else (or_else (structured_message data) (generic_message data))
                         (Str fallback))
             = pick_message [structured_message data; generic_message data] fallback).
  { intros fallback. unfold or_else. cbn [pick_message].
    destruct (truthy (structured_message data)) eqn:E1; cbv iota; [by rewrite E1|].
    destruct (truthy (generic_message data)) eqn:E2; cbv iota; [done|].
    by destruct (truthy (Str fallback)). }
  assert (Hpick1 : forall fallback,
             ToString (or_else (structured_message data) (Str fallback))
             = pick_message [structured_message data] fallback).
  { intros fallback. unfold or_else. cbn [pick_message].
    by destruct (truthy (structured_message data)). }
  split; [|split; [|split; [|split; [|split; [|split]]]]].
  - unfold ListingDetail.fetchListing. run_failed_request Hans Hst.
    f_equal. f_equal. apply Hpick2.
  - intros Htoken (profile & Hprofile & Htruthy).
    unfold ListingDetail.placeBid. run_failed_request Hans Hst.
    f_equal. f_equal. apply Hpick2.
  - intros Htoken Hdata.
    unfold Dashboard.placeBid. run_failed_request Hans Hst.
    rewrite (get_non_null _ _ Hdata). cbn [fst]. f_equal. f_equal. apply Hpick1.
  - intros Hdata.
    unfold Dashboard.fetchListingById. run_failed_request Hans Hst.
    rewrite (get_non_null _ _ Hdata). cbn [fst]. f_equal. f_equal. apply Hpick1.
  - intros token. split; [|split].
    + unfold EditListing.fetchListing. run_failed_request Hans Hst.
      f_equal. f_equal. apply Hpick1.
    + unfold EditListing.updateListing. run_failed_request Hans Hst.
      f_equal. f_equal. apply Hpick1.
    + unfold EditListing.deleteListing. run_failed_request Hans Hst.
      f_equal. f_equal. apply Hpick1.
  - intros token name Hbody.
    destruct body as [data'|]; [|done].
    unfold Profile.updateProfileOnServer, bind, liftR, throw, fetch. cbn beta iota.
    rewrite Hans. cbn beta iota zeta. unfold res_json at 1. cbn [res_body].
    rewrite (non_2xx_not_ok _ _ Hst). cbn [negb fst res_status].
    f_equal. f_equal. apply Hpick1.
  - intros token name b4 s1 s2 s3 s4 d1 d2 d3 d4 rest4 what Hans4 Hfirst.
    unfold Profile.fetchProfileWithListings, Profile.fetch_later, bind, liftR, throw, fetch.
    cbn beta iota zeta. rewrite Hans4.
    cbn [answers log with_answers with_log fst snd res_status]. unfold res_ok.
    cbn [res_status first_failed] in *.
    destruct ((200 <=? s1) && (s1 <=? 299)); cbn [negb];
      [|by injection Hfirst as <- <-].
    destruct ((200 <=? s2) && (s2 <=? 299)); cbn [negb];
      [|by injection Hfirst as <- <-].
    destruct ((200 <=? s3) && (s3 <=? 299)); cbn [negb];
      [|by injection Hfirst as <- <-].
    destruct ((200 <=? s4) && (s4 <=? 299)); cbn [negb];
      [discriminate | by injection Hfirst as <- <-].
Qed.

End Gateway.

Section GatewayExamples.
#[local] Existing Instance Reference.reference_platform.

Lemma gateway_error_message_witness :
  (Dashboard.placeBid (Str "l1") (Num 120)
     (Sample.browser "120"
        [Response 400 (Some (Obj [("errors", Arr [Obj [("message", Str "Bid too low")]])]))])).1
    = Throw (Error "Bid too low") /\
  (ListingDetail.fetchListing (Str "l1")
     (Sample.browser "120"
        [Response 404 (Some (Obj [("errors", Arr []); ("message", Str "No such listing")]))])).1
    = Throw (Error "No such listing") /\
  (EditListing.updateListing (Str "tok-ann") (Str "l1") (Obj [("title", Str "Vase")])
     (Sample.browser "120" [Response 500 None])).1
    = Throw (Error "Failed to update listing (500)") /\
  (Profile.updateProfileOnServer (Str "tok-ann") (Str "ann") (Obj [("bio", Str "Potter")])
     (Sample.browser "120" [Response 403 (Some (Obj [("message", Str "Forbidden")]))])).1
    = Throw (Error "Failed to update profile (403)") /\
  (Profile.fetchProfileWithListings (Str "tok-ann") (Str "ann")
     (Sample.browser "120"
        [Response 200 (Some (Obj [("data", Obj [])])); Response 200 None;
         Response 503 (Some (Obj [("errors", Arr [Obj [("message", Str "Busy")]])]));
         Response 404 None])).1
    = Throw (Error "Failed to load bids: 503").
Proof.
  split; [|split; [|split; [|split]]].
  - destruct (gateway_error_message
                (Sample.browser "120"
                   [Response 400
                      (Some (Obj [("errors", Arr [Obj [("message", Str "Bid too low")]])]))])
                400 _ [] (Str "l1") Null (Num 120) eq_refl) as (_ & _ & Hbid & _).
    + right. lia.
    + apply Hbid; vm_compute; reflexivity.
  - destruct (gateway_error_message
                (Sample.browser "120"
                   [Response 404
                      (Some (Obj [("errors", Arr []); ("message", Str "No such listing")]))])
                404 _ [] (Str "l1") Null (Num 120) eq_refl) as (Hload & _).
    + right. lia.
    + exact Hload.
  - destruct (gateway_error_message (Sample.browser "120" [Response 500 None])
                500 _ [] (Str "l1") (Obj [("title", Str "Vase")]) (Num 120) eq_refl)
      as (_ & _ & _ & _ & Hedit & _).
    + right. lia.
    + exact (proj1 (proj2 (Hedit (Str "tok-ann")))).
  - destruct (gateway_error_message
                (Sample.browser "120" [Response 403 (Some (Obj [("message", Str "Forbidden")]))])
                403 _ [] (Str "l1") (Obj [("bio", Str "Potter")]) (Num 120) eq_refl)
      as (_ & _ & _ & _ & _ & Hprofile & _).
    + right. lia.
    + apply Hprofile. discriminate.
  - destruct (gateway_error_message (Sample.browser "120" [Response 503 None])
                503 _ [] (Str "l1") Null (Num 120) eq_refl)
      as (_ & _ & _ & _ & _ & _ & Hloads).
    + right. lia.
    + apply (Hloads (Str "tok-ann") (Str "ann") _ 200 200 503 404
               (Some (Obj [("data", Obj [])])) None
               (Some (Obj [("errors", Arr [Obj [("message", Str "Busy")]])])) None
               [] "bids");
        reflexivity.
Defined.

(** C6, as stated, fails: with no structured error the dashboard's
    [placeBid] ignores the body's [message] field (here ["Bid too low"]), and
    with an empty body the listing-detail [fetchListing] does not fall back
    to ["API error: 404"]. *)
Lemma gateway_error_message_counterexample :
  (Dashboard.placeBid (Str "l1") (Num 120)
     (Sample.browser "120" [Response 400 (Some (Obj [("message", Str "Bid too low")]))])).1
    = Throw (Error "API error: 400") /\
  (ListingDetail.fetchListing (Str "l1")
     (Sample.browser "120" [Response 404 (Some (Obj []))])).1
    = Throw (Error "Failed to load listing (404)").
Proof. split; vm_compute; reflexivity. Qed.

End GatewayExamples.

(** ** Bid validation *)

Lemma with_log_same (b : Browser) : with_log (log b ++ []) b = b.
Proof. destruct b. unfold with_log. cbn. by rewrite app_nil_r. Qed.

Lemma detail_with_browser_same (s : ListingDetail.state) :
  ListingDetail.with_browser (ListingDetail.browser s) s = s.
Proof. by destruct s. Qed.

Lemma dashboard_with_browser_same (s : Dashboard.state) :
  Dashboard.with_browser (Dashboard.browser s) s = s.
Proof. by destruct s. Qed.

Section BidValidation.
Context `{Platform}.

(** The guards of the listing-detail handler: a rejected amount only shows
    an alert (or, for a guest, an alert and the way to the login page). *)
Lemma detail_rejects (s : ListingDetail.state) :
  let b := ListingDetail.browser s in
  let entered := default EmptyString (el_value <$> dom b !! ListingDetail.bidAmountInput) in
  not_positive entered \/ not_above_highest entered (ListingDetail.currentListing s) ->
  exists trace b',
    shown_only trace b b' /\
    exec ListingDetail.handleBidSubmit s = ListingDetail.with_browser b' s.
Proof.
  intros b entered Hrej.
  unfold exec, ListingDetail.handleBidSubmit, bind, gets, liftR. cbn beta iota.
  fold b.
  destruct (negb (truthy (ListingDetail.currentListing s))
            || negb (ListingDetail.present ListingDetail.bidAmountInput b)
            || negb (ListingDetail.present ListingDetail.placeBidButton b)).
  { exists [], b. split; [split; [constructor | by rewrite with_log_same]|].
    exact (eq_sym (detail_with_browser_same s)). }
  destruct (getProfile_ok (storage b)) as [profile ->].
  destruct (negb (truthy (Storage.getToken (storage b))) || negb (truthy profile)).
  { eexists [Alert _; Navigate _], _. split; [split; [by repeat constructor | reflexivity]|].
    cbn. unfold ListingDetail.with_browser, with_log. cbn.
    by rewrite <- app_assoc. }
  fold entered.
  destruct (String.eqb_spec entered EmptyString) as [Hempty | Hentered].
  { eexists [Alert _], _. split; [split; [by repeat constructor | reflexivity]|]. reflexivity. }
  destruct (num_isNaN (Number_of_string entered) || num_le (Number_of_string entered) (Num 0))
    eqn:Hpos.
  { eexists [Alert _], _. split; [split; [by repeat constructor | reflexivity]|]. reflexivity. }
  apply orb_false_iff in Hpos as [Hnan Hle].
  destruct Hrej as [[Hempty | [HNaN | (z & Hz & Hz0)]] | (z & h & Hz & Hh & Hzh)].
  - contradiction.
  - rewrite HNaN in Hnan. discriminate.
  - rewrite Hz in Hle. cbn in Hle. apply Z.leb_gt in Hle. lia.
  - rewrite Hh, Hz. cbn [num_le]. rewrite (proj2 (Z.leb_le z h) Hzh).
    eexists [Alert _], _. split; [split; [by repeat constructor | reflexivity]|]. reflexivity.
Qed.

(** The same guards in the click handler of a dashboard card. *)
Lemma dashboard_rejects (c : Dashboard.card) (s : Dashboard.state) :
  let b := Dashboard.browser s in
  let entered :=
    default EmptyString (el_value <$> dom b !! Dashboard.hook c ".bid-input") in
  let listing := default Undefined (Dashboard.allListings s !! Dashboard.card_listing c) in
  not_positive entered \/ not_above_highest entered listing ->
  exists trace b',
    shown_only trace b b' /\
    exec (Dashboard.bidClick c) s = Dashboard.with_browser b' s.
Proof.
  intros b entered listing Hrej.
  unfold exec, Dashboard.bidClick, Dashboard.br, zoom, querySelector, bind, gets, liftR.
  cbn beta iota zeta. fold b. subst entered.
  destruct (dom b !! Dashboard.hook c ".bid-input") as [bidInput|]; cbn [fmap option_fmap option_map default id] in *.
  2:{ exists [], b. split; [split; [constructor | by rewrite with_log_same]|].
      reflexivity. }
  cbn [fst snd]. subst b. rewrite dashboard_with_browser_same.
  destruct (String.eqb_spec (el_value bidInput) EmptyString) as [Hempty | Hentered].
  { eexists [Alert _], _. split; [split; [by repeat constructor | reflexivity]|]. reflexivity. }
  destruct (num_isNaN (Number_of_string (el_value bidInput))
            || num_le (Number_of_string (el_value bidInput)) (Num 0)) eqn:Hpos.
  { eexists [Alert _], _. split; [split; [by repeat constructor | reflexivity]|]. reflexivity. }
  apply orb_false_iff in Hpos as [Hnan Hle].
  destruct Hrej as [[Hempty | [HNaN | (z & Hz & Hz0)]] | (z & h & Hz & Hh & Hzh)].
  - contradiction.
  - rewrite HNaN in Hnan. discriminate.
  - rewrite Hz in Hle. cbn in Hle. apply Z.leb_gt in Hle. lia.
  - fold listing. rewrite Hh, Hz. cbn [num_le]. rewrite (proj2 (Z.leb_le z h) Hzh).
    eexists [Alert _], _. split; [split; [by repeat constructor | reflexivity]|]. reflexivity.
Qed.

(** C1. When the entered amount is not a positive number, or does not
    exceed the highest bid known for the listing, both bid handlers return
    having sent no request: the browser is left as it was, document and
    highest-bid display included, but for the alert (or, for a guest on the
    listing-detail page, the alert and the way to the login page) shown. *)
Theorem bid_rejected_before_network
    (d : ListingDetail.state) (c : Dashboard.card) (s : Dashboard.state) :
  (detail_validation_fails d ->
   exists trace b',
     shown_only trace (ListingDetail.browser d) b' /\
     exec ListingDetail.handleBidSubmit d = ListingDetail.with_browser b' d /\
     dom b' !! ListingDetail.highestBidEl
       = dom (ListingDetail.browser d) !! ListingDetail.highestBidEl) /\
  (card_validation_fails c s ->
   exists trace b',
     shown_only trace (Dashboard.browser s) b' /\
     exec (Dashboard.bidClick c) s = Dashboard.with_browser b' s /\
     dom b' !! Dashboard.hook c ".listing-card-highest-bid"
       = dom (Dashboard.browser s) !! Dashboard.hook c ".listing-card-highest-bid").
Proof.
  split; intros Hrej.
  - destruct (detail_rejects d Hrej) as (trace & b' & Hshown & Hexec).
    exists trace, b'. repeat split; try apply Hshown; [exact Hexec|].
    destruct Hshown as [_ ->]. reflexivity.
  - destruct (dashboard_rejects c s Hrej) as (trace & b' & Hshown & Hexec).
    exists trace, b'. repeat split; try apply Hshown; [exact Hexec|].
    destruct Hshown as [_ ->]. reflexivity.
Qed.

End BidValidation.

Section BidValidationExamples.
#[local] Existing Instance Reference.reference_platform.

(** A bid of 50 on a listing whose highest bid is 100: an alert, no request,
    and the display still at 100. *)
Lemma bid_rejected_before_network_witness :
  (log (ListingDetail.browser (exec ListingDetail.handleBidSubmit (Sample.detail "50" [])))
     = [Alert "Your bid must be higher than the current highest bid (100 credits)."] /\
   textContent <$>
     dom (ListingDetail.browser (exec ListingDetail.handleBidSubmit (Sample.detail "50" [])))
       !! ListingDetail.highestBidEl = Some "100 credits") /\
  (Forall (fun e => is_fetch e = false)
     (log (Dashboard.browser (exec (Dashboard.bidClick Sample.card) (Sample.dashboard "50" [])))) /\
   textContent <$>
     dom (Dashboard.browser (exec (Dashboard.bidClick Sample.card) (Sample.dashboard "50" [])))
       !! "#card-l1 .listing-card-highest-bid" = Some "100 credits").
Proof.
  destruct (bid_rejected_before_network
              (Sample.detail "50" []) Sample.card (Sample.dashboard "50" []))
    as [Hdetail Hdashboard].
  split.
  - destruct Hdetail as (trace & b' & [Hall ->] & Hexec & Hshown).
    { right. exists 50, 100.
      split; [vm_compute; reflexivity | split; [vm_compute; reflexivity | lia]]. }
    split; [vm_compute; reflexivity|].
    rewrite Hexec. cbn [ListingDetail.browser ListingDetail.with_browser].
    rewrite Hshown. vm_compute. reflexivity.
  - destruct Hdashboard as (trace & b' & [Hall ->] & Hexec & Hshown).
    { right. exists 50, 100.
      split; [vm_compute; reflexivity | split; [vm_compute; reflexivity | lia]]. }
    rewrite Hexec. cbn [Dashboard.browser Dashboard.with_browser].
    split; [exact Hall|]. cbn [with_log dom]. vm_compute. reflexivity.
Defined.

End BidValidationExamples.

(** ** What a computation leaves untouched *)

(** [m] never changes the component [f] of the state. *)
Definition preserves {S A T : Type} (f : S -> T) (m : M S A) : Prop :=
  forall s, f (m s).2 = f s.

Section Preserves.
Context {S T : Type} (f : S -> T).

Lemma preserves_ret {A : Type} (a : A) : preserves f (ret a).
Proof. by intros s. Qed.

Lemma preserves_throw {A : Type} (e : exn) : preserves f (@throw S A e).
Proof. by intros s. Qed.

Lemma preserves_liftR {A : Type} (r : result A) : preserves f (@liftR S A r).
Proof. by intros s. Qed.

Lemma preserves_gets {A : Type} (g : S -> A) : preserves f (gets g).
Proof. by intros s. Qed.

Lemma preserves_bind {A B : Type} (m : M S A) (k : A -> M S B) :
  preserves f m -> (forall a, preserves f (k a)) -> preserves f (bind m k).
Proof.
  intros Hm Hk s. unfold bind. specialize (Hm s).
  destruct (m s) as [[a | e] s']; cbn [snd] in *; [|exact Hm].
  rewrite Hk. exact Hm.
Qed.

Lemma preserves_try_catch {A : Type} (m : M S A) (h : exn -> M S A) :
  preserves f m -> (forall e, preserves f (h e)) -> preserves f (try_catch m h).
Proof.
  intros Hm Hh s. unfold try_catch. specialize (Hm s).
  destruct (m s) as [[a | e] s']; cbn [snd] in *; [exact Hm|].
  rewrite Hh. exact Hm.
Qed.

Lemma preserves_try_finally {A : Type} (m : M S A) (fin : M S unit) :
  preserves f m -> preserves f fin -> preserves f (try_finally m fin).
Proof.
  intros Hm Hfin s. unfold try_finally. specialize (Hm s).
  destruct (m s) as [r s']. specialize (Hfin s').
  destruct (fin s') as [[[] | e] s'']; cbn [snd] in *; congruence.
Qed.

End Preserves.

Lemma detail_br_currentListing {A : Type} (m : M Browser A) :
  preserves ListingDetail.currentListing (ListingDetail.br m).
Proof.
  intros s. unfold ListingDetail.br, zoom.
  by destruct (m (ListingDetail.browser s)).
Qed.

Lemma dashboard_br_allListings {A : Type} (m : M Browser A) :
  preserves Dashboard.allListings (Dashboard.br m).
Proof.
  intros s. unfold Dashboard.br, zoom.
  by destruct (m (Dashboard.browser s)).
Qed.

Create HintDb preserves.
#[local] Hint Resolve preserves_ret preserves_throw preserves_liftR preserves_gets
  detail_br_currentListing dashboard_br_allListings : preserves.

Ltac preserves_step :=
  first
    [ apply preserves_bind; [|intros ?]
    | apply preserves_try_catch; [|intros ?]
    | apply preserves_try_finally
    | match goal with
      | |- preserves _ (if ?c then _ else _) => destruct c
      | |- preserves _ (match ?x with _ => _ end) => destruct x
      end
    | solve [auto with preserves] ].

Section BidFailure.
Context `{Platform}.

Lemma updateBidFormState_currentListing :
  preserves ListingDetail.currentListing ListingDetail.updateBidFormState.
Proof. unfold ListingDetail.updateBidFormState. repeat preserves_step. Qed.

(** The requests of the gateway functions do not look at the document. *)
Lemma detail_placeBid_dom (id : value) (amount : number) (d : gmap string element)
    (b : Browser) :
  ListingDetail.placeBid id amount (with_dom d b) =
  let '(r, b') := ListingDetail.placeBid id amount b in (r, with_dom d b').
Proof.
  unfold ListingDetail.placeBid, bind, gets, liftR, throw, fetch. cbn [storage with_dom].
  destruct (Storage.getProfile (storage b)) as [profile | e]; [|reflexivity].
  destruct (negb (truthy (Storage.getToken (storage b))) || negb (truthy profile));
    [reflexivity|].
  cbn [answers with_dom].
  destruct (answers b) as [|[|status body] rest]; try reflexivity.
  destruct (catchR _ _); [|reflexivity].
  destruct (negb _); [reflexivity|]. by destruct (get _ _).
Qed.

Lemma detail_fetchListing_dom (id : value) (d : gmap string element) (b : Browser) :
  ListingDetail.fetchListing id (with_dom d b) =
  let '(r, b') := ListingDetail.fetchListing id b in (r, with_dom d b').
Proof.
  unfold ListingDetail.fetchListing, bind, gets, liftR, throw, fetch.
  cbn [storage answers with_dom].
  destruct (answers b) as [|[|status body] rest]; try reflexivity.
  destruct (catchR _ _); [|reflexivity].
  destruct (negb _); [reflexivity|]. by destruct (get _ _).
Qed.

End BidFailure.

Section DetailBidFailure.
Context `{Platform}.

(** A failed bid request or a failed re-fetch ends [submitBid] before the
    listing is replaced. *)
Lemma detail_submitBid_fails (s : ListingDetail.state) (amount : number) :
  let id := prop_of (ListingDetail.currentListing s) "id" in
  (exists e b1, ListingDetail.placeBid id amount (ListingDetail.browser s) = (Throw e, b1)) \/
  (exists placed b1 e b2,
     ListingDetail.placeBid id amount (ListingDetail.browser s) = (Ok placed, b1) /\
     ListingDetail.fetchListing id b1 = (Throw e, b2)) ->
  ListingDetail.currentListing (ListingDetail.submitBid amount s).2
  = ListingDetail.currentListing s.
Proof.
  intros id Hfail.
  unfold ListingDetail.submitBid, bind, ListingDetail.br, zoom, update_element, modify, gets.
  cbn -[ListingDetail.placeBid ListingDetail.fetchListing ListingDetail.renderListing].
  fold id. rewrite !detail_placeBid_dom.
  destruct Hfail as [(e & b1 & Hpost) | (placed & b1 & e & b2 & Hpost & Hget)];
    rewrite Hpost; cbn -[ListingDetail.fetchListing ListingDetail.renderListing].
  - reflexivity.
  - rewrite !detail_fetchListing_dom, Hget. reflexivity.
Qed.

(** The handler either returns from one of its guards, touching nothing
    but the browser, or runs its [try] block on the entered amount. *)
Lemma detail_handler_shape (s : ListingDetail.state) :
  let b := ListingDetail.browser s in
  let entered := default EmptyString (el_value <$> dom b !! ListingDetail.bidAmountInput) in
  (exists r b', ListingDetail.handleBidSubmit s = (r, ListingDetail.with_browser b' s)) \/
  ListingDetail.handleBidSubmit s =
    try_finally
      (try_catch (ListingDetail.submitBid (Number_of_string entered))
         (fun error => ListingDetail.br (alert (exn_message error))))
      ListingDetail.updateBidFormState s.
Proof.
  intros b entered.
  unfold ListingDetail.handleBidSubmit, bind, gets, liftR. cbn beta iota. fold b.
  assert (Hsame : forall r : result unit,
             (r, s) = (r, ListingDetail.with_browser b s))
    by (intros r; unfold b; by rewrite detail_with_browser_same).
  destruct (_ || _ || negb (ListingDetail.present ListingDetail.placeBidButton b)).
  { left. exists (Ok tt), b. apply Hsame. }
  destruct (Storage.getProfile (storage b)) as [profile | e].
  2:{ left. exists (Throw e), b. apply Hsame. }
  destruct (negb (truthy (Storage.getToken (storage b))) || negb (truthy profile)).
  { left. unfold ListingDetail.br, zoom, alert, navigate, emit, modify. cbn.
    by eexists _, _. }
  fold entered. destruct (String.eqb entered EmptyString).
  { left. unfold ListingDetail.br, zoom, alert, emit, modify. cbn. by eexists _, _. }
  destruct (num_isNaN _ || num_le _ (Num 0)).
  { left. unfold ListingDetail.br, zoom, alert, emit, modify. cbn. by eexists _, _. }
  destruct (Helpers.getHighestBidAmount (ListingDetail.currentListing s)) as [h | e].
  2:{ left. exists (Throw e), b. apply Hsame. }
  destruct (num_le _ h).
  { left. unfold ListingDetail.br, zoom, alert, emit, modify. cbn. by eexists _, _. }
  right. reflexivity.
Qed.

Lemma detail_failure_keeps_listing (s : ListingDetail.state) :
  let b := ListingDetail.browser s in
  let entered := default EmptyString (el_value <$> dom b !! ListingDetail.bidAmountInput) in
  let id := prop_of (ListingDetail.currentListing s) "id" in
  let amount := Number_of_string entered in
  (not_positive entered \/ not_above_highest entered (ListingDetail.currentListing s)) \/
  (exists e b1, ListingDetail.placeBid id amount b = (Throw e, b1)) \/
  (exists placed b1 e b2,
     ListingDetail.placeBid id amount b = (Ok placed, b1) /\
     ListingDetail.fetchListing id b1 = (Throw e, b2)) ->
  ListingDetail.currentListing (exec ListingDetail.handleBidSubmit s)
  = ListingDetail.currentListing s.
Proof.
  intros b entered id amount [Hrej | Hfail].
  - destruct (detail_rejects s Hrej) as (trace & b' & _ & ->). reflexivity.
  - unfold exec.
    destruct (detail_handler_shape s) as [(r & b' & ->) | ->]; [reflexivity|].
    fold b entered amount.
    unfold try_finally, try_catch.
    pose proof (detail_submitBid_fails s amount Hfail) as Hsub.
    destruct (ListingDetail.submitBid amount s) as [[[] | e] s1]; cbn [snd] in Hsub.
    + pose proof (updateBidFormState_currentListing s1) as Hfin.
      destruct (ListingDetail.updateBidFormState s1) as [[[] | e'] s2];
        cbn [snd] in *; congruence.
    + pose proof (detail_br_currentListing (alert (exn_message e)) s1) as Hcatch.
      destruct (ListingDetail.br (alert (exn_message e)) s1) as [r s2].
      pose proof (updateBidFormState_currentListing s2) as Hfin.
      destruct (ListingDetail.updateBidFormState s2) as [[[] | e'] s3];
        cbn [snd] in *; congruence.
Qed.

End DetailBidFailure.

Section DashboardBidFailure.
Context `{Platform}.

Lemma dashboard_placeBid_dom (id : value) (amount : number) (d : gmap string element)
    (b : Browser) :
  Dashboard.placeBid id amount (with_dom d b) =
  let '(r, b') := Dashboard.placeBid id amount b in (r, with_dom d b').
Proof.
  unfold Dashboard.placeBid, bind, gets, liftR, throw, fetch. cbn [storage with_dom].
  destruct (negb (truthy (Storage.getToken (storage b)))); [reflexivity|].
  cbn [answers with_dom].
  destruct (answers b) as [|[|status body] rest]; try reflexivity.
  destruct (negb _).
  - destruct (catchR _ _) as [errorBody|]; [|reflexivity]. by destruct (get errorBody _).
  - destruct (res_json _) as [result|]; [|reflexivity]. by destruct (get result _).
Qed.

Lemma dashboard_fetchListingById_dom (id : value) (d : gmap string element) (b : Browser) :
  Dashboard.fetchListingById id (with_dom d b) =
  let '(r, b') := Dashboard.fetchListingById id b in (r, with_dom d b').
Proof.
  unfold Dashboard.fetchListingById, bind, gets, liftR, throw, fetch.
  cbn [storage answers with_dom].
  destruct (answers b) as [|[|status body] rest]; try reflexivity.
  destruct (negb _).
  - destruct (catchR _ _) as [errorBody|]; [|reflexivity]. by destruct (get errorBody _).
  - destruct (res_json _) as [result|]; [|reflexivity]. by destruct (get result _).
Qed.

Lemma dashboard_submitBid_fails (c : Dashboard.card) (s : Dashboard.state)
    (amount : number) :
  (exists e b1,
     Dashboard.placeBid (Dashboard.card_id c) amount (Dashboard.browser s) = (Throw e, b1)) \/
  (exists placed b1 e b2,
     Dashboard.placeBid (Dashboard.card_id c) amount (Dashboard.browser s) = (Ok placed, b1) /\
     Dashboard.fetchListingById (Dashboard.card_id c) b1 = (Throw e, b2)) ->
  Dashboard.allListings (Dashboard.submitBid c amount s).2 = Dashboard.allListings s.
Proof.
  intros Hfail.
  unfold Dashboard.submitBid, bind, Dashboard.br, zoom, update_element, modify, gets.
  cbn -[Dashboard.placeBid Dashboard.fetchListingById Dashboard.refreshProfileCredits].
  rewrite !dashboard_placeBid_dom.
  destruct Hfail as [(e & b1 & Hpost) | (placed & b1 & e & b2 & Hpost & Hget)];
    rewrite Hpost;
    cbn -[Dashboard.fetchListingById Dashboard.refreshProfileCredits].
  - reflexivity.
  - rewrite !dashboard_fetchListingById_dom, Hget. reflexivity.
Qed.

Lemma dashboard_handler_shape (c : Dashboard.card) (s : Dashboard.state) :
  let b := Dashboard.browser s in
  let entered :=
    default EmptyString (el_value <$> dom b !! Dashboard.hook c ".bid-input") in
  (exists r b', Dashboard.bidClick c s = (r, Dashboard.with_browser b' s)) \/
  exists catch finalizer,
    (forall e, preserves Dashboard.allListings (catch e)) /\
    preserves Dashboard.allListings finalizer /\
    Dashboard.bidClick c s =
      try_finally (try_catch (Dashboard.submitBid c (Number_of_string entered)) catch)
        finalizer s.
Proof.
  intros b entered.
  unfold Dashboard.bidClick, Dashboard.br, zoom, querySelector, bind, gets, liftR.
  cbn beta iota zeta. fold b. subst entered.
  destruct (dom b !! Dashboard.hook c ".bid-input") as [bidInput|];
    cbn [fmap option_fmap option_map default id fst snd].
  2:{ left. by exists (Ok tt), b. }
  unfold b. rewrite dashboard_with_browser_same.
  destruct (String.eqb (el_value bidInput) EmptyString).
  { left. unfold alert, emit, modify. cbn. by eexists _, _. }
  destruct (num_isNaN _ || num_le _ (Num 0)).
  { left. unfold alert, emit, modify. cbn. by eexists _, _. }
  destruct (Helpers.getHighestBidAmount _) as [h | e].
  2:{ left. exists (Throw e), (Dashboard.browser s).
      by rewrite dashboard_with_browser_same. }
  destruct (num_le _ h).
  { left. unfold alert, emit, modify. cbn. by eexists _, _. }
  right. eexists _, _. split; [|split; [|reflexivity]].
  - intros e. apply (dashboard_br_allListings (alert _)).
  - destruct (negb (Dashboard.card_isOwnListing c)); [|apply preserves_ret].
    apply preserves_bind; [|intros ?];
      apply (dashboard_br_allListings (update_element _ _)).
Qed.

Lemma dashboard_failure_keeps_listing (c : Dashboard.card) (s : Dashboard.state) :
  let b := Dashboard.browser s in
  let entered :=
    default EmptyString (el_value <$> dom b !! Dashboard.hook c ".bid-input") in
  let listing := default Undefined (Dashboard.allListings s !! Dashboard.card_listing c) in
  let amount := Number_of_string entered in
  (not_positive entered \/ not_above_highest entered listing) \/
  (exists e b1, Dashboard.placeBid (Dashboard.card_id c) amount b = (Throw e, b1)) \/
  (exists placed b1 e b2,
     Dashboard.placeBid (Dashboard.card_id c) amount b = (Ok placed, b1) /\
     Dashboard.fetchListingById (Dashboard.card_id c) b1 = (Throw e, b2)) ->
  Dashboard.allListings (exec (Dashboard.bidClick c) s) = Dashboard.allListings s.
Proof.
  intros b entered listing amount [Hrej | Hfail].
  - destruct (dashboard_rejects c s Hrej) as (trace & b' & _ & ->). reflexivity.
  - unfold exec.
    destruct (dashboard_handler_shape c s)
      as [(r & b' & ->) | (catch & finalizer & Hcatch & Hfin & ->)]; [reflexivity|].
    fold b entered amount.
    unfold try_finally, try_catch.
    pose proof (dashboard_submitBid_fails c s amount Hfail) as Hsub.
    destruct (Dashboard.submitBid c amount s) as [[[] | e] s1]; cbn [snd] in Hsub.
    + pose proof (Hfin s1) as Hf.
      destruct (finalizer s1) as [[[] | e'] s2]; cbn [snd] in *; congruence.
    + pose proof (Hcatch e s1) as Hc.
      destruct (catch e s1) as [r s2].
      pose proof (Hfin s2) as Hf.
      destruct (finalizer s2) as [[[] | e'] s3]; cbn [snd] in *; congruence.
Qed.

End DashboardBidFailure.

Section BidFailureClaim.
Context `{Platform}.

(** A bid-placement attempt that is rejected by the validation, or in which
    the bid request or the re-fetch of the listing throws, leaves the
    in-memory listing as it was: [currentListing] on the listing-detail
    page, the listing records of the dashboard. *)
Lemma thrown_failure_keeps_listing
    (d : ListingDetail.state) (c : Dashboard.card) (s : Dashboard.state) :
  (detail_validation_fails d \/ detail_bid_request_throws d \/ detail_refetch_throws d ->
   ListingDetail.currentListing (exec ListingDetail.handleBidSubmit d)
   = ListingDetail.currentListing d) /\
  (card_validation_fails c s \/ card_bid_request_throws c s \/ card_refetch_throws c s ->
   Dashboard.allListings (exec (Dashboard.bidClick c) s) = Dashboard.allListings s).
Proof.
  split.
  - apply detail_failure_keeps_listing.
  - apply dashboard_failure_keeps_listing.
Qed.

End BidFailureClaim.

Section BidFailureExamples.
#[local] Existing Instance Reference.reference_platform.

(** On the listing-detail page the bid of 150 is accepted by the service
    and the re-fetch is not answered; on the dashboard the service refuses
    the bid. *)
Lemma thrown_failure_keeps_listing_example :
  ListingDetail.currentListing
    (exec ListingDetail.handleBidSubmit
       (Sample.detail "150" [Response 201 (Some (Obj [("data", Obj [])])); NetworkError]))
    = Sample.listing /\
  Dashboard.allListings
    (exec (Dashboard.bidClick Sample.card)
       (Sample.dashboard "150"
          [Response 400 (Some (Obj [("errors", Arr [Obj [("message", Str "Bid too low")]])]))]))
    = [Sample.listing].
Proof.
  split.
  - refine (proj1 (thrown_failure_keeps_listing
                     (Sample.detail "150"
                        [Response 201 (Some (Obj [("data", Obj [])])); NetworkError])
                     Sample.card (Sample.dashboard "150" [])) _).
    right. right. do 4 eexists. split; vm_compute; reflexivity.
  - refine (proj2 (thrown_failure_keeps_listing (Sample.detail "150" []) Sample.card
                     (Sample.dashboard "150"
                        [Response 400
                           (Some (Obj [("errors",
                                        Arr [Obj [("message", Str "Bid too low")]])]))])) _).
    right. left. do 2 eexists. vm_compute. reflexivity.
Defined.

(** C2. The claim fails on the listing-detail page when the re-fetch is
    answered 2xx without [data]. The viewer bids 150 on the sample listing;
    the service accepts the bid and answers the re-fetch with status 200
    and the body [{}]. [fetchListing] then returns [undefined] instead of
    throwing, [handleBidSubmit] assigns it to [currentListing] and the
    rendering of it throws: the attempt ends in an error alert with the
    in-memory listing replaced by [undefined], the bid button left disabled
    on its busy label, and no success message. On the same answers the
    click handler of the dashboard ends in an error alert as well and
    leaves its listing record as it was. *)
Theorem bid_refetch_without_data :
  let answers := [Response 201 (Some (Obj [("data", Obj [])]));
                  Response 200 (Some (Obj []))] in
  let d := Sample.detail "150" answers in
  let d' := exec ListingDetail.handleBidSubmit d in
  let s := Sample.dashboard "150" answers in
  let s' := exec (Dashboard.bidClick Sample.card) s in
  ListingDetail.currentListing d = Sample.listing /\
  ListingDetail.currentListing d' = Undefined /\
  (exists post refetch message,
     log (ListingDetail.browser d') = [Fetch post; Fetch refetch; Alert message] /\
     req_method post = "POST" /\ req_method refetch = "GET" /\
     message <> "Bid placed successfully!") /\
  dom (ListingDetail.browser d') !! ListingDetail.placeBidButton
    = Some (set_textContent "Placing bid..." (set_disabled true Sample.blank)) /\
  Dashboard.allListings s' = Dashboard.allListings s /\
  (exists post refetch message,
     log (Dashboard.browser s') = [Fetch post; Fetch refetch; Alert message] /\
     message <> "Bid placed successfully!").
Proof.
  cbv zeta. split; [reflexivity|]. split; [vm_compute; reflexivity|].
  split.
  { do 3 eexists. split; [vm_compute; reflexivity|].
    split; [reflexivity|]. split; [reflexivity | discriminate]. }
  split; [vm_compute; reflexivity|]. split; [vm_compute; reflexivity|].
  do 3 eexists. split; [vm_compute; reflexivity | discriminate].
Qed.

End BidFailureExamples.

(** ** Loading the edit page *)

Section EditLoad.
Context `{Platform}.

Ltac state_simpl :=
  cbn beta iota zeta;
  cbn [negb orb fst snd EditListing.browser EditListing.url_id EditListing.with_browser
       EditListing.submit_listener EditListing.delete_listener
       EditListing.with_submit_listener EditListing.with_delete_listener
       storage answers dom log clock with_log with_answers].

(** The run of the load handler on a listing that is not the viewer's. *)
Lemma edit_load_mismatch_run (s : EditListing.state) (token profile listing : value)
    (status : Z) (body : option value) (rest : list answer) :
  Storage.getToken (storage (EditListing.browser s)) = token ->
  truthy token = true ->
  Storage.getProfile (storage (EditListing.browser s)) = Ok profile ->
  truthy profile = true ->
  truthy (EditListing.url_id s) = true ->
  answers (EditListing.browser s) = Response status body :: rest ->
  ~ non_2xx status ->
  get (body_of body) "data" = Ok listing ->
  nullish listing = false ->
  seller_mismatch listing (prop_of profile "name") ->
  let env := {| EditListing.env_token := token; EditListing.env_profile := profile;
                EditListing.env_listingId := EditListing.url_id s |} in
  let attach (hook : string) (l : option EditListing.listener_env) :=
    if EditListing.present hook (EditListing.browser s) then Some env else l in
  exec EditListing.onLoad s =
    {| EditListing.browser :=
         with_answers rest
           (with_log (log (EditListing.browser s) ++
                      [Fetch (edit_fetch_request token (EditListing.url_id s));
                       Alert "You can only edit your own listings.";
                       Navigate "profile.html"])
              (EditListing.browser s));
       EditListing.url_id := EditListing.url_id s;
       EditListing.submit_listener :=
         attach EditListing.form (EditListing.submit_listener s);
       EditListing.delete_listener :=
         attach EditListing.deleteBtn (EditListing.delete_listener s) |}.
Proof.
  intros Htoken Htruthy Hprofile Hptruthy Hid Hans Hok Hdata Hlisting Hmis env attach.
  assert (Hres : res_ok {| res_status := status; res_body := body |} = true).
  { unfold res_ok, non_2xx in *. cbn [res_status].
    apply andb_true_iff. split; apply Z.leb_le; lia. }
  assert (Hguard : negb (truthy (prop_of listing "seller"))
                   || negb (strict_eq (prop_of (prop_of listing "seller") "name")
                              (prop_of profile "name")) = true).
  { destruct Hmis as [-> | ->]; [reflexivity | apply orb_true_r]. }
  unfold exec, EditListing.onLoad, EditListing.requireAuth, EditListing.br, zoom,
    try_catch, EditListing.fetchListing, EditListing.populateForm,
    bind, gets, liftR, ret, throw, fetch, alert, navigate, emit, modify.
  cbn beta iota zeta.
  rewrite Hprofile, Htoken, Htruthy, Hptruthy. state_simpl.
  rewrite Hid. state_simpl.
  rewrite Hans. state_simpl. rewrite json_or_empty, Hres. state_simpl.
  rewrite Hdata. state_simpl. unfold get. rewrite Hlisting. state_simpl.
  rewrite Hguard. state_simpl.
  subst attach. unfold EditListing.present. state_simpl.
  repeat match goal with
         | |- context [bool_decide ?P] => destruct (bool_decide P)
         end; state_simpl; unfold edit_fetch_request; rewrite <- !app_assoc; reflexivity.
Qed.

(** C7, as amended. When the listing fetched at page load has no seller or
    a seller whose name is not the authenticated viewer's, the controller,
    having sent the one GET request that fetches the listing, shows an alert
    and starts a redirect to the profile page; it leaves the form as it was
    and the page load sends no update (PUT) request. *)
Theorem edit_load_mismatch (s : EditListing.state) (token profile listing : value)
    (status : Z) (body : option value) (rest : list answer) :
  Storage.getToken (storage (EditListing.browser s)) = token ->
  truthy token = true ->
  Storage.getProfile (storage (EditListing.browser s)) = Ok profile ->
  truthy profile = true ->
  truthy (EditListing.url_id s) = true ->
  answers (EditListing.browser s) = Response status body :: rest ->
  ~ non_2xx status ->
  get (body_of body) "data" = Ok listing ->
  nullish listing = false ->
  seller_mismatch listing (prop_of profile "name") ->
  EditListing.browser (exec EditListing.onLoad s) =
    with_answers rest
      (with_log (log (EditListing.browser s) ++
                 [Fetch (edit_fetch_request token (EditListing.url_id s));
                  Alert "You can only edit your own listings.";
                  Navigate "profile.html"])
         (EditListing.browser s)) /\
  req_method (edit_fetch_request token (EditListing.url_id s)) = "GET".
Proof.
  intros Htoken Htruthy Hprofile Hptruthy Hid Hans Hok Hdata Hlisting Hmis.
  split; [|reflexivity].
  now rewrite (edit_load_mismatch_run s token profile listing status body rest).
Qed.

(** After such a load the listener of the form is attached all the same:
    the return inside [populateForm] does not end the load handler. *)
Remark edit_load_mismatch_listener (s : EditListing.state) (token profile listing : value)
    (status : Z) (body : option value) (rest : list answer) :
  Storage.getToken (storage (EditListing.browser s)) = token ->
  truthy token = true ->
  Storage.getProfile (storage (EditListing.browser s)) = Ok profile ->
  truthy profile = true ->
  truthy (EditListing.url_id s) = true ->
  answers (EditListing.browser s) = Response status body :: rest ->
  ~ non_2xx status ->
  get (body_of body) "data" = Ok listing ->
  nullish listing = false ->
  seller_mismatch listing (prop_of profile "name") ->
  EditListing.present EditListing.form (EditListing.browser s) = true ->
  EditListing.submit_listener (exec EditListing.onLoad s) =
    Some {| EditListing.env_token := token; EditListing.env_profile := profile;
            EditListing.env_listingId := EditListing.url_id s |}.
Proof.
  intros Htoken Htruthy Hprofile Hptruthy Hid Hans Hok Hdata Hlisting Hmis Hform.
  rewrite (edit_load_mismatch_run s token profile listing status body rest) by assumption.
  cbn [EditListing.submit_listener]. now rewrite Hform.
Qed.

End EditLoad.

Section EditLoadExamples.
#[local] Existing Instance Reference.reference_platform.

Lemma edit_load_mismatch_witness :
  log (EditListing.browser
         (exec EditListing.onLoad
            (Sample.edit [Response 200 (Some (Obj [("data", Sample.bobs_listing)]))])))
    = [Fetch (edit_fetch_request (Str "tok-ann") (Str "l9"));
       Alert "You can only edit your own listings.";
       Navigate "profile.html"] /\
  dom (EditListing.browser
         (exec EditListing.onLoad
            (Sample.edit [Response 200 (Some (Obj [("data", Sample.bobs_listing)]))])))
    = Sample.document EmptyString.
Proof.
  destruct (edit_load_mismatch
              (Sample.edit [Response 200 (Some (Obj [("data", Sample.bobs_listing)]))])
              (Str "tok-ann")
              (Obj [("name", Str "ann"); ("credits", Number (Num 1000))])
              Sample.bobs_listing 200 (Some (Obj [("data", Sample.bobs_listing)])) [])
    as [Hrun _];
    try (vm_compute; reflexivity).
  - unfold non_2xx. lia.
  - right. reflexivity.
  - rewrite Hrun. split; reflexivity.
Defined.

(** C7, as stated, fails: the redirect comes after a network call, the
    request that fetches the listing. *)
Lemma edit_load_counterexample :
  log (EditListing.browser
         (exec EditListing.onLoad
            (Sample.edit [Response 200 (Some (Obj [("data", Sample.bobs_listing)]))])))
    = [Fetch {| req_method := "GET";
                req_url := "https://v2.api.noroff.dev/auction/listings/l9?_seller=true&_bids=true";
                req_headers := [("Authorization", "Bearer tok-ann");
                                ("X-Noroff-API-Key", "api-key")];
                req_body := None |};
       Alert "You can only edit your own listings.";
       Navigate "profile.html"].
Proof. vm_compute. reflexivity. Qed.

End EditLoadExamples.

(** * Further properties *)

(** ** The auth store *)

Section AuthStoreMore.
Context `{Platform}.

(** X1. [clearAuth] logs out: afterwards there is neither token nor
    profile, and every other key of the store is as before. *)
Theorem clearAuth_logs_out (ls : gmap string string) :
  (Storage.clearAuth ls).1 = Ok tt /\
  Storage.getToken (exec Storage.clearAuth ls) = Null /\
  Storage.getProfile (exec Storage.clearAuth ls) = Ok Null /\
  (forall k, k <> Storage.TOKEN_KEY -> k <> Storage.PROFILE_KEY ->
             exec Storage.clearAuth ls !! k = ls !! k).
Proof.
  unfold exec, Storage.clearAuth, Storage.removeItem, bind, modify. cbn.
  split; [reflexivity|]. split; [|split].
  - unfold Storage.getToken, Storage.getItem.
    rewrite lookup_delete_ne by done. by rewrite lookup_delete_eq.
  - unfold Storage.getProfile, Storage.getItem. by rewrite lookup_delete_eq.
  - intros k Ht Hp. by rewrite !lookup_delete_ne.
Qed.

(** X2. The store holds the last-saved session: saving a second session
    that carries a token leaves the store as if only the second had been
    saved. *)
Theorem saveAuth_last_wins (first second : value) (ls : gmap string string) :
  nullish first = false ->
  nullish second = false ->
  truthy (prop_of second "accessToken") = true ->
  exec (Storage.saveAuth second) (exec (Storage.saveAuth first) ls)
  = exec (Storage.saveAuth second) ls.
Proof.
  intros H1 H2 Htoken. unfold exec.
  rewrite (saveAuth_run first) by exact H1.
  rewrite !(saveAuth_run second) by exact H2. rewrite Htoken. cbn [snd].
  apply map_eq. intros k.
  destruct (decide (k = Storage.PROFILE_KEY)) as [-> | Hp].
  { by rewrite !lookup_insert_eq. }
  rewrite !(lookup_insert_ne _ Storage.PROFILE_KEY) by done.
  destruct (decide (k = Storage.TOKEN_KEY)) as [-> | Ht].
  { by rewrite !lookup_insert_eq. }
  rewrite !(lookup_insert_ne _ Storage.TOKEN_KEY) by done.
  rewrite lookup_insert_ne by done.
  destruct (truthy (prop_of first "accessToken")); [|done].
  by rewrite lookup_insert_ne.
Qed.

End AuthStoreMore.

Section AuthStoreMoreExamples.
#[local] Existing Instance Reference.reference_platform.

Lemma saveAuth_last_wins_witness :
  exec (Storage.saveAuth (Obj (set_prop "accessToken" (Str "tok-bob") Sample.profile)))
    (exec (Storage.saveAuth (Obj [("accessToken", Str "tok-ann"); ("name", Str "ann")])) ∅)
  = exec (Storage.saveAuth (Obj (set_prop "accessToken" (Str "tok-bob") Sample.profile))) ∅.
Proof.
  apply (saveAuth_last_wins
           (Obj [("accessToken", Str "tok-ann"); ("name", Str "ann")])
           (Obj (set_prop "accessToken" (Str "tok-bob") Sample.profile)) ∅);
    reflexivity.
Defined.

End AuthStoreMoreExamples.

(** ** The view-model helpers *)

(** X3. [getListingImage] never hands out a falsy image address: it returns
    the [url] of the first media entry when that is truthy, and the
    placeholder otherwise. *)
Theorem getListingImage_truthy (listing image : value) :
  Helpers.getListingImage listing = Ok image ->
  truthy image = true /\
  (image = prop_of (index_of (prop_of listing "media") 0) "url" \/
   image = Str "images/vase.jpg").
Proof.
  unfold Helpers.getListingImage, get.
  destruct (nullish listing); [discriminate|]. cbn [bindR].
  destruct (truthy (prop_of listing "media") && _); [|intros [= <-]; by split; [|right]].
  destruct (nullish (index_of (prop_of listing "media") 0)); [discriminate|]. cbn [bindR].
  destruct (truthy (prop_of (index_of (prop_of listing "media") 0) "url")) eqn:E;
    intros [= <-]; split; auto.
Qed.

Lemma getListingImage_truthy_witness :
  truthy (Str "https://img.example/vase.png") = true /\
  (Str "https://img.example/vase.png"
     = prop_of (index_of (prop_of (Obj [("media", Arr [Obj [("url", Str "https://img.example/vase.png")]])]) "media") 0) "url" \/
   Str "https://img.example/vase.png" = Str "images/vase.jpg").
Proof.
  apply (getListingImage_truthy
           (Obj [("media", Arr [Obj [("url", Str "https://img.example/vase.png")]])])).
  reflexivity.
Defined.

Lemma fold_max_permutation (l l' : list Z) :
  l ≡ₚ l' -> fold_right Z.max 0 l = fold_right Z.max 0 l'.
Proof.
  induction 1 as [|x l l' _ IH|x y l|l1 l2 l3 _ IH1 _ IH2]; cbn [fold_right];
    [reflexivity | by rewrite IH | lia | congruence].
Qed.

Lemma fold_max_app (l : list Z) (a : Z) :
  fold_right Z.max 0 (l ++ [a]) = Z.max (fold_right Z.max 0 l) (Z.max a 0).
Proof. induction l as [|x l IH]; cbn [fold_right app]; [lia | rewrite IH; lia]. Qed.

Lemma getHighestBidAmount_run (listing : value) (bids : list value) :
  nullish listing = false ->
  prop_of listing "bids" = Arr bids ->
  Forall (fun b => nullish b = false) bids ->
  Helpers.getHighestBidAmount listing
  = Ok (Num (Z.max 0 (fold_right Z.max 0 (List.map amount_or_zero bids)))).
Proof.
  intros Hl Hbids Hall. unfold Helpers.getHighestBidAmount, get.
  rewrite Hl. cbn [bindR]. rewrite Hbids. cbn [isArray negb orb array_items].
  destruct bids as [|b bs]; [reflexivity|].
  change (strict_eq _ _) with false. cbv iota.
  apply reduce_max_spec; [lia | exact Hall].
Qed.

(** X4. The highest bid does not depend on the order in which the service
    lists the bids. *)
Theorem getHighestBidAmount_permutation (listing listing' : value)
    (bids bids' : list value) :
  nullish listing = false ->
  nullish listing' = false ->
  prop_of listing "bids" = Arr bids ->
  prop_of listing' "bids" = Arr bids' ->
  Forall (fun b => nullish b = false) bids ->
  bids ≡ₚ bids' ->
  Helpers.getHighestBidAmount listing = Helpers.getHighestBidAmount listing'.
Proof.
  intros Hl Hl' Hb Hb' Hall Hperm.
  rewrite (getHighestBidAmount_run listing bids) by assumption.
  rewrite (getHighestBidAmount_run listing' bids') by (try assumption; by rewrite <- Hperm).
  do 3 f_equal. apply fold_max_permutation. by apply Permutation_map.
Qed.

Lemma getHighestBidAmount_permutation_witness :
  Helpers.getHighestBidAmount Sample.listing =
  Helpers.getHighestBidAmount
    (Obj [("bids", Arr [Sample.bid (Number (Num 100)); Sample.bid (Number (Num 60));
                        Sample.bid (Str "250")])]).
Proof.
  apply (getHighestBidAmount_permutation Sample.listing _
           [Sample.bid (Number (Num 60)); Sample.bid (Str "250"); Sample.bid (Number (Num 100))]
           [Sample.bid (Number (Num 100)); Sample.bid (Number (Num 60)); Sample.bid (Str "250")]);
    try reflexivity.
  - repeat apply List.Forall_cons; try apply List.Forall_nil; reflexivity.
  - exact (Permutation_app_comm [_; _] [_]).
Defined.

(** X5. A bid above the highest one becomes the highest: when the listing
    gains a bid whose amount exceeds the highest bid so far, the highest bid
    is that amount. *)
Theorem getHighestBidAmount_new_bid (listing listing' bid : value)
    (bids : list value) (h a : Z) :
  nullish listing = false ->
  nullish listing' = false ->
  prop_of listing "bids" = Arr bids ->
  prop_of listing' "bids" = Arr (bids ++ [bid]) ->
  Forall (fun b => nullish b = false) bids ->
  prop_of bid "amount" = Number (Num a) ->
  Helpers.getHighestBidAmount listing = Ok (Num h) ->
  h < a ->
  Helpers.getHighestBidAmount listing' = Ok (Num a).
Proof.
  intros Hl Hl' Hb Hb' Hall Ha Hh Hlt.
  rewrite (getHighestBidAmount_run listing bids) in Hh by assumption.
  injection Hh as Hh.
  assert (Hbid : nullish bid = false) by (destruct bid; done).
  rewrite (getHighestBidAmount_run listing' (bids ++ [bid])); try assumption.
  - rewrite map_app. cbn [List.map]. rewrite fold_max_app. unfold amount_or_zero at 2.
    rewrite Ha. do 2 f_equal. lia.
  - apply Forall_app. split; [exact Hall | by constructor].
Qed.

Lemma getHighestBidAmount_new_bid_witness :
  Helpers.getHighestBidAmount
    (Obj [("bids", Arr [Sample.bid (Number (Num 60)); Sample.bid (Str "250");
                        Sample.bid (Number (Num 100)); Sample.bid (Number (Num 150))])])
  = Ok (Num 150).
Proof.
  apply (getHighestBidAmount_new_bid Sample.listing _ (Sample.bid (Number (Num 150)))
           [Sample.bid (Number (Num 60)); Sample.bid (Str "250"); Sample.bid (Number (Num 100))]
           100 150); try reflexivity.
  repeat apply List.Forall_cons; try apply List.Forall_nil; reflexivity.
Defined.

(** ** The gateway functions on success *)

Section GatewaySuccess.
Context `{Platform}.

Lemma is_2xx_ok (status : Z) (body : option value) :
  is_2xx status -> res_ok {| res_status := status; res_body := body |} = true.
Proof.
  unfold is_2xx, res_ok. cbn [res_status]. intros [Hlo Hhi].
  apply andb_true_iff. split; by apply Z.leb_le.
Qed.

Ltac run_request Hans Hst :=
  unfold bind, gets, liftR, throw, ret, fetch; cbn beta iota;
  repeat match goal with
         | Ht : truthy _ = true |- _ => rewrite Ht
         | Hp : Storage.getProfile _ = _ |- _ => rewrite Hp
         end;
  cbn [negb orb truthy]; rewrite Hans; cbn beta iota zeta;
  rewrite ?json_or_empty, ?(is_2xx_ok _ _ Hst); cbn [negb fst snd res_status tail].

(** X6. On a 2xx response whose body is a JSON value other than [null],
    every gateway function returns the [data] member of the body
    ([deleteListing] returns [true]), having sent exactly one request, of
    its own method, and consumed exactly one answer. *)
Theorem gateway_success (b : Browser) (status : Z) (data : value)
    (rest : list answer) (id payload token : value) (amount : number) :
  answers b = Response status (Some data) :: rest ->
  is_2xx status ->
  nullish data = false ->
  (exists b', ListingDetail.fetchListing id b = (Ok (prop_of data "data"), b') /\
              one_request "GET" b b') /\
  (truthy (Storage.getToken (storage b)) = true ->
   (exists profile, Storage.getProfile (storage b) = Ok profile /\ truthy profile = true) ->
   exists b', ListingDetail.placeBid id amount b = (Ok (prop_of data "data"), b') /\
              one_request "POST" b b') /\
  (truthy (Storage.getToken (storage b)) = true ->
   exists b', Dashboard.placeBid id amount b = (Ok (prop_of data "data"), b') /\
              one_request "POST" b b') /\
  (exists b', Dashboard.fetchListingById id b = (Ok (prop_of data "data"), b') /\
              one_request "GET" b b') /\
  (exists b', EditListing.fetchListing token id b = (Ok (prop_of data "data"), b') /\
              one_request "GET" b b') /\
  (exists b', EditListing.updateListing token id payload b = (Ok (prop_of data "data"), b') /\
              one_request "PUT" b b') /\
  (exists b', EditListing.deleteListing token id b = (Ok true, b') /\
              one_request "DELETE" b b').
Proof.
  intros Hans Hst Hdata.
  assert (Hget : get data "data" = Ok (prop_of data "data"))
    by (unfold get; by rewrite Hdata).
  assert (Hbody : body_of (Some data) = data) by reflexivity.
  repeat split.
  - unfold ListingDetail.fetchListing. run_request Hans Hst. rewrite Hbody, Hget.
    eexists. split; [reflexivity|]. eexists. split; [|by rewrite Hans]. reflexivity.
  - intros Htoken (profile & Hprofile & Htruthy).
    unfold ListingDetail.placeBid. run_request Hans Hst. rewrite Hbody, Hget.
    eexists. split; [reflexivity|]. eexists. split; [|by rewrite Hans]. reflexivity.
  - intros Htoken.
    unfold Dashboard.placeBid. run_request Hans Hst. unfold res_json. cbn [res_body].
    rewrite Hget.
    eexists. split; [reflexivity|]. eexists. split; [|by rewrite Hans]. reflexivity.
  - unfold Dashboard.fetchListingById. run_request Hans Hst. unfold res_json. cbn [res_body].
    rewrite Hget.
    eexists. split; [reflexivity|]. eexists. split; [|by rewrite Hans]. reflexivity.
  - unfold EditListing.fetchListing. run_request Hans Hst. rewrite Hbody, Hget.
    eexists. split; [reflexivity|]. eexists. split; [|by rewrite Hans]. reflexivity.
  - unfold EditListing.updateListing. run_request Hans Hst. rewrite Hbody, Hget.
    eexists. split; [reflexivity|]. eexists. split; [|by rewrite Hans]. reflexivity.
  - unfold EditListing.deleteListing. run_request Hans Hst.
    eexists. split; [reflexivity|]. eexists. split; [|by rewrite Hans]. reflexivity.
Qed.

End GatewaySuccess.

(** ** Refreshing the credits *)

Section RefreshCredits.
Context `{Platform}.

Lemma refresh_guard (b : Browser) :
  ~ has_session b ->
  exists profile,
    Storage.getProfile (storage b) = Ok profile /\
    negb (truthy (Storage.getToken (storage b))) || negb (truthy (get_opt profile "name"))
    = true.
Proof.
  intros Hno. destruct (getProfile_ok (storage b)) as [profile Hp].
  exists profile. split; [exact Hp|].
  destruct (truthy (Storage.getToken (storage b))) eqn:Ht; [|reflexivity].
  destruct (truthy (get_opt profile "name")) eqn:Hn; [|reflexivity].
  exfalso. apply Hno. split; [exact Ht | by exists profile].
Qed.

(** X7. [refreshProfileCredits] of the listing-detail page never throws.
    Without a session it does nothing at all, and when its request fails
    (no answer, or a response that is not 2xx) the auth store and the
    document are left as they were. *)
Theorem detail_refresh_quiet (b : Browser) :
  (ListingDetail.refreshProfileCredits b).1 = Ok tt /\
  (~ has_session b -> exec ListingDetail.refreshProfileCredits b = b) /\
  (request_fails b ->
   storage (exec ListingDetail.refreshProfileCredits b) = storage b /\
   dom (exec ListingDetail.refreshProfileCredits b) = dom b).
Proof.
  destruct (getProfile_ok (storage b)) as [profile Hp].
  unfold exec, ListingDetail.refreshProfileCredits, bind, gets, try_catch, liftR, ret.
  cbn beta iota. rewrite Hp. cbn beta iota.
  split; [|split].
  - destruct (_ || _); [reflexivity|].
    destruct (get profile "name") as [name|]; [|reflexivity].
    destruct (fetch _ b) as [[res|] b1]; [|reflexivity].
    destruct (negb (res_ok res)); [reflexivity|].
    destruct (res_json res) as [result|]; [|reflexivity].
    destruct (get result "data") as [updated|]; [|reflexivity].
    destruct (on_storage _ b1) as [[[]|] b2]; [|reflexivity].
    destruct (get updated "credits") as [credits|]; [|reflexivity].
    by destruct (ListingDetail.updateNavCredits credits b2) as [[[]|] b3].
  - intros Hno. destruct (refresh_guard b Hno) as (profile' & Hp' & Hguard).
    rewrite Hp in Hp'. injection Hp' as <-. by rewrite Hguard.
  - intros Hfail. destruct (_ || _); [by split|].
    destruct (get profile "name") as [name|]; [|by split].
    unfold fetch, request_fails in *.
    destruct (answers b) as [|[|status body] rest]; cbn beta iota; [by split | by split|].
    rewrite (non_2xx_not_ok _ _ Hfail). by split.
Qed.

End RefreshCredits.

Lemma set_prop_fresh (k : string) (v : value) (props : list (string * value)) :
  k ∉ props.*1 -> set_prop k v props = (props ++ [(k, v)])%list.
Proof.
  induction props as [|[k' v'] props IH]; intros Hk; cbn [set_prop]; [reflexivity|].
  cbn [fmap list_fmap fst] in Hk. apply not_elem_of_cons in Hk as [Hne Hk].
  destruct (String.eqb_spec k k'); [done|]. cbn [app]. by rewrite IH.
Qed.

Lemma copy_entries_fresh (entries base : list (string * value)) :
  NoDup entries.*1 ->
  (forall k, k ∈ entries.*1 -> k ∉ base.*1) ->
  fold_left (fun acc kv => set_prop kv.1 kv.2 acc) entries base = (base ++ entries)%list.
Proof.
  revert base. induction entries as [|[k v] entries IH]; intros base Hnd Hfresh;
    cbn [fold_left]; [by rewrite app_nil_r|].
  cbn [fmap list_fmap fst] in *. apply NoDup_cons in Hnd as [Hk Hnd].
  rewrite set_prop_fresh by (apply Hfresh; left).
  rewrite IH; [by rewrite <- app_assoc | exact Hnd|].
  intros k' Hk'. rewrite fmap_app. cbn [fmap list_fmap fst].
  intros [Hin | Hin%list_elem_of_singleton]%elem_of_app.
  - by apply (Hfresh k'); [right|].
  - by subst.
Qed.

Lemma filter_without_absent (k : string) (props : list (string * value)) :
  k ∉ props.*1 -> filter (fun kv : string * value => kv.1 <> k) props = props.
Proof.
  induction props as [|[k' v'] props IH]; intros Hk; [reflexivity|].
  cbn [fmap list_fmap fst] in Hk. apply not_elem_of_cons in Hk as [Hne Hk].
  rewrite filter_cons_True by (simpl; congruence). by rewrite IH.
Qed.

(** The session object that the credit refresh saves:
    [{ accessToken: token, ...updatedProfile }] without its token is the
    fetched profile. *)
Lemma session_rest (token : value) (props : list (string * value)) :
  NoDup props.*1 ->
  "accessToken" ∉ props.*1 ->
  prop_of (Obj (copy_props (Obj props) [("accessToken", token)])) "accessToken" = token /\
  Storage.rest_without "accessToken" (Obj (copy_props (Obj props) [("accessToken", token)]))
  = Obj props.
Proof.
  intros Hnd Hk. unfold copy_props. cbn [Storage.own_entries].
  rewrite copy_entries_fresh; [|exact Hnd|].
  - split; [reflexivity|]. unfold Storage.rest_without. cbn [Storage.own_entries app].
    rewrite filter_cons_False by (simpl; congruence).
    by rewrite filter_without_absent.
  - intros k Hin. cbn. intros ->%list_elem_of_singleton. contradiction.
Qed.

Section RefreshCreditsSuccess.
Context `{Platform}.

(** X8. A successful credit refresh on the listing-detail page keeps the
    session token and replaces the stored profile by the fetched one; the
    credits shown in the navigation become the fetched credits when they
    are a number. *)
Theorem detail_refresh_success (b : Browser) (status : Z) (data : value)
    (rest : list answer) (props : list (string * value)) :
  has_session b ->
  answers b = Response status (Some data) :: rest ->
  is_2xx status ->
  nullish data = false ->
  prop_of data "data" = Obj props ->
  NoDup props.*1 ->
  "accessToken" ∉ props.*1 ->
  storage (exec ListingDetail.refreshProfileCredits b)
    = <[Storage.PROFILE_KEY := JSON_stringify (Obj props)]> (storage b) /\
  Storage.getToken (storage (exec ListingDetail.refreshProfileCredits b))
    = Storage.getToken (storage b) /\
  dom (exec ListingDetail.refreshProfileCredits b)
    = match lookup_prop "credits" props with
      | Number n =>
          alter (set_textContent (num_to_string n)) ListingDetail.navCreditsEl (dom b)
      | _ => dom b
      end.
Proof.
  intros (Htoken & profile & Hp & Hname) Hans Hst Hdata Hprops Hnd Hk.
  destruct (session_rest (Storage.getToken (storage b)) props Hnd Hk) as [Hacc Hrest].
  assert (Hstored : exists t, storage b !! Storage.TOKEN_KEY = Some t /\
                              Storage.getToken (storage b) = Str t).
  { unfold Storage.getToken, Storage.getItem in *.
    destruct (storage b !! Storage.TOKEN_KEY) as [t|]; [by exists t | discriminate]. }
  destruct Hstored as (t & Ht & Htok).
  assert (Hrun : exists r,
    exec ListingDetail.refreshProfileCredits b =
    let b1 := with_storage
                (<[Storage.PROFILE_KEY := JSON_stringify (Obj props)]> (storage b))
                (with_answers rest (with_log (log b ++ [Fetch r]) b)) in
    match lookup_prop "credits" props with
    | Number n =>
        with_dom (alter (set_textContent (num_to_string n))
                    ListingDetail.navCreditsEl (dom b1)) b1
    | _ => b1
    end).
  { eexists.
    unfold exec, ListingDetail.refreshProfileCredits, bind, gets, try_catch, liftR, ret.
    cbn beta iota. rewrite Hp, Htoken, Hname. cbn [negb orb].
    assert (Hpn : nullish profile = false) by (destruct profile; done).
    unfold get. rewrite Hpn. unfold fetch. rewrite Hans. cbn beta iota zeta.
    rewrite (is_2xx_ok _ _ Hst). cbn [negb res_json res_body]. rewrite Hdata, Hprops.
    cbn beta iota. unfold on_storage, zoom. cbn [storage with_answers with_log].
    rewrite saveAuth_run by reflexivity. rewrite Hacc, Hrest, Htoken, Htok.
    cbn [ToString nullish prop_of].
    rewrite (insert_id (storage b) _ _ Ht).
    unfold ListingDetail.updateNavCredits, update_element, modify.
    destruct (lookup_prop "credits" props) as [| |?|n|?|?|?]; reflexivity. }
  destruct Hrun as [r Hrun]. rewrite Hrun. cbv zeta.
  assert (Hs : forall b1 : Browser,
             storage match lookup_prop "credits" props with
                     | Number n =>
                         with_dom (alter (set_textContent (num_to_string n))
                                     ListingDetail.navCreditsEl (dom b1)) b1
                     | _ => b1
                     end = storage b1)
    by (intros b1; by destruct (lookup_prop "credits" props) as [| |?|n|?|?|?]).
  rewrite Hs. cbn [storage with_storage].
  split; [reflexivity|]. split.
  - unfold Storage.getToken, Storage.getItem. by rewrite lookup_insert_ne.
  - by destruct (lookup_prop "credits" props) as [| |?|n|?|?|?].
Qed.

End RefreshCreditsSuccess.

(** ** A bid that goes through *)

Lemma bind_ok {S A B : Type} (m : M S A) (k : A -> M S B) (s s' : S) (a : A) :
  m s = (Ok a, s') -> bind m k s = k a s'.
Proof. unfold bind. by intros ->. Qed.

Lemma bind_sets {S T A B : Type} (f : S -> T) (c : T) (m : M S A) (k : A -> M S B)
    (s : S) :
  f (m s).2 = c ->
  (forall a, preserves f (k a)) ->
  f (bind m k s).2 = c.
Proof.
  intros Hm Hk. unfold bind.
  destruct (m s) as [[a | e] s']; cbn [snd] in *; [|exact Hm].
  by rewrite Hk.
Qed.

Lemma preserves_modify_other {S T : Type} (f : S -> T) (g : S -> S) :
  (forall s, f (g s) = f s) -> preserves f (modify g).
Proof. intros Hg s. apply Hg. Qed.

Lemma detail_br_run {A : Type} (m : M Browser A) (s : ListingDetail.state)
    (r : result A) (b' : Browser) :
  m (ListingDetail.browser s) = (r, b') ->
  ListingDetail.br m s = (r, ListingDetail.with_browser b' s).
Proof. unfold ListingDetail.br, zoom. by intros ->. Qed.

Lemma dashboard_br_run {A : Type} (m : M Browser A) (s : Dashboard.state)
    (r : result A) (b' : Browser) :
  m (Dashboard.browser s) = (r, b') ->
  Dashboard.br m s = (r, Dashboard.with_browser b' s).
Proof. unfold Dashboard.br, zoom. by intros ->. Qed.

Section BidSuccess.
Context `{Platform}.

Lemma detail_handler_try (d : ListingDetail.state) (z : Z) :
  detail_validated d z ->
  ListingDetail.handleBidSubmit d =
    try_finally
      (try_catch (ListingDetail.submitBid (Num z))
         (fun error => ListingDetail.br (alert (exn_message error))))
      ListingDetail.updateBidFormState d.
Proof.
  intros (Hl & Hin & Hbtn & Htoken & (profile & Hp & Hpt) & Hne & Hz & h & Hh & Hpos & Hlt).
  unfold ListingDetail.handleBidSubmit, bind, gets, liftR. cbn beta iota.
  rewrite Hl, Hin, Hbtn, Hp, Htoken, Hpt. cbn [negb orb].
  fold (detail_entered d). apply String.eqb_neq in Hne. rewrite Hne, Hz, Hh.
  cbn [num_isNaN num_le orb].
  rewrite (proj2 (Z.leb_gt z 0)) by lia. rewrite (proj2 (Z.leb_gt z h)) by lia.
  reflexivity.
Qed.

Lemma renderListing_sets (fresh : value) (s : ListingDetail.state) :
  ListingDetail.currentListing (ListingDetail.renderListing fresh s).2 = fresh.
Proof.
  unfold ListingDetail.renderListing. apply bind_sets.
  - reflexivity.
  - intros []. repeat first [apply updateBidFormState_currentListing | preserves_step].
Qed.

Lemma detail_submitBid_succeeds (s : ListingDetail.state) (amount : number)
    (placed fresh : value) (b1 b2 : Browser) :
  ListingDetail.placeBid (prop_of (ListingDetail.currentListing s) "id") amount
    (ListingDetail.browser s) = (Ok placed, b1) ->
  ListingDetail.fetchListing (prop_of (ListingDetail.currentListing s) "id") b1
    = (Ok fresh, b2) ->
  ListingDetail.currentListing (ListingDetail.submitBid amount s).2 = fresh.
Proof.
  intros Hpost Hget. unfold ListingDetail.submitBid.
  erewrite bind_ok by reflexivity.
  erewrite bind_ok by reflexivity.
  erewrite bind_ok by reflexivity.
  erewrite bind_ok.
  2:{ apply detail_br_run.
      cbn [ListingDetail.browser ListingDetail.with_browser ListingDetail.currentListing].
      rewrite !detail_placeBid_dom, Hpost. reflexivity. }
  erewrite bind_ok.
  2:{ apply detail_br_run.
      cbn [ListingDetail.browser ListingDetail.with_browser ListingDetail.currentListing].
      rewrite !detail_fetchListing_dom, Hget. reflexivity. }
  erewrite bind_ok by reflexivity.
  apply bind_sets; [apply renderListing_sets|].
  intros []. repeat preserves_step.
Qed.

(** X9. On the listing-detail page, when the entered amount passes the
    validation, the bid request succeeds and the re-fetch succeeds, the
    in-memory listing is the re-fetched one when the handler ends, whatever
    happens while it is rendered and the credits are refreshed. *)
Theorem detail_bid_success_replaces_listing (d : ListingDetail.state) (z : Z)
    (placed fresh : value) (b1 b2 : Browser) :
  detail_validated d z ->
  ListingDetail.placeBid (prop_of (ListingDetail.currentListing d) "id") (Num z)
    (ListingDetail.browser d) = (Ok placed, b1) ->
  ListingDetail.fetchListing (prop_of (ListingDetail.currentListing d) "id") b1
    = (Ok fresh, b2) ->
  ListingDetail.currentListing (exec ListingDetail.handleBidSubmit d) = fresh.
Proof.
  intros Hvalid Hpost Hget. unfold exec.
  rewrite (detail_handler_try d z Hvalid).
  unfold try_finally, try_catch.
  pose proof (detail_submitBid_succeeds d (Num z) placed fresh b1 b2 Hpost Hget) as Hsub.
  destruct (ListingDetail.submitBid (Num z) d) as [[[] | e] s1]; cbn [snd] in Hsub.
  - pose proof (updateBidFormState_currentListing s1) as Hfin.
    destruct (ListingDetail.updateBidFormState s1) as [[[] | e'] s2];
      cbn [snd] in *; congruence.
  - pose proof (detail_br_currentListing (alert (exn_message e)) s1) as Hcatch.
    destruct (ListingDetail.br (alert (exn_message e)) s1) as [r s2].
    pose proof (updateBidFormState_currentListing s2) as Hfin.
    destruct (ListingDetail.updateBidFormState s2) as [[[] | e'] s3];
      cbn [snd] in *; congruence.
Qed.

End BidSuccess.

Section DashboardBidSuccess.
Context `{Platform}.

Lemma dashboard_handler_try (c : Dashboard.card) (s : Dashboard.state) (z : Z) :
  card_validated c s z ->
  Dashboard.bidClick c s =
    try_finally (try_catch (Dashboard.submitBid c (Num z)) card_catch) (card_finally c) s.
Proof.
  intros [(bidInput & Hin & Hne & Hz) (h & Hh & Hpos & Hlt)].
  unfold Dashboard.bidClick, Dashboard.br, zoom, querySelector, bind, gets, liftR.
  cbn beta iota zeta. rewrite Hin. cbn [fst snd].
  rewrite dashboard_with_browser_same.
  apply String.eqb_neq in Hne. rewrite Hne, Hz. cbn [num_isNaN num_le orb].
  rewrite (proj2 (Z.leb_gt z 0)) by lia.
  unfold card_listing_object in Hh. rewrite Hh. cbn [num_le].
  rewrite (proj2 (Z.leb_gt z h)) by lia.
  reflexivity.
Qed.

Lemma dashboard_refresh_allListings :
  preserves Dashboard.allListings Dashboard.refreshProfileCredits.
Proof.
  unfold Dashboard.refreshProfileCredits.
  repeat first [ apply preserves_modify_other; reflexivity | preserves_step ].
Qed.

Lemma card_catch_allListings (e : exn) : preserves Dashboard.allListings (card_catch e).
Proof. apply dashboard_br_allListings. Qed.

Lemma card_finally_allListings (c : Dashboard.card) :
  preserves Dashboard.allListings (card_finally c).
Proof. unfold card_finally. repeat preserves_step. Qed.

Lemma dashboard_submitBid_succeeds (c : Dashboard.card) (s : Dashboard.state)
    (amount : number) (placed fresh assigned : value) (b1 b2 : Browser) :
  Dashboard.placeBid (Dashboard.card_id c) amount (Dashboard.browser s) = (Ok placed, b1) ->
  Dashboard.fetchListingById (Dashboard.card_id c) b1 = (Ok fresh, b2) ->
  Object_assign (card_listing_object c s) fresh = Ok assigned ->
  Dashboard.allListings (Dashboard.submitBid c amount s).2
  = <[Dashboard.card_listing c := assigned]> (Dashboard.allListings s).
Proof.
  intros Hpost Hget Hassign. unfold Dashboard.submitBid.
  erewrite bind_ok by reflexivity.
  erewrite bind_ok by reflexivity.
  erewrite bind_ok.
  2:{ apply dashboard_br_run.
      cbn [Dashboard.browser Dashboard.with_browser].
      rewrite !dashboard_placeBid_dom, Hpost. reflexivity. }
  erewrite bind_ok.
  2:{ apply dashboard_br_run.
      cbn [Dashboard.browser Dashboard.with_browser].
      rewrite !dashboard_fetchListingById_dom, Hget. reflexivity. }
  erewrite bind_ok by reflexivity.
  erewrite bind_ok.
  2:{ unfold liftR. cbn [Dashboard.allListings Dashboard.with_browser].
      unfold card_listing_object in Hassign. rewrite Hassign. reflexivity. }
  apply bind_sets; [reflexivity|].
  intros []. repeat first [ apply dashboard_refresh_allListings | preserves_step ].
Qed.

(** X10. On the dashboard, when the entered amount passes the validation,
    the bid request succeeds and the re-fetch succeeds, the listing record
    of the card becomes [Object.assign(listing, freshListing)] and every
    other listing record stays as it was. *)
Theorem dashboard_bid_success_assigns (c : Dashboard.card) (s : Dashboard.state) (z : Z)
    (placed fresh assigned : value) (b1 b2 : Browser) :
  card_validated c s z ->
  Dashboard.placeBid (Dashboard.card_id c) (Num z) (Dashboard.browser s) = (Ok placed, b1) ->
  Dashboard.fetchListingById (Dashboard.card_id c) b1 = (Ok fresh, b2) ->
  Object_assign (card_listing_object c s) fresh = Ok assigned ->
  Dashboard.allListings (exec (Dashboard.bidClick c) s)
  = <[Dashboard.card_listing c := assigned]> (Dashboard.allListings s).
Proof.
  intros Hvalid Hpost Hget Hassign. unfold exec.
  rewrite (dashboard_handler_try c s z Hvalid).
  unfold try_finally, try_catch.
  pose proof (dashboard_submitBid_succeeds c s (Num z) placed fresh assigned b1 b2
                Hpost Hget Hassign) as Hsub.
  destruct (Dashboard.submitBid c (Num z) s) as [[[] | e] s1]; cbn [snd] in Hsub.
  - pose proof (card_finally_allListings c s1) as Hfin.
    destruct (card_finally c s1) as [[[] | e'] s2]; cbn [snd] in *; congruence.
  - pose proof (card_catch_allListings e s1) as Hcatch.
    destruct (card_catch e s1) as [r s2].
    pose proof (card_finally_allListings c s2) as Hfin.
    destruct (card_finally c s2) as [[[] | e'] s3]; cbn [snd] in *; congruence.
Qed.

(** X11. Whatever the network answers, once the click handler of a card
    that is not the viewer's own listing has reached its [try] block, it
    leaves the bid button enabled and labelled [Bid]. *)
Theorem dashboard_button_reenabled (c : Dashboard.card) (s : Dashboard.state) (z : Z)
    (button : element) :
  card_validated c s z ->
  Dashboard.card_isOwnListing c = false ->
  dom (Dashboard.browser (exec (Dashboard.bidClick c) s))
    !! Dashboard.hook c ".listing-card-bid-btn" = Some button ->
  disabled button = false /\ textContent button = "Bid".
Proof.
  intros Hvalid Hown. unfold exec.
  rewrite (dashboard_handler_try c s z Hvalid).
  unfold try_finally.
  destruct (try_catch _ _ s) as [r s1].
  unfold card_finally. rewrite Hown. cbn [negb].
  unfold bind, Dashboard.br, zoom, update_element, modify. cbn.
  rewrite !lookup_alter_eq.
  destruct (dom (Dashboard.browser s1) !! _) as [e|]; cbn; [|discriminate].
  intros [= <-]. by split.
Qed.

End DashboardBidSuccess.

Lemma bind_throw {S A B : Type} (m : M S A) (k : A -> M S B) (s s' : S) (e : exn) :
  m s = (Throw e, s') -> bind m k s = (Throw e, s').
Proof. unfold bind. by intros ->. Qed.

Section GuestBids.
Context `{Platform}.

(** X12. On the listing page a visitor without a token who submits the bid
    form is told to log in and sent to [login.html]; no request leaves the
    page and nothing else of the page state changes. *)
Theorem detail_guest_sent_to_login (d : ListingDetail.state) :
  let b := ListingDetail.browser d in
  truthy (ListingDetail.currentListing d) = true ->
  ListingDetail.present ListingDetail.bidAmountInput b = true ->
  ListingDetail.present ListingDetail.placeBidButton b = true ->
  truthy (Storage.getToken (storage b)) = false ->
  exec ListingDetail.handleBidSubmit d =
  ListingDetail.with_browser
    (with_log (log b ++ [Alert "You need to login or register before placing a bid.";
                         Navigate "login.html"]) b) d.
Proof.
  intros b Hl Hin Hbtn Htoken.
  unfold exec, ListingDetail.handleBidSubmit, bind, gets, liftR. cbn beta iota.
  fold b. rewrite Hl, Hin, Hbtn.
  destruct (getProfile_ok (storage b)) as [profile ->].
  rewrite Htoken. cbn [negb orb].
  unfold ListingDetail.br, zoom, alert, navigate, emit, modify. cbn.
  fold b. by rewrite <- app_assoc.
Qed.

(** X13. On the dashboard the click handler has no guard for a missing
    token: with an amount that passes the validation, [placeBid] throws
    before any request, the handler shows that message and no listing
    record, stored entry or pending answer changes. *)
Theorem dashboard_guest_no_request (c : Dashboard.card) (s : Dashboard.state) (z : Z) :
  let b := Dashboard.browser s in
  let s' := exec (Dashboard.bidClick c) s in
  card_validated c s z ->
  truthy (Storage.getToken (storage b)) = false ->
  log (Dashboard.browser s') = (log b ++ [Alert "You must be logged in to place a bid."])%list /\
  answers (Dashboard.browser s') = answers b /\
  storage (Dashboard.browser s') = storage b /\
  Dashboard.allListings s' = Dashboard.allListings s.
Proof.
  intros b s' Hvalid Htoken. subst s'. unfold exec.
  rewrite (dashboard_handler_try c s z Hvalid).
  unfold try_finally, try_catch.
  assert (exists d',
    Dashboard.submitBid c (Num z) s =
    (Throw (Error "You must be logged in to place a bid."),
     Dashboard.with_browser (with_dom d' b) s)) as [d' ->].
  { eexists. unfold Dashboard.submitBid.
    erewrite bind_ok by reflexivity.
    erewrite bind_ok by reflexivity.
    apply bind_throw. unfold Dashboard.br, zoom.
    cbn [Dashboard.browser Dashboard.with_browser].
    rewrite !dashboard_placeBid_dom.
    unfold Dashboard.placeBid, bind, gets, throw. fold b.
    rewrite Htoken. subst b. destruct s. reflexivity. }
  unfold card_catch, card_finally.
  destruct (Dashboard.card_isOwnListing c); by destruct s.
Qed.

End GuestBids.

Section BidForm.
Context `{Platform}.

(** X14. After [updateBidFormState] the amount input is enabled exactly
    when a user is logged in, the listing is not theirs and the auction has
    not ended; the button is disabled only for the seller and for an ended
    auction, so a guest keeps an enabled button; nothing but the document
    changes. *)
Theorem updateBidFormState_spec (s : ListingDetail.state) (profile : value)
    (input button : element) :
  let b := ListingDetail.browser s in
  let s' := exec ListingDetail.updateBidFormState s in
  truthy (ListingDetail.currentListing s) = true ->
  ListingDetail.present ListingDetail.bidForm b = true ->
  Storage.getProfile (storage b) = Ok profile ->
  dom b !! ListingDetail.bidAmountInput = Some input ->
  dom b !! ListingDetail.placeBidButton = Some button ->
  (exists input',
     dom (ListingDetail.browser s') !! ListingDetail.bidAmountInput = Some input' /\
     disabled input' =
       negb (isLoggedIn s profile && negb (isOwnListing s profile) && negb (isEnded s))) /\
  (exists button',
     dom (ListingDetail.browser s') !! ListingDetail.placeBidButton = Some button' /\
     disabled button' = isLoggedIn s profile && (isOwnListing s profile || isEnded s)) /\
  (exists d', s' = ListingDetail.with_browser (with_dom d' b) s).
Proof.
  intros b s' Hl Hform Hp Hin Hbtn. subst s'.
  unfold exec, ListingDetail.updateBidFormState, bind, gets, liftR. cbn beta iota.
  fold b. rewrite Hl, Hform, Hp.
  unfold ListingDetail.present. rewrite Hin, Hbtn.
  rewrite !bool_decide_eq_true_2 by eauto. cbn [negb orb].
  unfold isLoggedIn, isOwnListing, isEnded. fold b.
  destruct (truthy (Storage.getToken (storage b)) && truthy (or_else profile Null));
    cbn [negb andb orb];
    [destruct (truthy (prop_of (ListingDetail.currentListing s) "seller") && _);
      cbn [negb andb orb];
      [|destruct (truthy (prop_of (ListingDetail.currentListing s) "endsAt") && _);
        cbn [negb andb orb]]|];
    unfold ListingDetail.br, zoom, update_element, modify; cbn; fold b;
    (split; [|split]);
    try (eexists; split;
         [rewrite ?lookup_alter_eq, ?lookup_alter_ne, ?lookup_alter_eq by done;
          first [rewrite Hin | rewrite Hbtn]; reflexivity | reflexivity]);
    by destruct s; eexists.
Qed.

End BidForm.

(** ** The bid history of the listing page *)

Section BidHistory.
Context `{Platform}.

Lemma insert_bid_permutation (x : value) (l r : list value) :
  ListingDetail.insert_bid x l = Ok r -> r ≡ₚ x :: l.
Proof.
  revert r. induction l as [|y ys IH]; intros r; cbn [ListingDetail.insert_bid].
  - by intros [= <-].
  - unfold bindR at 1. destruct (ListingDetail.compare_bids x y) as [c|]; [|discriminate].
    destruct (num_gt c (Num 0)); [|by intros [= <-]].
    unfold bindR. destruct (ListingDetail.insert_bid x ys) as [r'|]; [|discriminate].
    intros [= <-]. rewrite (IH r' eq_refl). apply Permutation_swap.
Qed.

Lemma sort_bids_permutation (l r : list value) :
  ListingDetail.sort_bids l = Ok r -> r ≡ₚ l.
Proof.
  revert r. induction l as [|x xs IH]; intros r; cbn [ListingDetail.sort_bids].
  - by intros [= <-].
  - unfold bindR. destruct (ListingDetail.sort_bids xs) as [s|]; [|discriminate].
    intros Hr. rewrite (insert_bid_permutation _ _ _ Hr). by rewrite (IH s eq_refl).
Qed.

Lemma filter_split_permutation {A : Type} (p : A -> bool) (l : list A) :
  (List.filter (fun v => negb (p v)) l ++ List.filter p l)%list ≡ₚ l.
Proof.
  induction l as [|x xs IH]; [done|]. cbn [List.filter].
  destruct (p x); cbn [negb].
  - rewrite <- Permutation_middle. by rewrite IH.
  - cbn. by rewrite IH.
Qed.

(** X15. The copy of the bids that the history renders is a rearrangement
    of the listing's bids: sorting loses no bid and repeats none. *)
Theorem sorted_copy_permutation (bids sorted : list value) :
  ListingDetail.sorted_copy bids = Ok sorted -> sorted ≡ₚ bids.
Proof.
  unfold ListingDetail.sorted_copy, bindR.
  destruct (ListingDetail.sort_bids _) as [s|] eqn:Hs; [|discriminate].
  intros [= <-]. rewrite (sort_bids_permutation _ _ Hs).
  apply filter_split_permutation.
Qed.

Lemma compare_dated (x y : value) (tx ty : Z) :
  nullish x = false -> nullish y = false ->
  created_at x = Num tx -> created_at y = Num ty ->
  ListingDetail.compare_bids x y = Ok (Num (ty - tx)).
Proof.
  intros Hx Hy Htx Hty. unfold ListingDetail.compare_bids, get.
  rewrite Hx, Hy. cbn [bindR]. unfold created_at in *. by rewrite Htx, Hty.
Qed.

Lemma not_older_trans (a b c : value) :
  dated c -> not_older a b -> not_older b c -> not_older a c.
Proof.
  intros [_ [tc Hc]]. unfold not_older. rewrite Hc.
  destruct (created_at b) as [|tb]; [discriminate|].
  destruct (created_at a) as [|ta]; [discriminate|].
  cbn [num_le]. rewrite !Z.leb_le. lia.
Qed.

Lemma insert_bid_sorted (x : value) (l : list value) :
  dated x -> Forall dated l -> StronglySorted not_older l ->
  exists r, ListingDetail.insert_bid x l = Ok r /\ Forall dated r /\
            StronglySorted not_older r.
Proof.
  intros Hdx Hl Hs. pose proof Hdx as [Hx [tx Htx]].
  induction l as [|y ys IH]; cbn [ListingDetail.insert_bid].
  - eexists. split; [reflexivity|]. split.
    + apply List.Forall_cons; [done | apply List.Forall_nil].
    + apply SSorted_cons; [apply SSorted_nil | apply List.Forall_nil].
  - apply Forall_cons_1 in Hl as [Hy Hys]. pose proof Hy as [Hyn [ty Hty]].
    apply StronglySorted_inv in Hs as [Hss Hyall].
    rewrite (compare_dated x y tx ty) by done. cbn [bindR num_gt].
    destruct (0 <? ty - tx) eqn:Hcmp.
    + destruct (IH Hys Hss) as (r & Hr & Hdr & Hrs). rewrite Hr. cbn [bindR].
      eexists. split; [reflexivity|]. split.
      * by apply List.Forall_cons.
      * apply SSorted_cons; [done|].
        rewrite (insert_bid_permutation _ _ _ Hr).
        apply List.Forall_cons; [|done].
        unfold not_older. rewrite Htx, Hty. cbn [num_le].
        apply Z.ltb_lt in Hcmp. apply Z.leb_le. lia.
    + eexists. split; [reflexivity|]. split.
      * apply List.Forall_cons; [done|]. by apply List.Forall_cons.
      * assert (not_older x y) as Hxy.
        { unfold not_older. rewrite Htx, Hty. cbn [num_le].
          apply Z.ltb_ge in Hcmp. apply Z.leb_le. lia. }
        apply SSorted_cons; [by apply SSorted_cons|].
        apply List.Forall_cons; [done|].
        apply Forall_forall. intros z Hz.
        apply (not_older_trans x y z); [|done|].
        -- by eapply Forall_forall in Hys.
        -- by eapply Forall_forall in Hyall.
Qed.

Lemma sort_bids_sorted (l : list value) :
  Forall dated l ->
  exists r, ListingDetail.sort_bids l = Ok r /\ Forall dated r /\
            StronglySorted not_older r.
Proof.
  induction l as [|x xs IH]; intros Hl; cbn [ListingDetail.sort_bids].
  - eexists. split; [reflexivity|]. split; [apply List.Forall_nil | apply SSorted_nil].
  - apply Forall_cons_1 in Hl as [Hx Hxs].
    destruct (IH Hxs) as (s & -> & Hds & Hss). cbn [bindR].
    by apply insert_bid_sorted.
Qed.

Lemma filter_none {A : Type} (p : A -> bool) (l : list A) :
  Forall (fun v => p v = false) l -> List.filter p l = [].
Proof.
  induction 1 as [|x xs Hx _ IH]; [done|]. cbn [List.filter]. by rewrite Hx.
Qed.

Lemma filter_all {A : Type} (p : A -> bool) (l : list A) :
  Forall (fun v => p v = true) l -> List.filter p l = l.
Proof.
  induction 1 as [|x xs Hx _ IH]; [done|]. cbn [List.filter]. by rewrite Hx, IH.
Qed.

(** X16. When every bid is an object whose [created] date parses, sorting
    never throws and lists the bids newest first: each row is at least as
    recent as every row after it. *)
Theorem sorted_copy_newest_first (bids : list value) :
  Forall dated bids ->
  exists sorted,
    ListingDetail.sorted_copy bids = Ok sorted /\
    StronglySorted not_older sorted.
Proof.
  intros Hall. unfold ListingDetail.sorted_copy.
  rewrite (filter_none ListingDetail.is_undefined), filter_all.
  - destruct (sort_bids_sorted bids Hall) as (s & -> & _ & Hs). cbn [bindR].
    rewrite app_nil_r. by eexists.
  - eapply Forall_impl; [exact Hall|]. intros v [Hv _]. by destruct v.
  - eapply Forall_impl; [exact Hall|]. intros v [Hv _]. by destruct v.
Qed.

End BidHistory.

Section BidHistoryRows.
Context `{Platform}.

Lemma insert_bid_total (x : value) (l : list value) :
  nullish x = false -> Forall (fun v => nullish v = false) l ->
  exists r, ListingDetail.insert_bid x l = Ok r.
Proof.
  intros Hx. induction 1 as [|y ys Hy _ [r IH]]; cbn [ListingDetail.insert_bid].
  - by eexists.
  - unfold ListingDetail.compare_bids, get. rewrite Hx, Hy. cbn [bindR].
    destruct (num_gt _ _); [|by eexists]. rewrite IH. by eexists.
Qed.

Lemma sort_bids_total (l : list value) :
  Forall (fun v => nullish v = false) l ->
  exists r, ListingDetail.sort_bids l = Ok r.
Proof.
  induction 1 as [|x xs Hx Hxs [s IH]]; cbn [ListingDetail.sort_bids]; [by eexists|].
  rewrite IH. cbn [bindR]. apply insert_bid_total; [done|].
  by rewrite (sort_bids_permutation _ _ IH).
Qed.

Lemma sorted_copy_total (bids : list value) :
  Forall (fun v => nullish v = false) bids ->
  exists sorted, ListingDetail.sorted_copy bids = Ok sorted.
Proof.
  intros Hall. unfold ListingDetail.sorted_copy.
  rewrite (filter_none ListingDetail.is_undefined), filter_all.
  - destruct (sort_bids_total bids Hall) as [s ->]. by eexists.
  - eapply Forall_impl; [exact Hall|]. intros v Hv. by destruct v.
  - eapply Forall_impl; [exact Hall|]. intros v Hv. by destruct v.
Qed.

Lemma bid_to_row_total (bid : value) :
  nullish bid = false -> exists row, ListingDetail.bid_to_row bid = Ok row.
Proof.
  intros Hbid. unfold ListingDetail.bid_to_row, get at 1. rewrite Hbid. cbn [bindR].
  destruct (truthy (prop_of bid "bidder")) eqn:Ht.
  - unfold get. destruct (prop_of bid "bidder"); try discriminate; by eexists.
  - by eexists.
Qed.

Lemma append_rows_run (bids : list value) :
  Forall (fun v => nullish v = false) bids ->
  exists rs, rendered bids rs /\
    forall b, ListingDetail.append_rows bids b =
      (Ok tt, with_dom (alter (fun e => set_rows (rows e ++ rs)%list e)
                          ListingDetail.bidHistoryList (dom b)) b).
Proof.
  induction 1 as [|bid rest Hbid _ (rs & Hrs & IH)]; cbn [ListingDetail.append_rows].
  - exists []. split; [constructor|]. intros b. unfold ret. f_equal.
    rewrite alter_id; [by destruct b|].
    intros e _. rewrite app_nil_r. by destruct e.
  - destruct (bid_to_row_total bid Hbid) as [row Hrow].
    exists (row :: rs). split; [by constructor|]. intros b.
    unfold bind, liftR. rewrite Hrow. unfold update_element, modify.
    rewrite IH. cbn [dom with_dom]. f_equal. unfold with_dom. cbn. f_equal.
    rewrite alter_alter_eq. apply alter_ext. intros e _. cbn.
    unfold set_rows. cbn. by rewrite <- app_assoc.
Qed.

Lemma alter_present {A : Type} (f : A -> A) (i : string) (x : A) (m : gmap string A) :
  m !! i = Some x -> alter f i m = <[i := f x]> m.
Proof.
  intros Hx. apply map_eq. intros j. destruct (decide (i = j)) as [<-|Hne].
  - by rewrite lookup_alter_eq, lookup_insert_eq, Hx.
  - by rewrite lookup_alter_ne, lookup_insert_ne.
Qed.

Lemma sorted_copy_dated (bids : list value) :
  Forall dated bids ->
  exists sorted,
    ListingDetail.sorted_copy bids = Ok sorted /\ sorted ≡ₚ bids /\
    StronglySorted not_older sorted.
Proof.
  intros Hall.
  assert (Forall (fun v => nullish v = false) bids) as Hnn.
  { eapply Forall_impl; [exact Hall|]. by intros v [Hv _]. }
  destruct (sorted_copy_total bids Hnn) as [sorted Hsorted].
  exists sorted. split; [exact Hsorted|].
  unfold ListingDetail.sorted_copy in Hsorted.
  rewrite (filter_none ListingDetail.is_undefined), filter_all in Hsorted.
  - destruct (sort_bids_sorted bids Hall) as (s & Hs & _ & Hss).
    rewrite Hs in Hsorted. cbn [bindR] in Hsorted. rewrite app_nil_r in Hsorted.
    injection Hsorted as <-. split; [by apply sort_bids_permutation | exact Hss].
  - eapply Forall_impl; [exact Hall|]. intros v [Hv _]. by destruct v.
  - eapply Forall_impl; [exact Hall|]. intros v [Hv _]. by destruct v.
Qed.

(** X17. With a history list on the page, [renderBidHistory] on a listing
    whose [bids] array holds bid objects with a [created] date that parses
    clears the list and appends one row per bid, newest first; a listing
    without bids (or whose [bids] is not an array) gets the text [No bids
    yet.] and no row. Nothing but that element changes. *)
Theorem renderBidHistory_rows (listing : value) (b : Browser) (list : element) :
  dom b !! ListingDetail.bidHistoryList = Some list ->
  nullish listing = false ->
  let bids := array_items (prop_of listing "bids") in
  Forall dated bids ->
  exists list',
    ListingDetail.renderBidHistory listing b =
      (Ok tt, with_dom (<[ListingDetail.bidHistoryList := list']> (dom b)) b) /\
    (bids = [] -> rows list' = [] /\ textContent list' = "No bids yet.") /\
    (bids <> [] ->
     textContent list' = EmptyString /\
     exists newest_first,
       newest_first ≡ₚ bids /\ StronglySorted not_older newest_first /\
       rendered newest_first (rows list')).
Proof.
  intros Hlist Hl bids Hall.
  unfold ListingDetail.renderBidHistory, bind, querySelector, gets. rewrite Hlist.
  unfold update_element at 1, modify at 1. cbn beta iota.
  unfold liftR, get. rewrite Hl.
  assert ((if isArray (prop_of listing "bids")
           then array_items (prop_of listing "bids") else []) = bids) as ->.
  { subst bids. by destruct (prop_of listing "bids"). }
  destruct (decide (bids = [])) as [Hnil | Hcons].
  - rewrite Hnil. eexists. split; [|split; [|done]].
    + unfold update_element, modify. cbn. f_equal. unfold with_dom. cbn. f_equal.
      rewrite alter_alter_eq. apply (alter_present _ _ _ _ Hlist).
    + intros _. split; reflexivity.
  - destruct (sorted_copy_dated bids Hall) as (sorted & Hsorted & Hp & Hss).
    destruct (append_rows_run sorted) as (rs & Hrs & Hrun).
    { rewrite Hp. eapply Forall_impl; [exact Hall|]. by intros v [Hv _]. }
    destruct bids as [|bid rest]; [done|].
    rewrite Hsorted, Hrun. cbn [dom with_dom].
    eexists. split; [|split; [done|]].
    + f_equal. unfold with_dom. cbn. f_equal.
      rewrite alter_alter_eq. apply (alter_present _ _ _ _ Hlist).
    + intros _. split; [reflexivity|]. exists sorted. by split; [|split].
Qed.

End BidHistoryRows.

(** ** The other outcomes of loading the edit page *)

Section EditLoadMore.
Context `{Platform}.

Ltac edit_simpl :=
  cbn beta iota zeta;
  cbn [negb orb fst snd tail EditListing.browser EditListing.url_id EditListing.with_browser
       EditListing.submit_listener EditListing.delete_listener
       EditListing.with_submit_listener EditListing.with_delete_listener
       storage answers dom log clock with_log with_answers with_dom].

(** X18. The load handler of the edit page sends no request when nobody is
    signed in (it only starts the redirect to the login page) and when the
    URL carries no listing id (it alerts and starts the redirect to the
    profile page); in both cases no listener is attached and the form is as
    it was. *)
Theorem edit_load_guards (s : EditListing.state) :
  let b := EditListing.browser s in
  (signed_out b ->
   exec EditListing.onLoad s =
   EditListing.with_browser (with_log (log b ++ [Navigate "login.html"]) b) s) /\
  (forall token profile,
     signed_in b token profile ->
     truthy (EditListing.url_id s) = false ->
     exec EditListing.onLoad s =
     EditListing.with_browser
       (with_log (log b ++ [Alert "No listing ID provided."; Navigate "profile.html"]) b) s).
Proof.
  intros b. split.
  - intros Hout.
    assert (exists profile,
              Storage.getProfile (storage b) = Ok profile /\
              negb (truthy (Storage.getToken (storage b))) || negb (truthy profile) = true)
      as (profile & Hp & Hguard).
    { destruct Hout as [Ht | (profile & Hp & Ht)].
      - destruct (getProfile_ok (storage b)) as [profile Hp].
        exists profile. by rewrite Ht.
      - exists profile. split; [done|]. rewrite Ht. apply orb_true_r. }
    unfold exec, EditListing.onLoad, EditListing.requireAuth, EditListing.br, zoom,
      bind, gets, ret, navigate, emit, modify.
    cbn beta iota zeta. fold b. rewrite Hp. edit_simpl. rewrite Hguard. reflexivity.
  - intros token profile (Htoken & Htruthy & Hp & Hpt) Hid.
    unfold exec, EditListing.onLoad, EditListing.requireAuth, EditListing.br, zoom,
      bind, gets, ret, alert, navigate, emit, modify.
    cbn beta iota zeta. fold b. rewrite Hp, Htoken, Htruthy, Hpt. edit_simpl.
    rewrite Hid. edit_simpl. by rewrite <- app_assoc.
Qed.

(** X19. When the request that fetches the listing fails (no answer, or a
    response that is not 2xx), the load handler alerts a message, starts
    the redirect to the profile page, attaches no listener and leaves the
    form as it was. *)
Theorem edit_load_fetch_fails (s : EditListing.state) (token profile : value) :
  let b := EditListing.browser s in
  signed_in b token profile ->
  truthy (EditListing.url_id s) = true ->
  request_fails b ->
  exists message,
    exec EditListing.onLoad s =
    EditListing.with_browser
      (with_answers (tail (answers b))
         (with_log (log b ++ [Fetch (edit_fetch_request token (EditListing.url_id s));
                              Alert message; Navigate "profile.html"]) b)) s.
Proof.
  intros b (Htoken & Htruthy & Hp & Hpt) Hid Hfail.
  unfold exec, EditListing.onLoad, EditListing.requireAuth, EditListing.br, zoom,
    try_catch, EditListing.fetchListing, bind, gets, liftR, ret, throw, fetch,
    alert, navigate, emit, modify.
  cbn beta iota zeta. fold b. rewrite Hp, Htoken, Htruthy, Hpt. edit_simpl.
  rewrite Hid. edit_simpl. unfold request_fails in Hfail. fold b in Hfail.
  destruct (answers b) as [|[|status body] rest] eqn:Hans; edit_simpl.
  - eexists. unfold EditListing.with_browser, with_answers, with_log. cbn.
    rewrite <- !app_assoc. cbn. by rewrite Hans.
  - eexists. unfold EditListing.with_browser, with_answers, with_log. cbn.
    by rewrite <- !app_assoc.
  - rewrite json_or_empty, (non_2xx_not_ok _ _ Hfail). edit_simpl.
    eexists. unfold EditListing.with_browser, with_answers, with_log. cbn.
    by rewrite <- !app_assoc.
Qed.

(** X20. When the listing fetched at page load is the viewer's own, the
    load handler sends that one request and shows nothing, fills the form
    from the listing, and attaches the submit and delete listeners (where
    the form and the delete button exist) with the viewer's token and the
    listing id of the URL. *)
Theorem edit_load_own_listing (s : EditListing.state) (token profile listing : value)
    (status : Z) (body : option value) (rest : list answer) (media : string) :
  let b := EditListing.browser s in
  let env := {| EditListing.env_token := token; EditListing.env_profile := profile;
                EditListing.env_listingId := EditListing.url_id s |} in
  let attach (hook : string) (l : option EditListing.listener_env) :=
    if EditListing.present hook b then Some env else l in
  signed_in b token profile ->
  truthy (EditListing.url_id s) = true ->
  answers b = Response status body :: rest ->
  is_2xx status ->
  get (body_of body) "data" = Ok listing ->
  nullish listing = false ->
  own_listing listing (prop_of profile "name") ->
  EditListing.mediaToTextarea (prop_of listing "media") = Ok media ->
  exec EditListing.onLoad s =
    {| EditListing.browser :=
         with_dom (filled_form listing media (dom b))
           (with_answers rest
              (with_log (log b ++ [Fetch (edit_fetch_request token (EditListing.url_id s))])
                 b));
       EditListing.url_id := EditListing.url_id s;
       EditListing.submit_listener := attach EditListing.form (EditListing.submit_listener s);
       EditListing.delete_listener :=
         attach EditListing.deleteBtn (EditListing.delete_listener s) |}.
Proof.
  intros b env attach (Htoken & Htruthy & Hp & Hpt) Hid Hans Hst Hdata Hlisting
    [Hseller Hname] Hmedia.
  unfold exec, EditListing.onLoad, EditListing.requireAuth, EditListing.br, zoom,
    try_catch, EditListing.fetchListing, EditListing.populateForm,
    bind, gets, liftR, ret, throw, fetch, alert, navigate, emit, modify, update_element.
  cbn beta iota zeta. fold b. rewrite Hp, Htoken, Htruthy, Hpt. edit_simpl.
  rewrite Hid. edit_simpl.
  rewrite Hans. edit_simpl. rewrite json_or_empty, (is_2xx_ok _ _ Hst). edit_simpl.
  rewrite Hdata. edit_simpl. unfold get. rewrite Hlisting. edit_simpl.
  rewrite Hseller, Hname. edit_simpl.
  unfold filled_form. unfold modify. edit_simpl.
  rewrite Hmedia.
  destruct (EditListing.splitEndsAtToDateTime (prop_of listing "endsAt")) as [date time].
  subst attach env. unfold EditListing.present. edit_simpl.
  rewrite !lookup_alter_ne by done.
  destruct (dom b !! EditListing.mediaInput) as [e|] eqn:Hmi.
  - rewrite bool_decide_eq_true_2 by eauto. edit_simpl.
    rewrite ?lookup_alter_ne by done.
    destruct (bool_decide (is_Some (dom b !! EditListing.form)));
      edit_simpl; rewrite ?lookup_alter_ne by done;
      destruct (bool_decide (is_Some (dom b !! EditListing.deleteBtn)));
      reflexivity.
  - rewrite bool_decide_eq_false_2 by (by intros [? ?]). edit_simpl.
    rewrite (alter_id (set_value media) _ EditListing.mediaInput).
    2:{ intros e He. rewrite !lookup_alter_ne in He by done. congruence. }
    rewrite ?lookup_alter_ne by done.
    destruct (bool_decide (is_Some (dom b !! EditListing.form)));
      edit_simpl; rewrite ?lookup_alter_ne by done;
      destruct (bool_decide (is_Some (dom b !! EditListing.deleteBtn)));
      reflexivity.
Qed.

End EditLoadMore.

(** ** Refining a search *)

Lemma string_app_assoc (a b c : string) : (a +:+ b) +:+ c = a +:+ (b +:+ c).
Proof. induction a as [|x a IH]; [done|]. exact (f_equal (String x) IH). Qed.

Lemma is_substring_trans (q q' s : string) :
  is_substring q q' -> is_substring q' s -> is_substring q s.
Proof.
  intros (pre1 & post1 & ->) (pre2 & post2 & ->).
  exists (pre2 +:+ pre1), (post1 +:+ post2).
  by rewrite !string_app_assoc.
Qed.

Lemma filter_narrows {A : Type} (P Q : A -> Prop) `{!forall x, Decision (P x)}
    `{!forall x, Decision (Q x)} (l : list A) :
  (forall x, P x -> Q x) -> sublist (filter P l) (filter Q l).
Proof.
  intros HPQ. induction l as [|x l IH]; [done|].
  rewrite !filter_cons. destruct (decide (P x)) as [HP | HP].
  - rewrite decide_True by auto. by apply sublist_skip.
  - destruct (decide (Q x)); [by apply sublist_cons | done].
Qed.

Section SearchNarrows.
Context `{Platform}.

#[local] Existing Instance listing_matches_dec.

(** X21. Refining the query narrows the result: when the query [q] occurs
    in the query [q'], every listing the filter keeps for [q'] it also
    keeps for [q], and both results list the loaded listings in their
    original order. *)
Theorem search_narrows (A : list value) (q q' : string) :
  Forall searchable A ->
  is_substring q q' ->
  exists found found',
    Search.filter_listings q A = Ok found /\
    Search.filter_listings q' A = Ok found' /\
    sublist found' found /\ sublist found A.
Proof.
  intros HA Hq. exists (filter (listing_matches q) A), (filter (listing_matches q') A).
  split; [by apply filter_listings_spec|]. split; [by apply filter_listings_spec|].
  split; [|apply sublist_filter].
  apply filter_narrows. intros listing [Hm | Hm]; [left | right];
    by apply (is_substring_trans q q').
Qed.

End SearchNarrows.

(** ** The media field of the edit form *)

Lemma append_empty (s : string) : s +:+ EmptyString = s.
Proof. induction s as [|c s IH]; [done|]. exact (f_equal (String c) IH). Qed.

Lemma append_cons (c : ascii) (s t : string) : String c s +:+ t = String c (s +:+ t).
Proof. reflexivity. Qed.

Lemma split_runs_piece (u rest : string) (piece : string) (pieces : list string) :
  free_of_separators u = true ->
  EditForm.split_runs false rest = piece :: pieces ->
  EditForm.split_runs false (u +:+ rest) = (u +:+ piece) :: pieces.
Proof.
  intros Hu Hrest. induction u as [|c u IH]; [exact Hrest|].
  cbn [free_of_separators] in Hu. apply andb_true_iff in Hu as [Hc Hu].
  apply negb_true_iff in Hc. rewrite append_cons. cbn [EditForm.split_runs]. rewrite Hc.
  by rewrite (IH Hu).
Qed.

Lemma join_lines_started (u : string) (urls : list string) (in_run : bool) :
  plain u ->
  EditForm.split_runs in_run (join (String EditForm.newline EmptyString) (u :: urls)) =
  EditForm.split_runs false (join (String EditForm.newline EmptyString) (u :: urls)).
Proof.
  intros [Hne Hu]. destruct in_run; [|done].
  destruct u as [|c u]; [done|].
  cbn [free_of_separators] in Hu. apply andb_true_iff in Hu as [Hc _].
  apply negb_true_iff in Hc.
  destruct urls; cbn [join]; rewrite ?append_cons; cbn [EditForm.split_runs];
    by rewrite Hc.
Qed.

Lemma split_runs_join (urls : list string) :
  urls <> [] -> Forall plain urls ->
  EditForm.split_runs false (join (String EditForm.newline EmptyString) urls) = urls.
Proof.
  intros Hne Hall. induction Hall as [|u urls Hu Hall IH]; [done|].
  destruct urls as [|v urls].
  - cbn [join]. rewrite <- (append_empty u) at 1.
    rewrite (split_runs_piece u EmptyString EmptyString []); [|apply Hu|done].
    by rewrite append_empty.
  - change (join (String EditForm.newline EmptyString) (u :: v :: urls))
      with (u +:+ String EditForm.newline EmptyString +:+
            join (String EditForm.newline EmptyString) (v :: urls)).
    erewrite split_runs_piece; [| apply Hu |].
    2:{ rewrite append_cons. cbn [EditForm.split_runs].
        change (EditForm.is_separator EditForm.newline) with true. cbn iota.
        reflexivity. }
    rewrite append_empty. f_equal.
    change (EmptyString +:+ ?x) with x.
    rewrite join_lines_started by (by apply Forall_cons_1 in Hall as [? _]).
    by apply IH.
Qed.

Section MediaField.
Context `{Platform} `{IsoDates}.

Lemma media_urls_run (media : list value) (urls : list string) :
  Forall2 (fun m u => nullish m = false /\ prop_of m "url" = Str u) media urls ->
  EditListing.media_urls media = Ok (List.map Str urls).
Proof.
  induction 1 as [|m u media urls [Hm Hu] _ IH]; [done|].
  cbn [EditListing.media_urls]. unfold get. rewrite Hm, Hu, IH. reflexivity.
Qed.

Lemma mediaToTextarea_run (media : list value) (urls : list string) :
  Forall2 (fun m u => nullish m = false /\ prop_of m "url" = Str u) media urls ->
  EditListing.mediaToTextarea (Arr media)
  = Ok (join (String EditForm.newline EmptyString) urls).
Proof.
  intros Hall. unfold EditListing.mediaToTextarea. cbn [isArray negb orb array_items].
  destruct Hall as [|m u media urls Hm Hall]; [done|].
  cbn [prop_of String.eqb Ascii.eqb Bool.eqb strict_eq num_eq length].
  replace (Z.of_nat (S (length media)) =? 0) with false by (symmetry; apply Z.eqb_neq; lia).
  rewrite (media_urls_run (m :: media) (u :: urls)) by by constructor.
  cbn [bindR]. do 2 f_equal. rewrite List.map_map. apply List.map_id.
Qed.

(** X22. What the edit form shows in its media field reads back as the same
    addresses in the same order: for a listing whose media addresses are
    clean lines, [parseMediaTextarea] of the text that [mediaToTextarea]
    produced yields one entry per address, with the [alt] texts generated
    anew from the title. *)
Theorem media_field_round_trip (media : list value) (urls : list string) (title : string) :
  Forall2 (fun m u => nullish m = false /\ prop_of m "url" = Str u) media urls ->
  Forall clean_url urls ->
  trim (join (String EditForm.newline EmptyString) urls)
    = join (String EditForm.newline EmptyString) urls ->
  exists text,
    EditListing.mediaToTextarea (Arr media) = Ok text /\
    EditForm.parseMediaTextarea text title =
      imap (fun index url =>
              Obj [("url", Str url); ("alt", Str (EditForm.alt_text title index))]) urls.
Proof.
  intros Hmedia Hclean Htrim. eexists. split; [by apply mediaToTextarea_run|].
  unfold EditForm.parseMediaTextarea. rewrite Htrim.
  destruct urls as [|u urls]; [reflexivity|].
  destruct (String.eqb_spec (join (String EditForm.newline EmptyString) (u :: urls))
              EmptyString) as [Hempty | _].
  { apply Forall_cons_1 in Hclean as [[[Hne _] _] _].
    destruct u; [done|]. destruct urls; discriminate. }
  rewrite split_runs_join; [|done|].
  2:{ eapply Forall_impl; [exact Hclean|]. by intros ? [? _]. }
  f_equal.
  assert (List.map trim (u :: urls) = u :: urls) as ->.
  { clear -Hclean. induction Hclean as [|v l [_ Hv] _ IH]; [done|].
    cbn [List.map]. by rewrite Hv, IH. }
  apply filter_all. eapply Forall_impl; [exact Hclean|].
  intros v [[Hv _] _]. apply negb_true_iff. by apply String.eqb_neq.
Qed.

End MediaField.

(** ** Saving and deleting from the edit form *)

Section EditFormHandlers.
Context `{Platform} `{IsoDates}.

Lemma after_request_no_answer (r : request) (b : Browser) :
  answers b = [] -> with_log (log b ++ [Fetch r]) b = after_request r b.
Proof. destruct b as [st ans cl d l]. cbn. intros ->. reflexivity. Qed.

Lemma updateListing_run (token id payload : value) (b : Browser) :
  exists r,
    EditListing.updateListing token id payload b
      = (r, after_request (update_request token id payload) b) /\
    (request_succeeds b -> exists v, r = Ok v) /\
    (request_fails b -> exists e, r = Throw e).
Proof.
  unfold EditListing.updateListing, bind, liftR, throw, fetch, request_succeeds,
    request_fails.
  fold (update_request token id payload).
  destruct (answers b) as [|[|status body] rest] eqn:Hans; cbn beta iota zeta;
    [rewrite (after_request_no_answer _ _ Hans) | unfold after_request; rewrite Hans ..].
  - eexists. split; [reflexivity|]. split; [by intros (? & ? & ? & ? & _) | by eexists].
  - eexists. split; [reflexivity|]. split; [by intros (? & ? & ? & ? & _) | by eexists].
  - rewrite json_or_empty. cbn beta iota.
    destruct (res_ok _) eqn:Hok; cbn [negb].
    + destruct (get (body_of body) "data") as [v | e] eqn:Hget; cbn [fst snd tail].
      * eexists. split; [reflexivity|]. split; [by eexists|].
        intros Hfail. by rewrite (non_2xx_not_ok _ _ Hfail) in Hok.
      * eexists. split; [reflexivity|]. split; [|by eexists].
        intros (? & ? & ? & [= <- <- <-] & _ & Hbody).
        unfold get in Hget. by rewrite Hbody in Hget.
    + eexists. split; [reflexivity|]. split; [|by eexists].
      intros (? & ? & ? & [= <- <- <-] & Hst & _).
      by rewrite (is_2xx_ok _ _ Hst) in Hok.
Qed.

Lemma deleteListing_run (token id : value) (b : Browser) :
  exists r,
    EditListing.deleteListing token id b
      = (r, after_request (delete_request token id) b) /\
    ((exists status body rest,
        answers b = Response status body :: rest /\ is_2xx status) -> r = Ok true) /\
    (request_fails b -> exists e, r = Throw e).
Proof.
  unfold EditListing.deleteListing, bind, liftR, throw, ret, fetch, request_fails.
  fold (delete_request token id).
  destruct (answers b) as [|[|status body] rest] eqn:Hans; cbn beta iota zeta;
    [rewrite (after_request_no_answer _ _ Hans) | unfold after_request; rewrite Hans ..].
  - eexists. split; [reflexivity|]. split; [by intros (? & ? & ? & ? & _) | by eexists].
  - eexists. split; [reflexivity|]. split; [by intros (? & ? & ? & ? & _) | by eexists].
  - destruct (res_ok _) eqn:Hok; cbn [negb].
    + eexists. split; [reflexivity|]. split; [done|].
      intros Hfail. by rewrite (non_2xx_not_ok _ _ Hfail) in Hok.
    + rewrite json_or_empty. cbn beta iota.
      eexists. split; [reflexivity|]. split; [|by eexists].
      intros (? & ? & ? & [= <- <- <-] & Hst).
      by rewrite (is_2xx_ok _ _ Hst) in Hok.
Qed.

Lemma handleSave_reads (env : EditListing.listener_env) (s : EditListing.state) :
  let b := EditListing.browser s in
  (exists f endsAt,
     save_valid b f endsAt /\
     EditForm.handleSave env s =
       try_finally
         (try_catch (EditForm.submitSave env (save_payload f endsAt))
            (alert_failure "Could not update listing."))
         (restore_button EditListing.saveBtn "Save Listing") s) \/
  ((forall f endsAt, ~ save_valid b f endsAt) /\
   exists message,
     EditForm.handleSave env s =
       (Ok tt, EditListing.with_browser (with_log (log b ++ [Alert message]) b) s)).
Proof.
  intros b.
  unfold EditForm.handleSave, bind, gets. cbn beta iota. fold b.
  unfold save_valid, read_form.
  destruct (dom b !! EditListing.titleInput) as [ti|]; cbn [mbind option_bind].
  2:{ right. split; [by intros ? ? [? _] | by eexists]. }
  destruct (dom b !! EditListing.descriptionInput) as [di|]; cbn [mbind option_bind].
  2:{ right. split; [by intros ? ? [? _] | by eexists]. }
  destruct (dom b !! EditListing.mediaInput) as [mi|]; cbn [mbind option_bind].
  2:{ right. split; [by intros ? ? [? _] | by eexists]. }
  destruct (dom b !! EditListing.endDateInput) as [edi|]; cbn [mbind option_bind].
  2:{ right. split; [by intros ? ? [? _] | by eexists]. }
  destruct (dom b !! EditListing.endTimeInput) as [eti|]; cbn [mbind option_bind].
  2:{ right. split; [by intros ? ? [? _] | by eexists]. }
  destruct (String.eqb_spec (trim (el_value ti)) EmptyString) as [Ht | Ht]; cbn [orb].
  { right. split; [|by eexists]. intros f e ([= <-] & Hne & _). by cbn in Hne. }
  destruct (String.eqb_spec (trim (el_value di)) EmptyString) as [Hd | Hd]; cbn [orb].
  { right. split; [|by eexists]. intros f e ([= <-] & _ & Hne & _). by cbn in Hne. }
  destruct (String.eqb_spec (el_value edi) EmptyString) as [Hdate | Hdate]; cbn [orb].
  { right. split; [|by eexists]. intros f e ([= <-] & _ & _ & Hne & _). by cbn in Hne. }
  destruct (String.eqb_spec (el_value eti) EmptyString) as [Htime | Htime]; cbn [orb].
  { right. split; [|by eexists]. intros f e ([= <-] & _ & _ & _ & Hne & _). by cbn in Hne. }
  destruct (truthy (EditForm.buildEndsAt (el_value edi) (el_value eti))) eqn:Hends;
    cbn [negb].
  2:{ right. split; [|by eexists].
      intros f e ([= <-] & _ & _ & _ & _ & -> & Htr & _). cbn in Htr. congruence. }
  destruct (num_le _ _) eqn:Hfuture.
  { right. split; [|by eexists].
    intros f e ([= <-] & _ & _ & _ & _ & -> & _ & Hle). cbn in Hle. congruence. }
  left. eexists {| fv_title := _ |}, _. split; [|reflexivity].
  by repeat split.
Qed.

(** X23. The save handler sends nothing unless the form is complete and
    valid: when an input is missing, the title or the description is empty
    after trimming, the date or the time is empty, the date does not parse,
    or the deadline is not in the future, it shows one alert and changes
    nothing else. *)
Theorem handleSave_rejects (env : EditListing.listener_env) (s : EditListing.state) :
  let b := EditListing.browser s in
  (forall f endsAt, ~ save_valid b f endsAt) ->
  exists message,
    exec (EditForm.handleSave env) s =
    EditListing.with_browser (with_log (log b ++ [Alert message]) b) s.
Proof.
  intros b Hinvalid.
  destruct (handleSave_reads env s) as [(f & endsAt & Hvalid & _) | (_ & message & Hrun)].
  - by destruct (Hinvalid f endsAt).
  - exists message. unfold exec. by rewrite Hrun.
Qed.

(** X24. With a valid form the save handler sends exactly one request, the
    PUT of the payload built from the form. When it succeeds the handler
    reports it and starts the redirect to the profile page; when it fails
    the handler shows one alert and starts no redirect. Either way the
    save button ends enabled and labelled [Save Listing], and the
    listeners stay as they were. *)
Theorem handleSave_outcome (env : EditListing.listener_env) (s : EditListing.state)
    (f : form_values) (endsAt : value) :
  let b := EditListing.browser s in
  let s' := exec (EditForm.handleSave env) s in
  let r := update_request (EditListing.env_token env) (EditListing.env_listingId env)
             (save_payload f endsAt) in
  save_valid b f endsAt ->
  (exists trace,
     log (EditListing.browser s') = (log b ++ Fetch r :: trace)%list /\
     answers (EditListing.browser s') = tail (answers b) /\
     (request_succeeds b ->
      trace = [Alert "Listing updated successfully!"; Navigate "profile.html"]) /\
     (request_fails b -> exists message, trace = [Alert message])) /\
  (forall button,
     dom (EditListing.browser s') !! EditListing.saveBtn = Some button ->
     disabled button = false /\ textContent button = "Save Listing") /\
  EditListing.submit_listener s' = EditListing.submit_listener s /\
  EditListing.delete_listener s' = EditListing.delete_listener s.
Proof.
  intros b s' r Hvalid. subst s'.
  destruct (handleSave_reads env s) as [(f' & endsAt' & Hvalid' & Hrun) | (Hno & _)].
  2:{ by destruct (Hno f endsAt). }
  assert (f' = f /\ endsAt' = endsAt) as [-> ->].
  { destruct Hvalid as (Hf & _ & _ & _ & _ & He & _).
    destruct Hvalid' as (Hf' & _ & _ & _ & _ & He' & _).
    fold b in Hf'. rewrite Hf in Hf'. injection Hf' as <-. by subst. }
  unfold exec. rewrite Hrun. clear Hrun Hvalid'.
  unfold try_finally, try_catch, EditForm.submitSave, restore_button, alert_failure,
    bind, EditListing.br, zoom, update_element, alert, navigate, emit, modify.
  cbn [fst snd EditListing.browser EditListing.with_browser].
  match goal with
  | |- context [EditListing.updateListing ?t ?i ?p ?b0] =>
      destruct (updateListing_run t i p b0) as (res & Hres & Hok & Hfail);
        rewrite Hres
  end.
  fold r in Hres |- *.
  destruct res as [v | e]; cbn [fst snd EditListing.browser EditListing.with_browser
    EditListing.submit_listener EditListing.delete_listener
    dom log answers with_dom with_log with_answers after_request].
  - split; [|split; [|done]].
    + eexists. split; [|split; [reflexivity|split]].
      * rewrite <- !app_assoc. reflexivity.
      * done.
      * intros Hf. destruct (Hfail Hf) as [? [=]].
    + intros button. rewrite !lookup_alter_eq.
      destruct (dom (EditListing.browser s) !! EditListing.saveBtn); cbn; [|done].
      by intros [= <-].
  - split; [|split; [|done]].
    + eexists. split; [|split; [reflexivity|split]].
      * rewrite <- !app_assoc. reflexivity.
      * intros Hs. destruct (Hok Hs) as [? [=]].
      * intros _. by eexists.
    + intros button. rewrite !lookup_alter_eq.
      destruct (dom (EditListing.browser s) !! EditListing.saveBtn); cbn; [|done].
      by intros [= <-].
Qed.

(** X25. The delete handler does nothing when the user declines the
    confirmation. Once confirmed it sends exactly one request, the DELETE
    of the listing; on a 2xx answer it reports the deletion and starts the
    redirect to the profile page, on a failed request it shows one alert
    and starts no redirect, and either way the delete button ends enabled
    and labelled [Delete Listing]. *)
Theorem handleDelete_outcome (env : EditListing.listener_env) (s : EditListing.state) :
  let b := EditListing.browser s in
  let s' := exec (EditForm.handleDelete true env) s in
  let r := delete_request (EditListing.env_token env) (EditListing.env_listingId env) in
  exec (EditForm.handleDelete false env) s = s /\
  (exists trace,
     log (EditListing.browser s') = (log b ++ Fetch r :: trace)%list /\
     answers (EditListing.browser s') = tail (answers b) /\
     ((exists status body rest,
         answers b = Response status body :: rest /\ is_2xx status) ->
      trace = [Alert "Listing deleted successfully."; Navigate "profile.html"]) /\
     (request_fails b -> exists message, trace = [Alert message])) /\
  (forall button,
     dom (EditListing.browser s') !! EditListing.deleteBtn = Some button ->
     disabled button = false /\ textContent button = "Delete Listing").
Proof.
  intros b s' r. subst s'. split; [reflexivity|].
  unfold exec, EditForm.handleDelete. cbn [negb].
  unfold try_finally, try_catch, EditForm.submitDelete,
    bind, EditListing.br, zoom, update_element, alert, navigate, emit, modify.
  cbn [fst snd EditListing.browser EditListing.with_browser].
  match goal with
  | |- context [EditListing.deleteListing ?t ?i ?b0] =>
      destruct (deleteListing_run t i b0) as (res & Hres & Hok & Hfail);
        rewrite Hres
  end.
  fold r in Hres |- *.
  destruct res as [v | e]; cbn [fst snd EditListing.browser EditListing.with_browser
    dom log answers with_dom with_log with_answers after_request].
  - split.
    + eexists. split; [|split; [reflexivity|split]].
      * rewrite <- !app_assoc. reflexivity.
      * done.
      * intros Hf. destruct (Hfail Hf) as [? [=]].
    + intros button. rewrite !lookup_alter_eq.
      destruct (dom (EditListing.browser s) !! EditListing.deleteBtn); cbn; [|done].
      by intros [= <-].
  - split.
    + eexists. split; [|split; [reflexivity|split]].
      * rewrite <- !app_assoc. reflexivity.
      * intros Hs. by specialize (Hok Hs).
      * intros _. by eexists.
    + intros button. rewrite !lookup_alter_eq.
      destruct (dom (EditListing.browser s) !! EditListing.deleteBtn); cbn; [|done].
      by intros [= <-].
Qed.

End EditFormHandlers.

(** ** The description shown on a dashboard card *)

Lemma length_append (a b : string) :
  String.length (a +:+ b) = (String.length a + String.length b)%nat.
Proof.
  induction a as [|c a IH]; [done|].
  change (String c a +:+ b) with (String c (a +:+ b)). cbn [String.length]. by rewrite IH.
Qed.

Lemma length_substring (n : nat) (s : string) :
  String.length (String.substring 0 n s) = Nat.min n (String.length s).
Proof.
  revert s. induction n as [|n IH]; intros [|c s]; cbn [String.substring String.length];
    try done.
  by rewrite IH.
Qed.

Section CardDescription.
Context `{Platform}.

(** X26. The description on a dashboard card is never longer than 130
    characters: a longer description is cut to its first 127 characters
    followed by three dots, a shorter one is shown as it is, and an empty
    one is replaced by a placeholder. *)
Theorem shortDescription_bound (s : string) :
  exists shown,
    DashboardCard.shortDescription (Str s) = Ok (Str shown) /\
    (String.length shown <= 130)%nat /\
    (s = EmptyString -> shown = "No description provided.") /\
    (s <> EmptyString -> (String.length s <= 130)%nat -> shown = s) /\
    ((130 < String.length s)%nat ->
     shown = String.substring 0 127 s +:+ "..." /\ String.length shown = 130%nat).
Proof.
  unfold DashboardCard.shortDescription.
  cbn [truthy prop_of String.eqb Ascii.eqb Bool.eqb DashboardCard.ToNumber num_gt].
  destruct (String.eqb_spec s EmptyString) as [-> | Hne]; cbn [negb andb].
  - eexists. split; [reflexivity|]. cbn. repeat split; try done; lia.
  - destruct (Z.ltb_spec 130 (Z.of_nat (String.length s))) as [Hlong | Hshort].
    + eexists. split; [reflexivity|].
      assert (String.length (String.substring 0 127 s +:+ "...") = 130%nat) as Hlen.
      { rewrite length_append, length_substring. cbn [String.length]. lia. }
      rewrite Hlen. repeat split; try done; lia.
    + unfold or_else. cbn [truthy].
      rewrite (proj2 (String.eqb_neq s EmptyString) Hne). cbn [negb].
      eexists. split; [reflexivity|]. repeat split; try done; lia.
Qed.

End CardDescription.

(** ** The login and register forms *)

Section AuthForms.
Context `{Platform} `{Endpoints}.

Import FormPage.

Lemma add_flagged (hint : option node) :
  flagged (classList_add "is-invalid" <$> hint).
Proof.
  intros n. destruct hint as [m|]; [|done]. cbn. intros [= <-].
  unfold classList_add. destruct (bool_decide_reflect ("is-invalid" ∈ classes m)); [done|].
  cbn. set_solver.
Qed.

Lemma remove_unflagged (hint : option node) :
  unflagged (classList_remove "is-invalid" <$> hint).
Proof.
  intros n. destruct hint as [m|]; [|done]. cbn. intros [= <-].
  unfold classList_remove. cbn. intros Hin%list_elem_of_In%filter_In.
  destruct Hin as [_ Hneq]. by rewrite String.eqb_refl in Hneq.
Qed.

(** X27. Neither form sends a request with entries that fail its checks
    (an [email] that does not end in [@stud.noroff.no], a [password] of
    fewer than eight characters, and on the register page a [name] of fewer
    than four characters after trimming): the handler flags the hints of
    the failing fields, clears the flag of the others, and leaves the
    browser, the toast, the loader and the timers as they were. *)
Theorem forms_validate_first (p : page) (entries : list (string * string)) :
  form p = Some entries ->
  (email_ok entries && password_ok entries = false ->
   let p' := exec Login.formSubmit p in
   browser p' = browser p /\ toast p' = toast p /\ loader p' = loader p /\
   timers p' = timers p /\
   (if email_ok entries then unflagged (emailHint p') else flagged (emailHint p')) /\
   (if password_ok entries then unflagged (passwordHint p')
    else flagged (passwordHint p'))) /\
  (name_ok entries && email_ok entries && password_ok entries = false ->
   let p' := exec Register.formSubmit p in
   browser p' = browser p /\ toast p' = toast p /\ loader p' = loader p /\
   timers p' = timers p /\
   (if name_ok entries then unflagged (nameHint p') else flagged (nameHint p')) /\
   (if email_ok entries then unflagged (emailHint p') else flagged (emailHint p')) /\
   (if password_ok entries then unflagged (passwordHint p')
    else flagged (passwordHint p'))).
Proof.
  intros Hform.
  assert (Hemail : negb (truthy (field "email" entries))
                   || negb (ends_with "@stud.noroff.no" (ToString (field "email" entries)))
                   = negb (email_ok entries))
    by (unfold email_ok; by rewrite negb_andb).
  assert (Hpassword : negb (truthy (field "password" entries))
                      || (String.length (ToString (field "password" entries)) <? 8)%nat
                      = negb (password_ok entries))
    by (unfold password_ok; by rewrite negb_andb, negb_involutive).
  assert (Hname : negb (truthy (field "name" entries))
                  || (String.length (trim (ToString (field "name" entries))) <? 4)%nat
                  = negb (name_ok entries))
    by (unfold name_ok; by rewrite negb_andb, negb_involutive).
  split.
  - intros Hinvalid.
    unfold exec, Login.formSubmit, Login.clearFieldErrors, bind, gets,
      on_emailHint, on_passwordHint, modify, ret.
    cbn beta iota. rewrite Hform. cbn beta iota zeta. rewrite Hemail, Hpassword.
    destruct (email_ok entries); destruct (password_ok entries); try discriminate;
      cbn; repeat split; auto using add_flagged, remove_unflagged.
  - intros Hinvalid.
    unfold exec, Register.formSubmit, Register.clearFieldErrors, bind, gets,
      on_nameHint, on_emailHint, on_passwordHint, modify, ret.
    cbn beta iota. rewrite Hform. cbn beta iota zeta. rewrite Hname, Hemail, Hpassword.
    destruct (name_ok entries); destruct (email_ok entries);
      destruct (password_ok entries); try discriminate;
      cbn; repeat split; auto using add_flagged, remove_unflagged.
Qed.

Lemma remove_hidden (loader : option node) :
  hidden (classList_remove "is-visible" <$> loader).
Proof.
  intros n. destruct loader as [m|]; [|done]. cbn. intros [= <-].
  unfold classList_remove. cbn. intros Hin%list_elem_of_In%filter_In.
  destruct Hin as [_ Hneq]. by rewrite String.eqb_refl in Hneq.
Qed.

Lemma with_answers_none (l : list event) (b : Browser) :
  answers b = [] -> with_answers [] (with_log l b) = with_log l b.
Proof. destruct b. cbn. by intros ->. Qed.

Ltac run_form :=
  unfold showMessage, showLoader, hideLoader, on_toast, on_loader, setTimeout,
    try_finally, try_catch, bind, br, zoom, fetch, modify, liftR, throw, ret;
  cbn beta iota zeta;
  cbn [fst snd browser toast loader timers with_browser with_toast with_loader with_timers
       answers log storage with_log with_answers fmap option_fmap option_map].

(** X28. [registerUser] sends one POST of the details and hides the loader
    whatever happens. When the answer is a 2xx response with a JSON body it
    announces the success and schedules the redirect to the login page
    after two seconds; in every other case (no answer, a body that is not
    JSON, a status outside 2xx whatever message the body carries) the toast
    shows the same fixed text and nothing is scheduled. *)
Theorem registerUser_outcome (p : page) (userDetails : value) (n : node) :
  let b := browser p in
  let p' := exec (Register.registerUser userDetails) p in
  toast p = Some n ->
  browser p' =
    with_answers (tail (answers b))
      (with_log (log b ++ [Fetch (post REGISTER_URL userDetails)]) b) /\
  hidden (loader p') /\
  (accepted b ->
   text <$> toast p' = Some "Registration successful! Redirecting to login..." /\
   timers p' = (timers p ++ [(2000, "login.html")])%list) /\
  (~ accepted b ->
   text <$> toast p' = Some "Registration failed. Please try again." /\
   timers p' = timers p).
Proof.
  intros b p' Htoast. subst p' b.
  unfold exec, Register.registerUser. run_form. rewrite Htoast.
  destruct (answers (browser p)) as [|[|status [body|]] rest] eqn:Hans; run_form.
  - split; [symmetry; by apply with_answers_none|].
    split; [apply remove_hidden|]. split; [|by intros _; split].
    intros (? & ? & ? & Ha & _). congruence.
  - split; [reflexivity|]. split; [apply remove_hidden|]. split; [|by intros _; split].
    intros (? & ? & ? & Ha & _). congruence.
  - unfold res_json, res_ok. cbn [res_body res_status].
    destruct ((200 <=? status) && (status <=? 299)) eqn:Hok; cbn [negb]; run_form.
    + split; [reflexivity|]. split; [apply remove_hidden|]. split; [by intros _; split|].
      intros Hno. destruct Hno. do 3 eexists. split; [exact Hans|].
      apply andb_true_iff in Hok as [?%Z.leb_le ?%Z.leb_le]. by split.
    + assert (~ accepted (browser p)) as Hno.
      { intros (? & ? & ? & Ha & Hst). rewrite Hans in Ha. injection Ha as <- <- <-.
        pose proof (is_2xx_ok _ None Hst) as Hok'. unfold res_ok in Hok'.
        cbn [res_status] in Hok'. congruence. }
      destruct (errorMessage body); run_form;
        (split; [reflexivity|]; split; [apply remove_hidden|];
         split; [done | by intros _; split]).
  - unfold res_json. cbn [res_body]. run_form.
    split; [reflexivity|]. split; [apply remove_hidden|]. split; [|by intros _; split].
    intros (? & ? & ? & Ha & _). congruence.
Qed.

(** X29. When the login request is answered outside 2xx with a JSON body
    that lists error objects, the toast of the login page shows their
    messages joined by commas, as an error; nothing is stored and nothing
    is scheduled. *)
Theorem loginUser_shows_server_errors (p : page) (credentials body : value)
    (status : Z) (rest : list answer) (errors : list value) (messages : list string)
    (n : node) :
  let p' := exec (Login.loginUser credentials) p in
  toast p = Some n ->
  answers (browser p) = Response status (Some body) :: rest ->
  non_2xx status ->
  nullish body = false ->
  prop_of body "errors" = Arr errors ->
  Forall2 (fun err message => nullish err = false /\ prop_of err "message" = Str message)
    errors messages ->
  join ", " messages <> EmptyString ->
  toast p' =
    Some {| classes := ["toast-message"; "toast-message--visible"; "toast-message--error"];
            text := join ", " messages |} /\
  storage (browser p') = storage (browser p) /\
  timers p' = timers p /\
  hidden (loader p').
Proof.
  intros p' Htoast Hans Hst Hbody Herrors Hmessages Hne. subst p'.
  assert (messages_of errors = Ok messages) as Hm.
  { clear -Hmessages. induction Hmessages as [|err m errs ms [Hn Hmsg] _ IH]; [done|].
    cbn [messages_of]. unfold get. rewrite Hn, Hmsg, IH. reflexivity. }
  assert (errorMessage body = Ok (join ", " messages)) as Herr.
  { unfold errorMessage, joined_errors, get_opt. rewrite Hbody, Herrors. cbn [nullish].
    rewrite Hm. cbn [bindR]. unfold or_else at 2. cbn [truthy].
    rewrite (proj2 (String.eqb_neq _ _) Hne). cbn [negb].
    unfold or_else. cbn [truthy]. by rewrite (proj2 (String.eqb_neq _ _) Hne). }
  unfold exec, Login.loginUser. run_form. rewrite Htoast, Hans. run_form.
  unfold res_json. cbn [res_body]. rewrite (non_2xx_not_ok _ _ Hst). cbn [negb].
  rewrite Herr. run_form. cbn [exn_message Error].
  rewrite (proj2 (String.eqb_neq _ _) Hne).
  split; [reflexivity|]. split; [done|]. split; [done|]. apply remove_hidden.
Qed.

(** X30. When the login request is answered by a 2xx response whose JSON
    body carries the session under [data], the page stores it before
    announcing the success: afterwards [getToken] returns the access token
    of the answer, and the redirect to the dashboard is scheduled after a
    second and a half. A 2xx answer without [data] is announced and
    scheduled all the same, with the store left as it was. *)
Theorem loginUser_success (p : page) (credentials body : value) (status : Z)
    (rest : list answer) (n : node) :
  let p' := exec (Login.loginUser credentials) p in
  toast p = Some n ->
  answers (browser p) = Response status (Some body) :: rest ->
  is_2xx status ->
  text <$> toast p' = Some "Login successful! Redirecting..." /\
  timers p' = (timers p ++ [(1500, "dashboard.html")])%list /\
  (truthy body = true ->
   truthy (prop_of body "data") = true ->
   truthy (prop_of (prop_of body "data") "accessToken") = true ->
   Storage.getToken (storage (browser p'))
   = Str (ToString (prop_of (prop_of body "data") "accessToken"))) /\
  (truthy (and_then body (prop_of body "data")) = false ->
   storage (browser p') = storage (browser p)).
Proof.
  intros p' Htoast Hans Hst. subst p'.
  unfold exec, Login.loginUser. run_form. rewrite Htoast, Hans. run_form.
  unfold res_json. cbn [res_body]. rewrite (is_2xx_ok _ _ Hst). cbn [negb].
  destruct (truthy (and_then body (prop_of body "data"))) eqn:Hdata.
  - assert (nullish (prop_of body "data") = false) as Hnn.
    { unfold and_then in Hdata. destruct (truthy body) eqn:Hb.
      - by destruct (prop_of body "data").
      - congruence. }
    unfold on_storage, zoom. cbn [storage with_answers with_log].
    rewrite (saveAuth_run _ _ Hnn). run_form.
    split; [done|]. split; [done|]. split; [|done].
    intros _ _ Htoken. cbn [storage with_storage]. rewrite Htoken.
    unfold Storage.getToken, Storage.getItem.
    rewrite lookup_insert_ne by done. by rewrite lookup_insert_eq.
  - run_form. split; [done|]. split; [done|]. split; [|done].
    intros Hb Hd. unfold and_then in Hdata. rewrite Hb in Hdata. congruence.
Qed.

End AuthForms.

Section FurtherExamples.
#[local] Existing Instance Reference.reference_platform.

Lemma gateway_success_witness :
  (ListingDetail.fetchListing (Str "l1")
     (Sample.browser EmptyString [Response 200 (Some (Obj [("data", Sample.listing)]))])).1
  = Ok Sample.listing.
Proof.
  destruct (gateway_success
              (Sample.browser EmptyString
                 [Response 200 (Some (Obj [("data", Sample.listing)]))])
              200 (Obj [("data", Sample.listing)]) [] (Str "l1") Null Null NaN)
    as [(b' & Hrun & _) _].
  - reflexivity.
  - unfold is_2xx. lia.
  - reflexivity.
  - rewrite Hrun. reflexivity.
Defined.

Lemma detail_refresh_success_witness :
  Storage.getProfile
    (storage (exec ListingDetail.refreshProfileCredits
                (Sample.browser EmptyString
                   [Response 200
                      (Some (Obj [("data", Obj [("name", Str "ann");
                                                ("credits", Number (Num 850))])]))])))
  = Ok (Obj [("name", Str "ann"); ("credits", Number (Num 850))]).
Proof.
  destruct (detail_refresh_success
              (Sample.browser EmptyString
                 [Response 200
                    (Some (Obj [("data", Obj [("name", Str "ann");
                                              ("credits", Number (Num 850))])]))])
              200
              (Obj [("data", Obj [("name", Str "ann"); ("credits", Number (Num 850))])])
              []
              [("name", Str "ann"); ("credits", Number (Num 850))])
    as (Hstorage & _ & _).
  - split; [reflexivity|]. eexists. split; vm_compute; reflexivity.
  - reflexivity.
  - unfold is_2xx. lia.
  - reflexivity.
  - reflexivity.
  - compute_done.
  - compute_done.
  - rewrite Hstorage. vm_compute. reflexivity.
Defined.

Lemma detail_validated_sample (answers : list answer) :
  detail_validated (Sample.detail "150" answers) 150.
Proof.
  repeat split; try (vm_compute; reflexivity).
  - eexists. split; vm_compute; reflexivity.
  - vm_compute. discriminate.
  - exists 100. repeat split; vm_compute; reflexivity.
Defined.

Lemma card_validated_sample (answers : list answer) :
  card_validated Sample.card (Sample.dashboard "150" answers) 150.
Proof.
  split.
  - eexists. split; [vm_compute; reflexivity|]. split; [vm_compute; discriminate|].
    vm_compute. reflexivity.
  - exists 100. repeat split; vm_compute; reflexivity.
Defined.

Lemma detail_bid_success_replaces_listing_witness :
  ListingDetail.currentListing
    (exec ListingDetail.handleBidSubmit (Sample.detail "150" bid_accepted))
  = fresh_listing.
Proof.
  eapply (detail_bid_success_replaces_listing _ 150).
  - apply detail_validated_sample.
  - vm_compute. reflexivity.
  - vm_compute. reflexivity.
Defined.

Lemma dashboard_bid_success_assigns_witness :
  Dashboard.allListings
    (exec (Dashboard.bidClick Sample.card) (Sample.dashboard "150" bid_accepted))
  = [fresh_listing].
Proof.
  erewrite (dashboard_bid_success_assigns Sample.card _ 150); cycle 1.
  - apply card_validated_sample.
  - vm_compute. reflexivity.
  - vm_compute. reflexivity.
  - vm_compute. reflexivity.
  - reflexivity.
Defined.

Lemma dashboard_button_reenabled_witness :
  exists button,
    dom (Dashboard.browser
           (exec (Dashboard.bidClick Sample.card) (Sample.dashboard "150" [NetworkError])))
      !! "#card-l1 .listing-card-bid-btn" = Some button /\
    disabled button = false /\ textContent button = "Bid".
Proof.
  eexists. split; [vm_compute; reflexivity|].
  apply (dashboard_button_reenabled Sample.card (Sample.dashboard "150" [NetworkError]) 150).
  - apply card_validated_sample.
  - reflexivity.
  - vm_compute. reflexivity.
Defined.

Lemma detail_guest_sent_to_login_witness :
  log (ListingDetail.browser (exec ListingDetail.handleBidSubmit (guest_detail "150")))
  = [Alert "You need to login or register before placing a bid."; Navigate "login.html"].
Proof.
  rewrite (detail_guest_sent_to_login (guest_detail "150")); reflexivity.
Defined.

Lemma dashboard_guest_no_request_witness :
  log (Dashboard.browser (exec (Dashboard.bidClick Sample.card) (guest_dashboard "150")))
  = [Alert "You must be logged in to place a bid."].
Proof.
  destruct (dashboard_guest_no_request Sample.card (guest_dashboard "150") 150)
    as (Hlog & _).
  - split.
    + eexists. split; [vm_compute; reflexivity|]. split; [vm_compute; discriminate|].
      vm_compute. reflexivity.
    + exists 100. repeat split; vm_compute; reflexivity.
  - reflexivity.
  - rewrite Hlog. reflexivity.
Defined.

Lemma updateBidFormState_spec_witness :
  exists input,
    dom (ListingDetail.browser
           (exec ListingDetail.updateBidFormState (Sample.detail "150" [])))
      !! ListingDetail.bidAmountInput = Some input /\
    disabled input = true.
Proof.
  destruct (updateBidFormState_spec (Sample.detail "150" [])
              (Obj [("name", Str "ann"); ("credits", Number (Num 1000))])
              (set_value "150" Sample.blank) Sample.blank)
    as ((input & Hin & Hdis) & _); try (vm_compute; reflexivity).
  exists input. split; [exact Hin|]. rewrite Hdis. vm_compute. reflexivity.
Defined.

Lemma sorted_copy_permutation_witness :
  [dated_bid 150 "2026-01-03T10:00:00Z"; dated_bid 100 "2026-01-02T10:00:00Z";
   dated_bid 60 "2026-01-01T10:00:00Z"] ≡ₚ history.
Proof.
  apply (sorted_copy_permutation history). vm_compute. reflexivity.
Defined.

Lemma history_dated : Forall dated history.
Proof.
  repeat apply List.Forall_cons; try apply List.Forall_nil;
    (split; [reflexivity | eexists; vm_compute; reflexivity]).
Defined.

Lemma sorted_copy_newest_first_witness :
  exists sorted,
    ListingDetail.sorted_copy history = Ok sorted /\ StronglySorted not_older sorted.
Proof. exact (sorted_copy_newest_first history history_dated). Defined.

Lemma renderBidHistory_rows_witness :
  exists list',
    ListingDetail.renderBidHistory (Obj [("bids", Arr history)])
      (Sample.browser EmptyString []) =
    (Ok tt, with_dom (<[ListingDetail.bidHistoryList := list']>
                        (dom (Sample.browser EmptyString [])))
              (Sample.browser EmptyString [])) /\
    length (rows list') = 3%nat.
Proof.
  destruct (renderBidHistory_rows (Obj [("bids", Arr history)])
              (Sample.browser EmptyString []) Sample.blank)
    as (list' & Hrun & _ & Hrows).
  - vm_compute. reflexivity.
  - reflexivity.
  - exact history_dated.
  - exists list'. split; [exact Hrun|].
    destruct Hrows as (_ & sorted & Hperm & _ & Hrendered); [discriminate|].
    rewrite <- (Forall2_length _ _ _ Hrendered). by rewrite Hperm.
Defined.

Lemma ann_signed_in (answers : list answer) :
  signed_in (EditListing.browser (Sample.edit answers)) (Str "tok-ann")
    (Obj [("name", Str "ann"); ("credits", Number (Num 1000))]).
Proof. repeat split; vm_compute; reflexivity. Defined.

Lemma edit_load_guards_witness :
  log (EditListing.browser
         (exec EditListing.onLoad
            (EditListing.with_browser (guest_browser EmptyString) (Sample.edit []))))
  = [Navigate "login.html"].
Proof.
  rewrite (proj1 (edit_load_guards
                    (EditListing.with_browser (guest_browser EmptyString) (Sample.edit [])))).
  - reflexivity.
  - left. reflexivity.
Defined.

Lemma edit_load_fetch_fails_witness :
  exists message,
    log (EditListing.browser
           (exec EditListing.onLoad (Sample.edit [Response 404 None])))
    = [Fetch (edit_fetch_request (Str "tok-ann") (Str "l9"));
       Alert message; Navigate "profile.html"] /\
    EditListing.submit_listener
      (exec EditListing.onLoad (Sample.edit [Response 404 None])) = None.
Proof.
  destruct (edit_load_fetch_fails (Sample.edit [Response 404 None]) (Str "tok-ann")
              (Obj [("name", Str "ann"); ("credits", Number (Num 1000))]))
    as [message Hrun].
  - apply ann_signed_in.
  - reflexivity.
  - right. cbn. lia.
  - exists message. rewrite Hrun. split; reflexivity.
Defined.

Lemma edit_load_own_listing_witness :
  el_value <$>
    dom (EditListing.browser
           (exec EditListing.onLoad
              (Sample.edit [Response 200 (Some (Obj [("data", anns_listing)]))])))
      !! EditListing.titleInput = Some "Old clock" /\
  EditListing.submit_listener
    (exec EditListing.onLoad
       (Sample.edit [Response 200 (Some (Obj [("data", anns_listing)]))]))
  = Some {| EditListing.env_token := Str "tok-ann";
            EditListing.env_profile :=
              Obj [("name", Str "ann"); ("credits", Number (Num 1000))];
            EditListing.env_listingId := Str "l9" |}.
Proof.
  rewrite (edit_load_own_listing
             (Sample.edit [Response 200 (Some (Obj [("data", anns_listing)]))])
             (Str "tok-ann") (Obj [("name", Str "ann"); ("credits", Number (Num 1000))])
             anns_listing 200 (Some (Obj [("data", anns_listing)])) []
             "https://img.example/clock.png").
  - split; vm_compute; reflexivity.
  - apply ann_signed_in.
  - reflexivity.
  - reflexivity.
  - unfold is_2xx. lia.
  - reflexivity.
  - reflexivity.
  - split; reflexivity.
  - vm_compute. reflexivity.
Defined.

End FurtherExamples.

Section EditFormExamples.
#[local] Existing Instance form_platform.
#[local] Existing Instance form_iso.

Lemma media_field_round_trip_witness :
  exists text,
    EditListing.mediaToTextarea (Arr clock_media) = Ok text /\
    EditForm.parseMediaTextarea text "Old clock" =
      [Obj [("url", Str "https://img.example/clock.png");
            ("alt", Str "Old clock image 1")];
       Obj [("url", Str "https://img.example/back.png");
            ("alt", Str "Old clock image 2")]].
Proof.
  apply (media_field_round_trip clock_media
           ["https://img.example/clock.png"; "https://img.example/back.png"] "Old clock").
  - repeat constructor.
  - repeat apply List.Forall_cons; try apply List.Forall_nil;
      (split; [split; [discriminate | reflexivity] | vm_compute; reflexivity]).
  - vm_compute. reflexivity.
Defined.

Lemma handleSave_rejects_witness :
  exists message,
    exec (EditForm.handleSave ann_env) (edit_form "   " "2030-01-01" []) =
    EditListing.with_browser
      (with_log [Alert message] (EditListing.browser (edit_form "   " "2030-01-01" [])))
      (edit_form "   " "2030-01-01" []).
Proof.
  apply (handleSave_rejects ann_env (edit_form "   " "2030-01-01" [])).
  intros f endsAt (Hread & Htitle & _). vm_compute in Hread.
  injection Hread as <-. by apply Htitle.
Defined.

Lemma clock_form_valid (answers : list answer) :
  save_valid (EditListing.browser (edit_form " Old clock" "2030-01-01" answers))
    clock_form (Str "2030-01-01T10:00:00.000Z").
Proof.
  split; [vm_compute; reflexivity|].
  repeat (split; [discriminate|]).
  split; [vm_compute; reflexivity|]. split; vm_compute; reflexivity.
Defined.

Lemma handleSave_outcome_witness :
  log (EditListing.browser
         (exec (EditForm.handleSave ann_env)
            (edit_form " Old clock" "2030-01-01"
               [Response 200 (Some (Obj [("data", Obj [])]))])))
  = [Fetch (update_request (Str "tok-ann") (Str "l9")
              (save_payload clock_form (Str "2030-01-01T10:00:00.000Z")));
     Alert "Listing updated successfully!"; Navigate "profile.html"].
Proof.
  destruct (handleSave_outcome ann_env
              (edit_form " Old clock" "2030-01-01"
                 [Response 200 (Some (Obj [("data", Obj [])]))])
              clock_form (Str "2030-01-01T10:00:00.000Z")
              (clock_form_valid _))
    as ((trace & Hlog & _ & Hsucc & _) & _).
  rewrite Hlog, Hsucc; [reflexivity|].
  do 3 eexists. split; [reflexivity|]. split; [unfold is_2xx; lia | reflexivity].
Defined.

Lemma handleDelete_outcome_witness :
  exists message,
    log (EditListing.browser
           (exec (EditForm.handleDelete true ann_env)
              (edit_form "Old clock" "2030-01-01" [Response 403 None])))
    = [Fetch (delete_request (Str "tok-ann") (Str "l9")); Alert message].
Proof.
  destruct (handleDelete_outcome ann_env
              (edit_form "Old clock" "2030-01-01" [Response 403 None]))
    as (_ & (trace & Hlog & _ & _ & Hfail) & _).
  destruct Hfail as [message ->]; [right; cbn; lia|].
  exists message. rewrite Hlog. reflexivity.
Defined.

End EditFormExamples.

Section SearchNarrowsExamples.
#[local] Existing Instance Reference.reference_platform.

Lemma search_narrows_witness :
  exists found found',
    Search.filter_listings "vase"
      [Sample.listing; Obj [("title", Str "Glass vase"); ("description", Str "Clear.")]]
      = Ok found /\
    Search.filter_listings "blue vase"
      [Sample.listing; Obj [("title", Str "Glass vase"); ("description", Str "Clear.")]]
      = Ok found' /\
    sublist found' found /\
    sublist found
      [Sample.listing; Obj [("title", Str "Glass vase"); ("description", Str "Clear.")]].
Proof.
  apply (search_narrows
           [Sample.listing; Obj [("title", Str "Glass vase"); ("description", Str "Clear.")]]
           "vase" "blue vase").
  - repeat apply List.Forall_cons; try apply List.Forall_nil;
      (split; [reflexivity | split; first [by left | right; by eexists]]).
  - by exists "blue ", EmptyString.
Defined.

End SearchNarrowsExamples.

Section AuthFormsExamples.
#[local] Existing Instance Reference.reference_platform.
#[local] Existing Instance form_endpoints.

Lemma forms_validate_first_witness :
  log (FormPage.browser (exec Register.formSubmit (form_page bob_entries []))) = [] /\
  FormPage.nameHint (exec Register.formSubmit (form_page bob_entries []))
  = Some {| FormPage.classes := ["form-hint"; "is-invalid"];
            FormPage.text := "At least 4 characters" |}.
Proof.
  destruct (forms_validate_first (form_page bob_entries []) bob_entries eq_refl)
    as [_ Hregister].
  destruct Hregister as (Hbrowser & _); [vm_compute; reflexivity|].
  rewrite Hbrowser. split; vm_compute; reflexivity.
Defined.

Lemma registerUser_outcome_witness :
  FormPage.text <$>
    FormPage.toast
      (exec (Register.registerUser bob_credentials)
         (form_page bob_entries
            [Response 400
               (Some (Obj [("errors",
                            Arr [Obj [("message", Str "Profile already exists")]])]))]))
  = Some "Registration failed. Please try again.".
Proof.
  destruct (registerUser_outcome
              (form_page bob_entries
                 [Response 400
                    (Some (Obj [("errors",
                                 Arr [Obj [("message", Str "Profile already exists")]])]))])
              bob_credentials
              {| FormPage.classes := ["toast-message"]; FormPage.text := EmptyString |}
              eq_refl)
    as (_ & _ & _ & Hfail).
  apply Hfail. intros (status & body & rest & [= <- _ _] & Hst). unfold is_2xx in Hst. lia.
Defined.

Lemma loginUser_shows_server_errors_witness :
  FormPage.toast
    (exec (Login.loginUser bob_credentials)
       (form_page bob_entries
          [Response 401
             (Some (Obj [("errors",
                          Arr [Obj [("message", Str "Invalid email or password")]])]))]))
  = Some {| FormPage.classes :=
              ["toast-message"; "toast-message--visible"; "toast-message--error"];
            FormPage.text := "Invalid email or password" |}.
Proof.
  refine (proj1 (loginUser_shows_server_errors
                   (form_page bob_entries
                      [Response 401
                         (Some (Obj [("errors",
                                      Arr [Obj [("message",
                                                 Str "Invalid email or password")]])]))])
                   bob_credentials
                   (Obj [("errors", Arr [Obj [("message", Str "Invalid email or password")]])])
                   401 []
                   [Obj [("message", Str "Invalid email or password")]]
                   ["Invalid email or password"]
                   {| FormPage.classes := ["toast-message"]; FormPage.text := EmptyString |}
                   eq_refl eq_refl _ eq_refl eq_refl _ _)).
  - right. lia.
  - repeat constructor.
  - discriminate.
Defined.

Lemma loginUser_success_witness :
  Storage.getToken
    (storage
       (FormPage.browser
          (exec (Login.loginUser bob_credentials)
             (form_page bob_entries
                [Response 200 (Some (Obj [("data", Obj (("accessToken", Str "tok-bob")
                                                         :: Sample.profile))]))]))))
  = Str "tok-bob".
Proof.
  destruct (loginUser_success
              (form_page bob_entries
                 [Response 200 (Some (Obj [("data", Obj (("accessToken", Str "tok-bob")
                                                          :: Sample.profile))]))])
              bob_credentials
              (Obj [("data", Obj (("accessToken", Str "tok-bob") :: Sample.profile))])
              200 []
              {| FormPage.classes := ["toast-message"]; FormPage.text := EmptyString |}
              eq_refl eq_refl)
    as (_ & _ & Hstored & _).
  - unfold is_2xx. lia.
  - rewrite Hstored; reflexivity.
Defined.

End AuthFormsExamples.
